(** * procurement_supply: the order-and-inventory engine of the REST API

    A shallow embedding of [procurement_supply/models.py],
    [procurement_supply/permissions.py] and the cart, order and list views of
    [procurement_supply/views.py].

    - The database is a record of tables.  Tables addressed by primary key
      are finite maps from the key to the row; the two position tables, which
      the views iterate over, are lists of rows carrying their key.
    - A view is a function from the request and the database to the new
      database and an outcome: a [Response] or a raised exception.  The
      views open no transaction and the project settings are not part of
      the application, so a view that fails after a [save()] returns the
      database as that [save()] left it (Django's default).
    - Foreign keys are enforced by the database.  The model still looks the
      target row up where a view does, and raises [DoesNotExist] when it is
      missing; lookups made only to word a mail or a response body are not
      repeated.
    - [Decimal] values are rationals; arithmetic on them is exact.
    - The celery tasks ([send_email]) and the [post_save] signals only send
      mail and are left out of the state. *)

From Stdlib Require Import ZArith QArith Lia.
From stdpp Require Import base option list gmap strings pretty.

Local Open Scope string_scope.
Local Open Scope Z_scope.

(** ** JSON values of [request.data] and the Python operators used on them *)

#[local] Unset Elimination Schemes.
Inductive JVal : Type :=
| JNull
| JBool (b : bool)
| JInt (n : Z)
| JFloat (q : Q)
| JStr (s : string)
| JArr (items : list JVal)
| JObj (members : list (string * JVal)).
#[local] Set Elimination Schemes.

(** Python truth value, as tested by [if request.data.get(k)]. *)
Definition truthy (v : JVal) : bool :=
  match v with
  | JNull => false
  | JBool b => b
  | JInt n => negb (n =? 0)
  | JFloat q => negb (Qeq_bool q 0)
  | JStr s => negb (String.eqb s "")
  | JArr items => match items with [] => false | _ => true end
  | JObj members => match members with [] => false | _ => true end
  end.

(** [request.data.get(k)] is [None] when the key is absent. *)
Definition get_truthy (v : option JVal) : bool :=
  match v with
  | None => false
  | Some x => truthy x
  end.

(** [v <= n] for an [int] [n]: defined on bool, int and float; Python 3
    raises [TypeError] on every other operand ([None] is the result here). *)
Definition py_le_int (v : JVal) (n : Z) : option bool :=
  match v with
  | JBool b => Some (Z.b2z b <=? n)
  | JInt m => Some (m <=? n)
  | JFloat q => Some (Qle_bool q (inject_Z n))
  | _ => None
  end.

(** [type(v) == int]; [bool] is a different type. *)
Definition type_is_int (v : JVal) : bool :=
  match v with
  | JInt _ => true
  | _ => false
  end.

(** ** Responses and exceptions *)

Module status.
Definition HTTP_200_OK : Z := 200.
Definition HTTP_201_CREATED : Z := 201.
Definition HTTP_204_NO_CONTENT : Z := 204.
Definition HTTP_400_BAD_REQUEST : Z := 400.
Definition HTTP_403_FORBIDDEN : Z := 403.
End status.

(** Exceptions a view can leave through.  The first four are REST framework
    API exceptions, which its exception handler turns into a response with a
    [detail]; the others are not handled and surface as a server error. *)
Inductive Exn : Type :=
| NotAuthenticated
| PermissionDenied
| Http404
| ValidationError
| TypeError
| AttributeError
| DoesNotExist.

Definition is_api_exception (e : Exn) : bool :=
  match e with
  | NotAuthenticated | PermissionDenied | Http404 | ValidationError => true
  | TypeError | AttributeError | DoesNotExist => false
  end.

Inductive Body : Type :=
| Detail (key message : string)
| Instance (pk : Z)
| Rows (pks : list Z)
| NoContent.

Inductive Outcome : Type :=
| Response (body : Body) (status_code : Z)
| Raise (e : Exn).

Definition succeeded (o : Outcome) : bool :=
  match o with
  | Response _ code => (200 <=? code) && (code <? 300)
  | Raise _ => false
  end.

(** A failure the caller can read: a 4xx response carrying a reason, or an
    API exception rendered by the framework. *)
Definition structured_failure (o : Outcome) : bool :=
  match o with
  | Response (Detail _ message) code =>
      (400 <=? code) && (code <? 500) && negb (String.eqb message "")
  | Response _ _ => false
  | Raise e => is_api_exception e
  end.

(** ** models.py *)

Inductive UserType : Type := purchaser | supplier | admin.

#[global] Instance UserType_eq_dec : EqDecision UserType.
Proof. solve_decision. Defined.

Record User : Type := mkUser {
  user_id : Z;
  user_type : UserType;
  is_superuser : bool }.

Inductive RequestUser : Type :=
| AnonymousUser
| Authenticated (u : User).

Record Supplier : Type := mkSupplier {
  supplier_user : Z;
  order_status : bool }.

Record Product : Type := mkProduct {
  product_name : string;
  product_category : Z }.

Record Stock : Type := mkStock {
  stock_sku : string;
  stock_product : Z;
  stock_supplier : Z;
  stock_price : Q;
  stock_quantity : Z }.

Record ProductCharacteristic : Type := mkProductCharacteristic {
  pc_stock : Z;
  pc_characteristic : Z;
  pc_value : string }.

Record Purchaser : Type := mkPurchaser {
  purchaser_user : Z }.

Record ChainStore : Type := mkChainStore {
  chain_store_purchaser : Z }.

Record ShoppingCart : Type := mkShoppingCart {
  cart_purchaser : Z }.

Record CartPosition : Type := mkCartPosition {
  cp_id : Z;
  cp_shopping_cart : Z;
  cp_stock : Z;
  cp_quantity : Z;
  cp_price : Q }.

Inductive OrderStatus : Type := saved | cancelled.

#[global] Instance OrderStatus_eq_dec : EqDecision OrderStatus.
Proof. solve_decision. Defined.

Record Order : Type := mkOrder {
  order_purchaser : Z;
  order_state : OrderStatus;
  order_chain_store : Z }.

Record OrderPosition : Type := mkOrderPosition {
  op_id : Z;
  op_order : Z;
  op_stock : Z;
  op_quantity : Z;
  op_price : Q;
  op_confirmed : bool;
  op_delivered : bool }.

Record DB : Type := mkDB {
  users : gmap Z User;
  suppliers : gmap Z Supplier;
  categories : gmap Z string;
  products : gmap Z Product;
  characteristics : gmap Z string;
  product_characteristics : gmap Z ProductCharacteristic;
  stocks : gmap Z Stock;
  purchasers : gmap Z Purchaser;
  chain_stores : gmap Z ChainStore;
  shopping_carts : gmap Z ShoppingCart;
  cart_positions : list CartPosition;
  orders : gmap Z Order;
  order_positions : list OrderPosition;
  next_cart_position_id : Z;
  next_order_id : Z;
  next_order_position_id : Z }.

(** Foreign keys are followed with a join: a row whose target is missing
    matches no filter. *)
Definition supplier_user_of_stock (db : DB) (stock_pk : Z) : option Z :=
  stock ← stocks db !! stock_pk;
  sup ← suppliers db !! stock_supplier stock;
  Some (supplier_user sup).

Definition purchaser_user_of (db : DB) (purchaser_pk : Z) : option Z :=
  purchaser_user <$> purchasers db !! purchaser_pk.

Definition purchaser_user_of_cart (db : DB) (cart_pk : Z) : option Z :=
  cart ← shopping_carts db !! cart_pk;
  purchaser_user_of db (cart_purchaser cart).

Definition purchaser_user_of_order (db : DB) (order_pk : Z) : option Z :=
  order ← orders db !! order_pk;
  purchaser_user_of db (order_purchaser order).

(** [fk == request.user] *)
Definition is_user (fk : option Z) (u : User) : bool :=
  match fk with
  | Some pk => pk =? user_id u
  | None => false
  end.

(** ** permissions.py *)

Inductive Permission : Type :=
| IsAuthenticated
| IsPurchaser
| IsSupplier
| IsAdmin
| IsUser
| IsOwner
| IsStockOwner
| IsStockReferencedOwner
| IsPurchaserOwner
| IsCartStockOwner
| IsCartPositionOwner
| IsOrderStockOwner
| IsOrderPositionOwner
| OR (a b : Permission).

Infix "|||" := OR (at level 50, left associativity).

Definition is_type (t : UserType) (u : User) : bool :=
  bool_decide (user_type u = t).

Fixpoint has_permission (perm : Permission) (user : RequestUser) : bool :=
  match perm, user with
  | OR a b, _ => has_permission a user || has_permission b user
  | _, AnonymousUser => false
  | IsAuthenticated, Authenticated _ => true
  | IsPurchaser, Authenticated u => is_type purchaser u
  | IsSupplier, Authenticated u => is_type supplier u
  | IsAdmin, Authenticated u => is_superuser u
  | IsUser, Authenticated _ => true
  | IsOwner, Authenticated _ => true
  | IsStockOwner, Authenticated u => is_type supplier u
  | IsStockReferencedOwner, Authenticated u => is_type supplier u
  | IsPurchaserOwner, Authenticated u => is_type purchaser u
  | IsCartStockOwner, Authenticated u => is_type supplier u
  | IsCartPositionOwner, Authenticated u => is_type purchaser u
  | IsOrderStockOwner, Authenticated u => is_type supplier u
  | IsOrderPositionOwner, Authenticated u => is_type purchaser u
  end.

(** [has_object_permission] of the permission classes guarding the views
    that change the cart and the orders. *)
Definition IsCartPositionOwner_has_object_permission
    (db : DB) (u : User) (obj : CartPosition) : bool :=
  is_user (purchaser_user_of_cart db (cp_shopping_cart obj)) u.

Definition IsPurchaserOwner_has_object_permission
    (db : DB) (u : User) (obj_purchaser : Z) : bool :=
  is_user (purchaser_user_of db obj_purchaser) u.

Definition IsStockReferencedOwner_has_object_permission
    (db : DB) (u : User) (obj_stock : Z) : bool :=
  is_user (supplier_user_of_stock db obj_stock) u.

(** [APIView.check_permissions] and [APIView.permission_denied]: the first
    permission that refuses ends the request, with [NotAuthenticated] when
    nobody authenticated and [PermissionDenied] otherwise. *)
Definition permission_denied (user : RequestUser) : Exn :=
  match user with
  | AnonymousUser => NotAuthenticated
  | Authenticated _ => PermissionDenied
  end.

Fixpoint check_permissions (perms : list Permission) (user : RequestUser)
  : option Exn :=
  match perms with
  | [] => None
  | perm :: rest =>
      if has_permission perm user then check_permissions rest user
      else Some (permission_denied user)
  end.

(** ** views.py: [get_permissions] and [get_queryset] *)

Inductive ViewSet : Type :=
| UserViewSet
| SupplierViewSet
| CategoryViewSet
| ProductViewSet
| CharacteristicViewSet
| StockViewSet
| ProductCharacteristicViewSet
| PurchaserViewSet
| ShoppingCartViewSet
| CartPositionViewSet
| ChainStoreViewSet
| OrderViewSet
| OrderPositionViewSet.

#[global] Instance ViewSet_eq_dec : EqDecision ViewSet.
Proof. solve_decision. Defined.

Inductive Action : Type :=
| list_ | retrieve | create | update | partial_update | destroy.

Definition get_permissions (view : ViewSet) (action : Action)
  : list Permission :=
  match view, action with
  | UserViewSet, list_ => [IsAuthenticated]
  | UserViewSet, destroy => [IsAdmin]
  | UserViewSet, (retrieve | update | partial_update) => [IsAdmin ||| IsUser]
  | UserViewSet, create => []
  | SupplierViewSet, list_ => [IsAuthenticated]
  | SupplierViewSet, destroy => [IsAdmin]
  | SupplierViewSet, retrieve => [IsAdmin ||| IsOwner ||| IsPurchaser]
  | SupplierViewSet, (update | partial_update) => [IsOwner]
  | SupplierViewSet, create => [IsSupplier]
  | (CategoryViewSet | ProductViewSet | CharacteristicViewSet),
    (list_ | retrieve) => [IsAuthenticated]
  | (CategoryViewSet | ProductViewSet | CharacteristicViewSet), create =>
      [IsAdmin ||| IsSupplier]
  | (CategoryViewSet | ProductViewSet | CharacteristicViewSet),
    (destroy | update | partial_update) => [IsAdmin]
  | StockViewSet, list_ => [IsAuthenticated]
  | StockViewSet, retrieve => [IsAdmin ||| IsPurchaser ||| IsStockOwner]
  | StockViewSet, create => [IsSupplier]
  | StockViewSet, (update | partial_update) => [IsStockOwner]
  | StockViewSet, destroy => [IsAdmin]
  | ProductCharacteristicViewSet, (list_ | retrieve) => [IsAuthenticated]
  | ProductCharacteristicViewSet, create => [IsSupplier]
  | ProductCharacteristicViewSet, (update | partial_update | destroy) =>
      [IsStockReferencedOwner]
  | PurchaserViewSet, list_ => [IsAdmin ||| IsPurchaser]
  | PurchaserViewSet, retrieve => [IsAdmin ||| IsOwner]
  | PurchaserViewSet, (update | partial_update) => [IsOwner]
  | PurchaserViewSet, create => [IsPurchaser]
  | PurchaserViewSet, destroy => []
  | ShoppingCartViewSet, list_ => [IsAuthenticated]
  | ShoppingCartViewSet, retrieve =>
      [IsAdmin ||| IsPurchaserOwner ||| IsCartStockOwner]
  | ShoppingCartViewSet, destroy => [IsPurchaserOwner]
  | ShoppingCartViewSet, (create | update | partial_update) => []
  | CartPositionViewSet, list_ => [IsAuthenticated]
  | CartPositionViewSet, retrieve =>
      [IsAdmin ||| IsCartPositionOwner ||| IsStockReferencedOwner]
  | CartPositionViewSet, (destroy | update | partial_update) =>
      [IsCartPositionOwner]
  | CartPositionViewSet, create => [IsPurchaser]
  | ChainStoreViewSet, list_ => [IsAuthenticated]
  | ChainStoreViewSet, retrieve =>
      [IsAdmin ||| IsPurchaserOwner ||| IsSupplier]
  | ChainStoreViewSet, (update | partial_update) => [IsPurchaserOwner]
  | ChainStoreViewSet, destroy => [IsAdmin]
  | ChainStoreViewSet, create => [IsPurchaser]
  | OrderViewSet, list_ => [IsAuthenticated]
  | OrderViewSet, retrieve =>
      [IsAdmin ||| IsPurchaserOwner ||| IsOrderStockOwner]
  | OrderViewSet, (destroy | update | partial_update) => [IsPurchaserOwner]
  | OrderViewSet, create => [IsPurchaser]
  | OrderPositionViewSet, list_ => [IsAuthenticated]
  | OrderPositionViewSet, retrieve =>
      [IsAdmin ||| IsOrderPositionOwner ||| IsStockReferencedOwner]
  | OrderPositionViewSet, (update | partial_update) =>
      [IsStockReferencedOwner]
  | OrderPositionViewSet, (create | destroy) => []
  end.

(** [queryset.filter(...)] on a table keyed by primary key. *)
Definition queryset_filter {A} (f : Z → A → bool) (table : gmap Z A)
  : gmap Z A :=
  filter (λ row : Z * A, Is_true (f row.1 row.2)) table.

Definition pks {A} (table : gmap Z A) : list Z := (map_to_list table).*1.

(** The stock's supplier belongs to the user. *)
Definition stock_of_user (db : DB) (u : User) (stock_pk : Z) : bool :=
  is_user (supplier_user_of_stock db stock_pk) u.

(** Each [get_queryset] tests [is_superuser], then the user's type against
    ["purchaser"] and ["supplier"]; when no test applies the method falls off
    its end and returns [None]. *)
Definition UserViewSet_get_queryset (db : DB) (u : User)
  : option (gmap Z User) :=
  if is_superuser u then Some (users db)
  else Some (queryset_filter (λ pk _, pk =? user_id u) (users db)).

Definition SupplierViewSet_get_queryset (db : DB) (u : User)
  : option (gmap Z Supplier) :=
  if is_superuser u || is_type purchaser u then Some (suppliers db)
  else if is_type supplier u then
    Some (queryset_filter (λ _ s, supplier_user s =? user_id u) (suppliers db))
  else None.

Definition StockViewSet_get_queryset (db : DB) (u : User)
  : option (gmap Z Stock) :=
  if is_superuser u then Some (stocks db)
  else if is_type purchaser u then
    Some (queryset_filter
            (λ _ s, match suppliers db !! stock_supplier s with
                    | Some sup => order_status sup && (0 <? stock_quantity s)
                    | None => false
                    end)
            (stocks db))
  else if is_type supplier u then
    Some (queryset_filter (λ pk _, stock_of_user db u pk) (stocks db))
  else None.

Definition PurchaserViewSet_get_queryset (db : DB) (u : User)
  : option (gmap Z Purchaser) :=
  if is_superuser u then Some (purchasers db)
  else if is_type purchaser u then
    Some (queryset_filter (λ _ p, purchaser_user p =? user_id u)
            (purchasers db))
  else None.

Definition ShoppingCartViewSet_get_queryset (db : DB) (u : User)
  : option (gmap Z ShoppingCart) :=
  if is_superuser u then Some (shopping_carts db)
  else if is_type purchaser u then
    Some (queryset_filter
            (λ _ c, is_user (purchaser_user_of db (cart_purchaser c)) u)
            (shopping_carts db))
  else if is_type supplier u then
    Some (queryset_filter
            (λ pk _, existsb (λ p, (cp_shopping_cart p =? pk)
                                   && stock_of_user db u (cp_stock p))
                       (cart_positions db))
            (shopping_carts db))
  else None.

Definition CartPositionViewSet_get_queryset (db : DB) (u : User)
  : option (list CartPosition) :=
  if is_superuser u then Some (cart_positions db)
  else if is_type purchaser u then
    Some (List.filter
            (λ p, is_user (purchaser_user_of_cart db (cp_shopping_cart p)) u)
            (cart_positions db))
  else if is_type supplier u then
    Some (List.filter (λ p, stock_of_user db u (cp_stock p))
            (cart_positions db))
  else None.

Definition ChainStoreViewSet_get_queryset (db : DB) (u : User)
  : option (gmap Z ChainStore) :=
  if is_superuser u || is_type supplier u then Some (chain_stores db)
  else if is_type purchaser u then
    Some (queryset_filter
            (λ _ c, is_user (purchaser_user_of db (chain_store_purchaser c)) u)
            (chain_stores db))
  else None.

Definition OrderViewSet_get_queryset (db : DB) (u : User)
  : option (gmap Z Order) :=
  if is_superuser u then Some (orders db)
  else if is_type purchaser u then
    Some (queryset_filter
            (λ _ o, is_user (purchaser_user_of db (order_purchaser o)) u)
            (orders db))
  else if is_type supplier u then
    Some (queryset_filter
            (λ pk _, existsb (λ p, (op_order p =? pk)
                                   && stock_of_user db u (op_stock p))
                       (order_positions db))
            (orders db))
  else None.

Definition OrderPositionViewSet_get_queryset (db : DB) (u : User)
  : option (list OrderPosition) :=
  if is_superuser u then Some (order_positions db)
  else if is_type purchaser u then
    Some (List.filter
            (λ p, is_user (purchaser_user_of_order db (op_order p)) u)
            (order_positions db))
  else if is_type supplier u then
    Some (List.filter (λ p, stock_of_user db u (op_stock p))
            (order_positions db))
  else None.

(** Primary keys of the rows a view's [get_queryset] returns; the four
    catalogue views without a [get_queryset] of their own return their whole
    table. *)
Definition get_queryset (view : ViewSet) (db : DB) (u : User)
  : option (list Z) :=
  match view with
  | UserViewSet => pks <$> UserViewSet_get_queryset db u
  | SupplierViewSet => pks <$> SupplierViewSet_get_queryset db u
  | CategoryViewSet => Some (pks (categories db))
  | ProductViewSet => Some (pks (products db))
  | CharacteristicViewSet => Some (pks (characteristics db))
  | StockViewSet => pks <$> StockViewSet_get_queryset db u
  | ProductCharacteristicViewSet => Some (pks (product_characteristics db))
  | PurchaserViewSet => pks <$> PurchaserViewSet_get_queryset db u
  | ShoppingCartViewSet => pks <$> ShoppingCartViewSet_get_queryset db u
  | CartPositionViewSet =>
      fmap (M:=list) cp_id <$> CartPositionViewSet_get_queryset db u
  | ChainStoreViewSet => pks <$> ChainStoreViewSet_get_queryset db u
  | OrderViewSet => pks <$> OrderViewSet_get_queryset db u
  | OrderPositionViewSet =>
      fmap (M:=list) op_id <$> OrderPositionViewSet_get_queryset db u
  end.

(** Primary keys of all rows of the view's model. *)
Definition all_pks (view : ViewSet) (db : DB) : list Z :=
  match view with
  | UserViewSet => pks (users db)
  | SupplierViewSet => pks (suppliers db)
  | CategoryViewSet => pks (categories db)
  | ProductViewSet => pks (products db)
  | CharacteristicViewSet => pks (characteristics db)
  | StockViewSet => pks (stocks db)
  | ProductCharacteristicViewSet => pks (product_characteristics db)
  | PurchaserViewSet => pks (purchasers db)
  | ShoppingCartViewSet => pks (shopping_carts db)
  | CartPositionViewSet => cp_id <$> cart_positions db
  | ChainStoreViewSet => pks (chain_stores db)
  | OrderViewSet => pks (orders db)
  | OrderPositionViewSet => op_id <$> order_positions db
  end.

(** [APIView.initial]: the permissions of the action are checked before its
    handler runs. *)
Definition initial (view : ViewSet) (action : Action) (user : RequestUser)
  : option Exn :=
  check_permissions (get_permissions view action) user.

(** [ListModelMixin.list]: the rows of [get_queryset].  A [get_queryset]
    that returned [None] makes the framework fail on it ([TypeError] or
    [AttributeError], by the filter backend in use); no handler catches it.
    [AnonymousUser] has no [type] attribute. *)
Definition list_view (view : ViewSet) (user : RequestUser) (db : DB)
  : Outcome :=
  match initial view list_ user with
  | Some e => Raise e
  | None =>
      match user with
      | AnonymousUser => Raise AttributeError
      | Authenticated u =>
          match get_queryset view db u with
          | Some rows => Response (Rows rows) status.HTTP_200_OK
          | None => Raise TypeError
          end
      end
  end.

(** ** models.py: derived properties *)

(** [order.order_positions.all()] and [shopping_cart.cart_positions.all()] *)
Definition order_positions_of (db : DB) (order_pk : Z) : list OrderPosition :=
  List.filter (λ p, op_order p =? order_pk) (order_positions db).

Definition cart_positions_of (db : DB) (cart_pk : Z) : list CartPosition :=
  List.filter (λ p, cp_shopping_cart p =? cart_pk) (cart_positions db).

Definition CartPosition_amount (p : CartPosition) : Q :=
  (inject_Z (cp_quantity p) * cp_price p)%Q.

Definition OrderPosition_amount (p : OrderPosition) : Q :=
  (inject_Z (op_quantity p) * op_price p)%Q.

Module ShoppingCart.
Definition calculate_total_quantity (db : DB) (cart_pk : Z) : Z :=
  foldl Z.add 0 (cp_quantity <$> cart_positions_of db cart_pk).

Definition calculate_total_amount (db : DB) (cart_pk : Z) : Q :=
  foldl Qplus 0%Q (CartPosition_amount <$> cart_positions_of db cart_pk).
End ShoppingCart.

Module Order.
Fixpoint all_confirmed (positions : list OrderPosition) : bool :=
  match positions with
  | [] => true
  | position :: rest =>
      if negb (op_confirmed position) then false else all_confirmed rest
  end.

Definition check_confirmed (db : DB) (order_pk : Z) : bool :=
  all_confirmed (order_positions_of db order_pk).

Fixpoint all_delivered (positions : list OrderPosition) : bool :=
  match positions with
  | [] => true
  | position :: rest =>
      if negb (op_delivered position) then false else all_delivered rest
  end.

Definition check_delivered (db : DB) (order_pk : Z) : bool :=
  all_delivered (order_positions_of db order_pk).

Definition calculate_total_quantity (db : DB) (order_pk : Z) : Z :=
  foldl Z.add 0 (op_quantity <$> order_positions_of db order_pk).

(** The loop of [calculate_total_amount]: [amount] and the set of
    suppliers met so far.  [position.stock.supplier] loads the stock and
    its supplier; a missing row raises [DoesNotExist] ([None]). *)
Fixpoint total_amount_loop (db : DB) (positions : list OrderPosition)
    (amount : Q) (suppliers_ : gset Z) : option (Q * gset Z) :=
  match positions with
  | [] => Some (amount, suppliers_)
  | position :: rest =>
      stock ← stocks db !! op_stock position;
      _ ← suppliers db !! stock_supplier stock;
      total_amount_loop db rest
        (amount + OrderPosition_amount position)%Q
        (suppliers_ ∪ {[stock_supplier stock]})
  end.

Section Settings.
(** [settings.COMBINED_ORDER_MULTIPLIER]; the settings module is not
    part of the application. *)
Variable COMBINED_ORDER_MULTIPLIER : Q.

Definition calculate_total_amount (db : DB) (order_pk : Z) : option Q :=
  '(amount, suppliers_) ←
    total_amount_loop db (order_positions_of db order_pk) 0%Q ∅;
  if (1 <? size suppliers_)%nat
  then Some (COMBINED_ORDER_MULTIPLIER * amount)%Q
  else Some amount.
End Settings.
End Order.

(** ** Writing rows *)

Definition set_stocks (table : gmap Z Stock) (db : DB) : DB :=
  mkDB (users db) (suppliers db) (categories db) (products db)
    (characteristics db) (product_characteristics db) table (purchasers db)
    (chain_stores db) (shopping_carts db) (cart_positions db) (orders db)
    (order_positions db) (next_cart_position_id db) (next_order_id db)
    (next_order_position_id db).

Definition set_cart_positions (rows : list CartPosition) (next : Z) (db : DB)
  : DB :=
  mkDB (users db) (suppliers db) (categories db) (products db)
    (characteristics db) (product_characteristics db) (stocks db)
    (purchasers db) (chain_stores db) (shopping_carts db) rows (orders db)
    (order_positions db) next (next_order_id db) (next_order_position_id db).

Definition set_orders (table : gmap Z Order) (next : Z) (db : DB) : DB :=
  mkDB (users db) (suppliers db) (categories db) (products db)
    (characteristics db) (product_characteristics db) (stocks db)
    (purchasers db) (chain_stores db) (shopping_carts db) (cart_positions db)
    table (order_positions db) (next_cart_position_id db) next
    (next_order_position_id db).

Definition set_order_positions (rows : list OrderPosition) (next : Z)
    (db : DB) : DB :=
  mkDB (users db) (suppliers db) (categories db) (products db)
    (characteristics db) (product_characteristics db) (stocks db)
    (purchasers db) (chain_stores db) (shopping_carts db) (cart_positions db)
    (orders db) rows (next_cart_position_id db) (next_order_id db) next.

Definition with_quantity (quantity : Z) (stock : Stock) : Stock :=
  mkStock (stock_sku stock) (stock_product stock) (stock_supplier stock)
    (stock_price stock) quantity.

(** [stock.quantity = quantity; stock.save()] *)
Definition save_stock_quantity (stock_pk : Z) (stock : Stock) (quantity : Z)
    (db : DB) : DB :=
  set_stocks (<[stock_pk := with_quantity quantity stock]> (stocks db)) db.

(** The loop [for position in positions: stock = Stock.objects.get(...);
    stock.quantity += position.quantity; stock.save()], over the pairs
    (stock key, quantity) of the positions.  It stops at a missing stock
    with the rows written so far. *)
Fixpoint return_to_stock (items : list (Z * Z)) (table : gmap Z Stock)
  : gmap Z Stock * option Exn :=
  match items with
  | [] => (table, None)
  | (stock_pk, quantity) :: rest =>
      match table !! stock_pk with
      | None => (table, Some DoesNotExist)
      | Some stock =>
          return_to_stock rest
            (<[stock_pk := with_quantity (stock_quantity stock + quantity)
                             stock]> table)
      end
  end.

(** First row of [table.filter(...)], for the reverse side of a one-to-one
    relation. *)
Definition find_row {A} (f : Z → A → bool) (table : gmap Z A)
  : option (Z * A) :=
  head (map_to_list (queryset_filter f table)).

(** [Purchaser.objects.get(user=user)], as a key. *)
Definition purchaser_of_user (db : DB) (u : User) : option Z :=
  fst <$> find_row (λ _ p, purchaser_user p =? user_id u) (purchasers db).

(** [purchaser.shopping_cart], as a key. *)
Definition shopping_cart_of (db : DB) (purchaser_pk : Z) : option Z :=
  fst <$> find_row (λ _ c, cart_purchaser c =? purchaser_pk)
            (shopping_carts db).

(** ** views.py: the cart *)

(** [request.data] of a cart position request.  The relation keys carry a
    primary key, the price a decimal; [quantity] is any JSON value. *)
Record CartPositionData : Type := mkCartPositionData {
  data_shopping_cart : option Z;
  data_stock : option Z;
  data_quantity : option JVal;
  data_price : option Q }.

Definition pk_truthy (v : option Z) : bool :=
  match v with
  | Some pk => negb (pk =? 0)
  | None => false
  end.

Definition decimal_truthy (v : option Q) : bool :=
  match v with
  | Some q => negb (Qeq_bool q 0)
  | None => false
  end.

Definition bad_request (key message : string) : Outcome :=
  Response (Detail key message) status.HTTP_400_BAD_REQUEST.

Definition supplier_takes_no_orders : string :=
  "This supplier does not take new orders at the moment".

(** [MinValueValidator(0.01)] on [price]: the limit is the float [0.01],
    which is 5764607523034235 / 2^59, a little above one hundredth. *)
Definition price_min_value : Q := 5764607523034235 # 576460752303423488.

Definition price_is_valid (price : Q) : bool :=
  Qle_bool price_min_value price.

(** [unique_shopping_cart_stock] *)
Definition cart_has_stock (db : DB) (cart_pk stock_pk : Z) : bool :=
  existsb (λ p, (cp_stock p =? stock_pk) && (cp_shopping_cart p =? cart_pk))
    (cart_positions db).

(** [CartPositionSerializer(data=request.data).is_valid()]: every field is
    required; a relation must name an existing row, [quantity] is an integer
    not below 0, [price] reaches its minimum, and the pair (cart, stock) is
    new. *)
Definition CartPositionSerializer_validate (db : DB) (data : CartPositionData)
  : option CartPosition :=
  match data_shopping_cart data, data_stock data, data_quantity data,
        data_price data with
  | Some cart_pk, Some stock_pk, Some (JInt quantity), Some price =>
      if bool_decide (is_Some (shopping_carts db !! cart_pk))
         && bool_decide (is_Some (stocks db !! stock_pk))
         && (0 <=? quantity)
         && price_is_valid price
         && negb (cart_has_stock db cart_pk stock_pk)
      then Some (mkCartPosition (next_cart_position_id db) cart_pk stock_pk
                   quantity price)
      else None
  | _, _, _, _ => None
  end.

(** [CreateModelMixin.create] *)
Definition CartPosition_create (data : CartPositionData) (db : DB)
  : DB * Outcome :=
  match CartPositionSerializer_validate db data with
  | None => (db, Raise ValidationError)
  | Some row =>
      (set_cart_positions (cart_positions db ++ [row])
         (next_cart_position_id db + 1) db,
       Response (Instance (cp_id row)) status.HTTP_201_CREATED)
  end.

(** [GenericAPIView.get_object] on cart positions, for the actions guarded
    by [IsCartPositionOwner]. *)
Definition CartPositionViewSet_get_object (db : DB) (u : User) (pk : Z)
  : Exn + CartPosition :=
  match CartPositionViewSet_get_queryset db u with
  | None => inl AttributeError
  | Some queryset =>
      match List.find (λ p, cp_id p =? pk) queryset with
      | None => inl Http404
      | Some obj =>
          if IsCartPositionOwner_has_object_permission db u obj
          then inr obj
          else inl PermissionDenied
      end
  end.

(** [serializer.is_valid()] of a partial update: the keys present are
    checked as on creation, the pair (cart, stock) only when one of them
    changes.  The result is the row to save. *)
Definition CartPositionSerializer_validate_partial (db : DB)
    (instance : CartPosition) (data : CartPositionData)
  : option CartPosition :=
  let cart_pk :=
    default (cp_shopping_cart instance) (data_shopping_cart data) in
  let stock_pk := default (cp_stock instance) (data_stock data) in
  let price := default (cp_price instance) (data_price data) in
  let moved := negb ((cart_pk =? cp_shopping_cart instance)
                     && (stock_pk =? cp_stock instance)) in
  match default (JInt (cp_quantity instance)) (data_quantity data) with
  | JInt quantity =>
      if match data_shopping_cart data with
         | Some pk => bool_decide (is_Some (shopping_carts db !! pk))
         | None => true
         end
         && match data_stock data with
            | Some pk => bool_decide (is_Some (stocks db !! pk))
            | None => true
            end
         && (0 <=? quantity)
         && match data_price data with
            | Some p => price_is_valid p
            | None => true
            end
         && negb (moved && cart_has_stock db cart_pk stock_pk)
      then Some (mkCartPosition (cp_id instance) cart_pk stock_pk quantity
                   price)
      else None
  | _ => None
  end.

Definition replace_cart_position (row : CartPosition)
    (rows : list CartPosition) : list CartPosition :=
  (λ p, if cp_id p =? cp_id row then row else p) <$> rows.

(** [UpdateModelMixin.update] with [partial=True] (the view answers PATCH
    only). *)
Definition CartPosition_update (pk : Z) (data : CartPositionData) (u : User)
    (db : DB) : DB * Outcome :=
  match CartPositionViewSet_get_object db u pk with
  | inl e => (db, Raise e)
  | inr instance =>
      match CartPositionSerializer_validate_partial db instance data with
      | None => (db, Raise ValidationError)
      | Some row =>
          (set_cart_positions (replace_cart_position row (cart_positions db))
             (next_cart_position_id db) db,
           Response (Instance pk) status.HTTP_200_OK)
      end
  end.

(** [DestroyModelMixin.destroy] *)
Definition CartPosition_destroy (pk : Z) (u : User) (db : DB)
  : DB * Outcome :=
  match CartPositionViewSet_get_object db u pk with
  | inl e => (db, Raise e)
  | inr instance =>
      (set_cart_positions
         (List.filter (λ p, negb (cp_id p =? cp_id instance))
            (cart_positions db))
         (next_cart_position_id db) db,
       Response NoContent status.HTTP_204_NO_CONTENT)
  end.

(** A handler runs after [initial]; the actions modelled all require an
    authenticated user of a given type. *)
Definition dispatch (view : ViewSet) (action : Action) (user : RequestUser)
    (handler : User → DB → DB * Outcome) (db : DB) : DB * Outcome :=
  match initial view action user with
  | Some e => (db, Raise e)
  | None =>
      match user with
      | AnonymousUser => (db, Raise AttributeError)
      | Authenticated u => handler u db
      end
  end.

(** [CartPositionViewSet.create].  The checks run in the order of the
    source: both fields sent, the purchaser, the pair (cart, stock), the
    stock and its supplier, and only then the quantity: [<= 0] is evaluated
    before the type is looked at. *)
Definition CartPositionViewSet_create (data : CartPositionData) (u : User)
    (db : DB) : DB * Outcome :=
  match data_stock data, data_quantity data with
  | Some stock_pk, Some quantity =>
    if negb (stock_pk =? 0) && truthy quantity then
      match purchaser_of_user db u with
      | None =>
          (db, bad_request "error"
                 ("You need to create Purchaser and ShoppingCart "
                  +:+ "will be created as well"))
      | Some purchaser_pk =>
        match shopping_cart_of db purchaser_pk with
        | None => (db, Raise DoesNotExist)
        | Some cart_pk =>
          if cart_has_stock db cart_pk stock_pk then
            (db, bad_request "error"
                   "You already have this product in your cart")
          else
            match stocks db !! stock_pk with
            | None => (db, Raise DoesNotExist)
            | Some stock =>
              match suppliers db !! stock_supplier stock with
              | None => (db, Raise DoesNotExist)
              | Some sup =>
                if negb (order_status sup) then
                  (db, bad_request "error" supplier_takes_no_orders)
                else
                  let data :=
                    mkCartPositionData (Some cart_pk) (Some stock_pk)
                      (Some quantity) (Some (stock_price stock)) in
                  match py_le_int quantity 0 with
                  | None => (db, Raise TypeError)
                  | Some not_positive =>
                    if not_positive || negb (type_is_int quantity) then
                      (db, bad_request "quantity"
                             "Ensure this value is integer and greater than 0.")
                    else
                      match quantity with
                      | JInt n =>
                        if stock_quantity stock <? n then
                          (db, bad_request "error"
                                 ("Not enough stock. Only "
                                  +:+ pretty (stock_quantity stock)
                                  +:+ " is available"))
                        else
                          CartPosition_create data
                            (save_stock_quantity stock_pk stock
                               (stock_quantity stock - n) db)
                      | _ => (db, Raise TypeError)
                      end
                  end
              end
            end
        end
      end
    else (db, bad_request "error" "Fields stock and quantity are required")
  | _, _ =>
      (db, bad_request "error" "Fields stock and quantity are required")
  end.

(** [CartPositionViewSet.destroy] *)
Definition CartPositionViewSet_destroy (pk : Z) (u : User) (db : DB)
  : DB * Outcome :=
  match CartPositionViewSet_get_object db u pk with
  | inl e => (db, Raise e)
  | inr cart_position =>
      match stocks db !! cp_stock cart_position with
      | None => (db, Raise DoesNotExist)
      | Some stock =>
          CartPosition_destroy pk u
            (save_stock_quantity (cp_stock cart_position) stock
               (stock_quantity stock + cp_quantity cart_position) db)
      end
  end.

(** [CartPositionViewSet.update].  The quantity is checked before the
    position is fetched; after an increase the view puts the stock's price
    into [request.data], and the serializer saves it with the quantity. *)
Definition CartPositionViewSet_update (pk : Z) (data : CartPositionData)
    (u : User) (db : DB) : DB * Outcome :=
  if pk_truthy (data_shopping_cart data) || pk_truthy (data_stock data)
     || decimal_truthy (data_price data)
  then (db, bad_request "error" "Only quantity field may be amended")
  else
    match data_quantity data with
    | None => CartPosition_update pk data u db
    | Some quantity =>
      match py_le_int quantity 0 with
      | None => (db, Raise TypeError)
      | Some not_positive =>
        if not_positive || negb (type_is_int quantity) then
          (db, bad_request "quantity"
                 "Ensure this value is integer and greater than 0.")
        else
          match CartPositionViewSet_get_object db u pk with
          | inl e => (db, Raise e)
          | inr cart_position =>
            match stocks db !! cp_stock cart_position, quantity with
            | None, _ => (db, Raise DoesNotExist)
            | Some stock, JInt n =>
              if n <=? cp_quantity cart_position then
                CartPosition_update pk data u
                  (save_stock_quantity (cp_stock cart_position) stock
                     (stock_quantity stock + (cp_quantity cart_position - n))
                     db)
              else
                match suppliers db !! stock_supplier stock with
                | None => (db, Raise DoesNotExist)
                | Some sup =>
                  if negb (order_status sup) then
                    (db, bad_request "error" supplier_takes_no_orders)
                  else if n - cp_quantity cart_position
                          <=? stock_quantity stock then
                    CartPosition_update pk
                      (mkCartPositionData (data_shopping_cart data)
                         (data_stock data) (data_quantity data)
                         (Some (stock_price stock)))
                      u
                      (save_stock_quantity (cp_stock cart_position) stock
                         (stock_quantity stock
                          - (n - cp_quantity cart_position)) db)
                  else
                    (db, bad_request "error"
                           ("Not enough stock. You can add only "
                            +:+ pretty (stock_quantity stock)
                            +:+ " to your initial quantity"))
                end
            | Some _, _ => (db, Raise TypeError)
            end
          end
      end
    end.

(** [GenericAPIView.get_object] on shopping carts, for [destroy], guarded by
    [IsPurchaserOwner]. *)
Definition ShoppingCartViewSet_get_object (db : DB) (u : User) (pk : Z)
  : Exn + ShoppingCart :=
  match ShoppingCartViewSet_get_queryset db u with
  | None => inl AttributeError
  | Some queryset =>
      match queryset !! pk with
      | None => inl Http404
      | Some obj =>
          if IsPurchaserOwner_has_object_permission db u (cart_purchaser obj)
          then inr obj
          else inl PermissionDenied
      end
  end.

(** [ShoppingCartViewSet.destroy] *)
Definition ShoppingCartViewSet_destroy (pk : Z) (u : User) (db : DB)
  : DB * Outcome :=
  match ShoppingCartViewSet_get_object db u pk with
  | inl e => (db, Raise e)
  | inr _ =>
      let positions := cart_positions_of db pk in
      match return_to_stock ((λ p, (cp_stock p, cp_quantity p)) <$> positions)
              (stocks db) with
      | (table, Some e) => (set_stocks table db, Raise e)
      | (table, None) =>
          (set_cart_positions
             (List.filter (λ p, negb (cp_shopping_cart p =? pk))
                (cart_positions db))
             (next_cart_position_id db) (set_stocks table db),
           Response (Detail "success" "Your shopping cart is empty")
             status.HTTP_200_OK)
      end
  end.

(** ** views.py: orders *)

(** [request.data] of an order request.  [od_purchaser] records whether the
    key is present. *)
Record OrderData : Type := mkOrderData {
  od_purchaser : option Z;
  od_chain_store : option Z }.

(** The loop of [OrderViewSet.create] that copies the cart:
    [OrderPosition.objects.create(order=order, stock=position.stock,
    quantity=position.quantity, price=position.price)], keys counted from
    [next].  Loading [position.stock] raises when the row is missing. *)
Fixpoint create_order_positions (table : gmap Z Stock) (order_pk next : Z)
    (positions : list CartPosition) : list OrderPosition * option Exn :=
  match positions with
  | [] => ([], None)
  | position :: rest =>
      match table !! cp_stock position with
      | None => ([], Some DoesNotExist)
      | Some _ =>
          let new_position :=
            mkOrderPosition next order_pk (cp_stock position)
              (cp_quantity position) (cp_price position) false false in
          let '(created, e) :=
            create_order_positions table order_pk (next + 1) rest in
          (new_position :: created, e)
      end
  end.

(** [OrderViewSet.create].  [OrderCreateSerializer] requires the chain
    store to be sent and to exist; the order gets the default status. *)
Definition OrderViewSet_create (data : OrderData) (u : User) (db : DB)
  : DB * Outcome :=
  match purchaser_of_user db u with
  | None =>
      (db, bad_request "error"
             "you need to create Purchaser before you create or update Orders")
  | Some purchaser_pk =>
    match shopping_cart_of db purchaser_pk with
    | None => (db, Raise DoesNotExist)
    | Some cart_pk =>
      let positions := cart_positions_of db cart_pk in
      if (length positions =? 0)%nat then
        (db, bad_request "error" "Your shopping cart is empty")
      else
        match od_chain_store data with
        | None => (db, Raise ValidationError)
        | Some chain_store_pk =>
          match chain_stores db !! chain_store_pk with
          | None => (db, Raise ValidationError)
          | Some chain_store =>
            if negb (chain_store_purchaser chain_store =? purchaser_pk) then
              (db, bad_request "error"
                     "Your can order delivery only to your chain stores")
            else
              let order_pk := next_order_id db in
              let db1 :=
                set_orders
                  (<[order_pk := mkOrder purchaser_pk saved chain_store_pk]>
                     (orders db))
                  (order_pk + 1) db in
              let '(created, e) :=
                create_order_positions (stocks db1) order_pk
                  (next_order_position_id db1) positions in
              let db2 :=
                set_order_positions (order_positions db1 ++ created)
                  (next_order_position_id db1 + Z.of_nat (length created))
                  db1 in
              match e with
              | Some e => (db2, Raise e)
              | None =>
                  (set_cart_positions
                     (List.filter (λ p, negb (cp_shopping_cart p =? cart_pk))
                        (cart_positions db2))
                     (next_cart_position_id db2) db2,
                   Response (Instance order_pk) status.HTTP_201_CREATED)
              end
          end
        end
    end
  end.

(** [GenericAPIView.get_object] on orders, for the actions guarded by
    [IsPurchaserOwner]. *)
Definition OrderViewSet_get_object (db : DB) (u : User) (pk : Z)
  : Exn + Order :=
  match OrderViewSet_get_queryset db u with
  | None => inl AttributeError
  | Some queryset =>
      match queryset !! pk with
      | None => inl Http404
      | Some obj =>
          if IsPurchaserOwner_has_object_permission db u (order_purchaser obj)
          then inr obj
          else inl PermissionDenied
      end
  end.

(** [position.confirmed or position.delivered] for some position *)
Definition any_confirmed_or_delivered (positions : list OrderPosition)
  : bool :=
  existsb (λ p, op_confirmed p || op_delivered p) positions.

(** [OrderViewSet.destroy] *)
Definition OrderViewSet_destroy (pk : Z) (u : User) (db : DB)
  : DB * Outcome :=
  match OrderViewSet_get_object db u pk with
  | inl e => (db, Raise e)
  | inr instance =>
      if bool_decide (order_state instance = cancelled) then
        (db, bad_request "error" "Order is already cancelled")
      else if any_confirmed_or_delivered (order_positions_of db pk) then
        (db, bad_request "error"
               "Your can cancel only fully unconfirmed and undelivered orders")
      else
        let db1 :=
          set_orders
            (<[pk := mkOrder (order_purchaser instance) cancelled
                       (order_chain_store instance)]> (orders db))
            (next_order_id db) db in
        match return_to_stock
                ((λ p, (op_stock p, op_quantity p))
                   <$> order_positions_of db1 pk)
                (stocks db1) with
        | (table, Some e) => (set_stocks table db1, Raise e)
        | (table, None) =>
            (set_stocks table db1,
             Response (Detail "success" "Order cancelled") status.HTTP_200_OK)
        end
  end.

(** [OrderViewSet.update] *)
Definition OrderViewSet_update (pk : Z) (data : OrderData) (u : User)
    (db : DB) : DB * Outcome :=
  match OrderViewSet_get_object db u pk with
  | inl e => (db, Raise e)
  | inr instance =>
      if bool_decide (order_state instance = cancelled) then
        (db, bad_request "error" "Your cannot amend cancelled order")
      else if any_confirmed_or_delivered (order_positions_of db pk) then
        (db, bad_request "error"
               "Your can amend only fully unconfirmed and undelivered orders")
      else if bool_decide (is_Some (od_purchaser data)) then
        (db, Response (Detail "error" "Purchaser cannot be amended")
               status.HTTP_403_FORBIDDEN)
      else
        match od_chain_store data with
        | None => (db, Response (Instance pk) status.HTTP_200_OK)
        | Some chain_store_pk =>
            match chain_stores db !! chain_store_pk with
            | None => (db, Raise ValidationError)
            | Some chain_store =>
                if negb (chain_store_pk =? 0)
                   && negb (is_user
                              (purchaser_user_of db
                                 (chain_store_purchaser chain_store)) u)
                then
                  (db, bad_request "error"
                         "Your can order delivery only to your chain stores")
                else
                  (set_orders
                     (<[pk := mkOrder (order_purchaser instance)
                                (order_state instance) chain_store_pk]>
                        (orders db))
                     (next_order_id db) db,
                   Response (Instance pk) status.HTTP_200_OK)
            end
        end
  end.

(** ** views.py: order positions *)

Record OrderPositionData : Type := mkOrderPositionData {
  data_confirmed : option JVal;
  data_delivered : option JVal }.

(** [GenericAPIView.get_object] on order positions, for [partial_update],
    guarded by [IsStockReferencedOwner]. *)
Definition OrderPositionViewSet_get_object (db : DB) (u : User) (pk : Z)
  : Exn + OrderPosition :=
  match OrderPositionViewSet_get_queryset db u with
  | None => inl AttributeError
  | Some queryset =>
      match List.find (λ p, op_id p =? pk) queryset with
      | None => inl Http404
      | Some obj =>
          if IsStockReferencedOwner_has_object_permission db u (op_stock obj)
          then inr obj
          else inl PermissionDenied
      end
  end.

(** One of the two blocks [if "confirmed" in request.data: ...]: the new
    value of the flag, or the response that ends the request. *)
Definition requested_flag (key revoked : string) (requested : option JVal)
    (current : bool) : Outcome + bool :=
  match requested with
  | None => inr current
  | Some (JBool true) => inr true
  | Some (JBool false) =>
      if current then inl (bad_request "error" revoked) else inr current
  | Some _ => inl (bad_request key "Must be a valid boolean.")
  end.

Definition replace_order_position (row : OrderPosition)
    (rows : list OrderPosition) : list OrderPosition :=
  (λ p, if op_id p =? op_id row then row else p) <$> rows.

(** [OrderPositionViewSet.update] *)
Definition OrderPositionViewSet_update (pk : Z) (data : OrderPositionData)
    (u : User) (db : DB) : DB * Outcome :=
  match data_confirmed data, data_delivered data with
  | None, None =>
      (db, bad_request "error"
             "You can amend confirmed or/and delivered status")
  | _, _ =>
      match OrderPositionViewSet_get_object db u pk with
      | inl e => (db, Raise e)
      | inr instance =>
          match orders db !! op_order instance with
          | None => (db, Raise DoesNotExist)
          | Some order =>
              if bool_decide (order_state order = cancelled) then
                (db, bad_request "error"
                       ("You cannot confirm and deliver cancelled "
                        +:+ "order positions"))
              else
                match requested_flag "confirmed"
                        "Your cannot revoke your confirmation"
                        (data_confirmed data) (op_confirmed instance) with
                | inl response => (db, response)
                | inr confirmed =>
                    match requested_flag "delivered"
                            "Your cannot revoke your delivery"
                            (data_delivered data) (op_delivered instance) with
                    | inl response => (db, response)
                    | inr delivered =>
                        (set_order_positions
                           (replace_order_position
                              (mkOrderPosition (op_id instance)
                                 (op_order instance) (op_stock instance)
                                 (op_quantity instance) (op_price instance)
                                 confirmed delivered)
                              (order_positions db))
                           (next_order_position_id db) db,
                         Response
                           (Detail "success"
                              "Order position successfully amended")
                           status.HTTP_200_OK)
                    end
                end
          end
      end
  end.

(** ** views.py: stocks *)

Record StockData : Type := mkStockData {
  sd_product : option Z;
  sd_supplier : option Z;
  sd_sku : option string;
  sd_price : option Q;
  sd_quantity : option Z }.

(** [GenericAPIView.get_object] on stocks, for [partial_update], guarded by
    [IsStockOwner]. *)
Definition StockViewSet_get_object (db : DB) (u : User) (pk : Z)
  : Exn + Stock :=
  match StockViewSet_get_queryset db u with
  | None => inl AttributeError
  | Some queryset =>
      match queryset !! pk with
      | None => inl Http404
      | Some obj =>
          if is_user (supplier_user <$> suppliers db !! stock_supplier obj) u
          then inr obj
          else inl PermissionDenied
      end
  end.

(** [Stock.objects.filter(sku=..., product=..., supplier=...).exists()] *)
Definition stock_exists (db : DB) (sku : string) (product supplier_pk : Z)
  : bool :=
  bool_decide
    (is_Some
       (find_row (λ _ s, String.eqb (stock_sku s) sku
                         && (stock_product s =? product)
                         && (stock_supplier s =? supplier_pk))
          (stocks db))).

(** [StockSerializer(instance, data, partial=True).is_valid()], with the
    row to save. *)
Definition StockSerializer_validate_partial (db : DB) (instance : Stock)
    (data : StockData) : option Stock :=
  let sku := default (stock_sku instance) (sd_sku data) in
  let product := default (stock_product instance) (sd_product data) in
  let supplier_pk := default (stock_supplier instance) (sd_supplier data) in
  let moved := negb (String.eqb sku (stock_sku instance)
                     && (product =? stock_product instance)
                     && (supplier_pk =? stock_supplier instance)) in
  if match sd_product data with
     | Some pk => bool_decide (is_Some (products db !! pk))
     | None => true
     end
     && match sd_supplier data with
        | Some pk => bool_decide (is_Some (suppliers db !! pk))
        | None => true
        end
     && negb (String.eqb sku "")
     && match sd_price data with
        | Some p => price_is_valid p
        | None => true
        end
     && match sd_quantity data with
        | Some n => 0 <=? n
        | None => true
        end
     && negb (moved && stock_exists db sku product supplier_pk)
  then Some (mkStock sku product supplier_pk
               (default (stock_price instance) (sd_price data))
               (default (stock_quantity instance) (sd_quantity data)))
  else None.

(** [UpdateModelMixin.update] on a stock *)
Definition Stock_update (pk : Z) (data : StockData) (u : User) (db : DB)
  : DB * Outcome :=
  match StockViewSet_get_object db u pk with
  | inl e => (db, Raise e)
  | inr instance =>
      match StockSerializer_validate_partial db instance data with
      | None => (db, Raise ValidationError)
      | Some row =>
          (set_stocks (<[pk := row]> (stocks db)) db,
           Response (Instance pk) status.HTTP_200_OK)
      end
  end.

(** [StockViewSet.update] *)
Definition StockViewSet_update (pk : Z) (data : StockData) (u : User)
    (db : DB) : DB * Outcome :=
  if pk_truthy (sd_product data) || pk_truthy (sd_supplier data) then
    (db, bad_request "error" "Stocks product and supplier cannot be amended")
  else
    match StockViewSet_get_object db u pk with
    | inl e => (db, Raise e)
    | inr stock =>
        match sd_sku data with
        | Some sku =>
            if negb (String.eqb sku "")
               && stock_exists db sku (stock_product stock)
                    (stock_supplier stock)
            then
              (db, bad_request "error"
                     "Stock with this sku and product already exists")
            else Stock_update pk data u db
        | None => Stock_update pk data u db
        end
    end.

(** ** urls.py: the requests that change stock, carts and orders *)

Inductive Request : Type :=
| POST_cart_positions (data : CartPositionData)
| PATCH_cart_positions (pk : Z) (data : CartPositionData)
| DELETE_cart_positions (pk : Z)
| DELETE_shopping_carts (pk : Z)
| POST_orders (data : OrderData)
| PATCH_orders (pk : Z) (data : OrderData)
| DELETE_orders (pk : Z)
| PATCH_order_positions (pk : Z) (data : OrderPositionData)
| PATCH_stocks (pk : Z) (data : StockData).

Definition handle (user : RequestUser) (request : Request) (db : DB)
  : DB * Outcome :=
  match request with
  | POST_cart_positions data =>
      dispatch CartPositionViewSet create user
        (CartPositionViewSet_create data) db
  | PATCH_cart_positions pk data =>
      dispatch CartPositionViewSet partial_update user
        (CartPositionViewSet_update pk data) db
  | DELETE_cart_positions pk =>
      dispatch CartPositionViewSet destroy user
        (CartPositionViewSet_destroy pk) db
  | DELETE_shopping_carts pk =>
      dispatch ShoppingCartViewSet destroy user
        (ShoppingCartViewSet_destroy pk) db
  | POST_orders data =>
      dispatch OrderViewSet create user (OrderViewSet_create data) db
  | PATCH_orders pk data =>
      dispatch OrderViewSet partial_update user
        (OrderViewSet_update pk data) db
  | DELETE_orders pk =>
      dispatch OrderViewSet destroy user (OrderViewSet_destroy pk) db
  | PATCH_order_positions pk data =>
      dispatch OrderPositionViewSet partial_update user
        (OrderPositionViewSet_update pk data) db
  | PATCH_stocks pk data =>
      dispatch StockViewSet partial_update user
        (StockViewSet_update pk data) db
  end.

(** A sequence of requests, each with its user, run in order. *)
Fixpoint run (requests : list (RequestUser * Request)) (db : DB) : DB :=
  match requests with
  | [] => db
  | (user, request) :: rest => run rest (handle user request db).1
  end.

(** ** views.py: suppliers *)

Definition set_suppliers (table : gmap Z Supplier) (db : DB) : DB :=
  mkDB (users db) table (categories db) (products db) (characteristics db)
    (product_characteristics db) (stocks db) (purchasers db)
    (chain_stores db) (shopping_carts db) (cart_positions db) (orders db)
    (order_positions db) (next_cart_position_id db) (next_order_id db)
    (next_order_position_id db).

(** [GenericAPIView.get_object] on suppliers, for [destroy], guarded by
    [IsAdmin]. *)
Definition SupplierViewSet_get_object (db : DB) (u : User) (pk : Z)
  : Exn + Supplier :=
  match SupplierViewSet_get_queryset db u with
  | None => inl AttributeError
  | Some queryset =>
      match queryset !! pk with
      | None => inl Http404
      | Some obj => if is_superuser u then inr obj else inl PermissionDenied
      end
  end.

(** [SupplierViewSet.destroy]: the supplier stays, with [order_status]
    off. *)
Definition SupplierViewSet_destroy (pk : Z) (u : User) (db : DB)
  : DB * Outcome :=
  match SupplierViewSet_get_object db u pk with
  | inl e => (db, Raise e)
  | inr instance =>
      (set_suppliers
         (<[pk := mkSupplier (supplier_user instance) false]> (suppliers db))
         db,
       Response NoContent status.HTTP_204_NO_CONTENT)
  end.

(** [DELETE /suppliers/<pk>/] *)
Definition DELETE_suppliers (user : RequestUser) (pk : Z) (db : DB)
  : DB * Outcome :=
  dispatch SupplierViewSet destroy user (SupplierViewSet_destroy pk) db.

(** ** signals.py *)

(** A call of [send_email.delay(title, message, address)]; the address is
    the e-mail of the user [mail_to]. *)
Record Mail : Type := mkMail {
  mail_title : string;
  mail_message : string;
  mail_to : Z }.

(** The character [\n] of the Python literals. *)
Definition newline : string := String (Ascii.ascii_of_nat 10) EmptyString.

(** [instance.order.purchaser.user]: the three rows are loaded in turn. *)
Definition order_purchaser_user (db : DB) (order_pk : Z) : option Z :=
  order ← orders db !! order_pk;
  purchaser ← purchasers db !! order_purchaser order;
  _ ← users db !! purchaser_user purchaser;
  Some (purchaser_user purchaser).

(** [cache_previous_order_position_status], the [pre_save] receiver: the
    stored flags of a position that has a key. *)
Definition cache_previous_order_position_status (db : DB)
    (instance : OrderPosition) : Exn + option (bool * bool) :=
  if op_id instance =? 0 then inr None
  else
    match List.find (λ p, op_id p =? op_id instance) (order_positions db) with
    | None => inl DoesNotExist
    | Some order_position =>
        inr (Some (op_confirmed order_position, op_delivered order_position))
    end.

(** The two message texts, with the keys of the position and of its
    order. *)
Definition revoked_message (instance : OrderPosition) : string :=
  "Please contact supplier of position " +:+ pretty (op_id instance)
  +:+ " from your order #" +:+ pretty (op_order instance) +:+ "." +:+ newline
  +:+ "                 Confirmation and/or delivery status or both of "
  +:+ "this position was revoked through admin site".

Definition changed_message (instance : OrderPosition)
    (confirmed delivered : bool) : string :=
  "Your order #" +:+ pretty (op_order instance) +:+ " position "
  +:+ pretty (op_id instance) +:+ " was" +:+ newline
  +:+ (if confirmed then "- confirmed" +:+ newline else "")
  +:+ (if delivered then "- delivered" +:+ newline else "")
  +:+ "by supplier." +:+ newline
  +:+ "        Order is confirmed when all positions are confirmed and "
  +:+ "delivered after all position are delivered".

(** [send_email_change_order_pos_status], the [post_save] receiver, with the
    flags the [pre_save] receiver has cached on the instance ([None] when it
    cached none).  The result is the mail it sends, if any. *)
Definition send_email_change_order_pos_status (db : DB)
    (original : option (bool * bool)) (instance : OrderPosition)
    (created : bool) : Exn + option Mail :=
  if created then inr None
  else
    match original with
    | None => inl AttributeError
    | Some (original_confirmed, original_delivered) =>
        if bool_decide (original_confirmed = op_confirmed instance)
           && bool_decide (original_delivered = op_delivered instance)
        then inr None
        else
          match order_purchaser_user db (op_order instance) with
          | None => inl DoesNotExist
          | Some user_pk =>
              if original_confirmed && negb (op_confirmed instance)
                 || original_delivered && negb (op_delivered instance)
              then
                inr (Some (mkMail
                             ("Order position confirmation and/or delivery "
                              +:+ "status revoked")
                             (revoked_message instance) user_pk))
              else
                inr (Some (mkMail
                             ("Order position confirmation and/or delivery "
                              +:+ "status changed")
                             (changed_message instance
                                (negb original_confirmed
                                 && op_confirmed instance)
                                (negb original_delivered
                                 && op_delivered instance))
                             user_pk))
          end
    end.

(** [instance.save()] of a stored position: the two receivers around the
    write. *)
Definition OrderPosition_save_signals (db : DB) (instance : OrderPosition)
  : Exn + option Mail :=
  match cache_previous_order_position_status db instance with
  | inl e => inl e
  | inr original =>
      send_email_change_order_pos_status db original instance false
  end.

(** * Vocabulary of the properties *)



(** The users the three branches of a [get_queryset] are written for. *)
Definition has_role (u : User) : Prop :=
  is_superuser u = true ∨ user_type u = purchaser ∨ user_type u = supplier.

(** A quantity that is not an integer above 0. *)
Definition malformed_quantity (v : JVal) : Prop :=
  match v with
  | JInt n => n ≤ 0
  | _ => True
  end.

(** The request asks for the flag: the key is sent with [true]. *)
Definition requests_true (requested : option JVal) : bool :=
  match requested with
  | Some (JBool true) => true
  | _ => false
  end.

(** The flags of [p'] are those of [p] or set where [p]'s were not. *)
Definition flags_kept (p p' : OrderPosition) : Prop :=
  (op_confirmed p = true → op_confirmed p' = true)
  ∧ (op_delivered p = true → op_delivered p' = true).

(** Keys of order positions are unique and below the next key. *)
Definition order_positions_wf (db : DB) : Prop :=
  NoDup (op_id <$> order_positions db)
  ∧ ∀ p, p ∈ order_positions db → op_id p < next_order_position_id db.

(** The quantity the pairs (stock key, quantity) hold of one stock. *)
Definition quantity_of_stock (stock_pk : Z) (items : list (Z * Z)) : Z :=
  foldr (λ item acc, if item.1 =? stock_pk then item.2 + acc else acc) 0
    items.

(** The price a successful [update] leaves on the position: its own, unless
    the quantity went up, and then the stock's. *)
Definition price_after_update (db : DB) (data : CartPositionData)
    (instance row : CartPosition) : Prop :=
  (cp_price row = cp_price instance
   ∧ ∀ n, data_quantity data = Some (JInt n) → n ≤ cp_quantity instance)
  ∨ ∃ n stock,
      data_quantity data = Some (JInt n)
      ∧ cp_quantity instance < n
      ∧ stocks db !! cp_stock instance = Some stock
      ∧ cp_price row = stock_price stock.

(** The operations on a cart, with the parameters the specification gives
    them, and the request each one is. *)
Inductive CartOp : Type :=
| AddLine (stock_pk : Z) (quantity : JVal)
| UpdateLine (pk : Z) (quantity : JVal)
| RemoveLine (pk : Z)
| ClearCart (cart_pk : Z).

Definition cart_request (op : CartOp) : Request :=
  match op with
  | AddLine stock_pk quantity =>
      POST_cart_positions
        (mkCartPositionData None (Some stock_pk) (Some quantity) None)
  | UpdateLine pk quantity =>
      PATCH_cart_positions pk
        (mkCartPositionData None None (Some quantity) None)
  | RemoveLine pk => DELETE_cart_positions pk
  | ClearCart cart_pk => DELETE_shopping_carts cart_pk
  end.

Definition cart_requests (ops : list (RequestUser * CartOp))
  : list (RequestUser * Request) :=
  (λ op, (op.1, cart_request op.2)) <$> ops.

Definition cart_items (positions : list CartPosition) : list (Z * Z) :=
  (λ p, (cp_stock p, cp_quantity p)) <$> positions.

(** The quantity of a stock that the cart positions hold. *)
Definition reserved (db : DB) (stock_pk : Z) : Z :=
  quantity_of_stock stock_pk (cart_items (cart_positions db)).

(** Keys of cart positions are unique and below the next key, every cart
    position's stock exists, and every stock's price passes the validator of
    the price field. *)
Definition carts_wf (db : DB) : Prop :=
  NoDup (cp_id <$> cart_positions db)
  ∧ (∀ p, p ∈ cart_positions db → cp_id p < next_cart_position_id db)
  ∧ (∀ p, p ∈ cart_positions db → is_Some (stocks db !! cp_stock p))
  ∧ (∀ pk stock, stocks db !! pk = Some stock →
                 price_is_valid (stock_price stock) = true).

(** [stock] with [delta] added to its quantity. *)
Definition add_quantity (delta : Z) (stock : Stock) : Stock :=
  with_quantity (stock_quantity stock + delta) stock.

(** The quantity one position holds of a stock. *)
Definition held (p : CartPosition) (stock_pk : Z) : Z :=
  if cp_stock p =? stock_pk then cp_quantity p else 0.

(** Every stock's quantity in [db'] is its quantity in [db] plus what the
    cart positions held of it in [db] minus what they hold of it in [db']:
    quantity plus reservations is the same in both. *)
Definition conserved (db db' : DB) : Prop :=
  ∀ stock_pk,
    stocks db' !! stock_pk
    = add_quantity (reserved db stock_pk - reserved db' stock_pk)
        <$> stocks db !! stock_pk.

(** The position is in a cart of the user's purchaser. *)
Definition owned_by (db : DB) (u : User) (p : CartPosition) : bool :=
  is_user (purchaser_user_of_cart db (cp_shopping_cart p)) u.

(** The positions in carts of other users. *)
Definition positions_of_others (db : DB) (u : User) : list CartPosition :=
  List.filter (λ p, negb (owned_by db u p)) (cart_positions db).

(** What every cart operation of a user keeps: well-formedness, quantity
    plus reservations of every stock, and the positions of other users. *)
Definition cart_step (u : User) (db db' : DB) : Prop :=
  carts_wf db'
  ∧ conserved db db'
  ∧ purchasers db' = purchasers db
  ∧ shopping_carts db' = shopping_carts db
  ∧ List.filter (λ p, negb (owned_by db u p)) (cart_positions db')
    = positions_of_others db u.

(** ** Vocabulary of the further properties *)

(** The requests of the purchaser's side, guarded by [IsPurchaser],
    [IsCartPositionOwner] or [IsPurchaserOwner]; the other two, on order
    positions and stocks, are guarded by [IsStockReferencedOwner] and
    [IsStockOwner]. *)
Definition purchaser_request (request : Request) : bool :=
  match request with
  | PATCH_order_positions _ _ | PATCH_stocks _ _ => false
  | _ => true
  end.

(** What [PositiveIntegerField] asks of the three quantity columns. *)
Definition quantities_nonneg (db : DB) : Prop :=
  (∀ pk stock, stocks db !! pk = Some stock → 0 ≤ stock_quantity stock)
  ∧ (∀ p, p ∈ cart_positions db → 0 ≤ cp_quantity p)
  ∧ (∀ p, p ∈ order_positions db → 0 ≤ op_quantity p).

(** No order position refers to an order key that is still to be given
    out. *)
Definition order_keys_fresh (db : DB) : Prop :=
  ∀ p, p ∈ order_positions db → op_order p < next_order_id db.

(** Every order's key is below the next key. *)
Definition orders_wf (db : DB) : Prop :=
  ∀ pk order, orders db !! pk = Some order → pk < next_order_id db.

(** The columns of [unique_stock]. *)
Definition stock_key (stock : Stock) : string * Z * Z :=
  (stock_sku stock, stock_product stock, stock_supplier stock).

(** The constraint [unique_stock] of [Stock]. *)
Definition unique_stock (db : DB) : Prop :=
  ∀ pk1 pk2 stock1 stock2,
    stocks db !! pk1 = Some stock1 →
    stocks db !! pk2 = Some stock2 →
    stock_key stock1 = stock_key stock2 →
    pk1 = pk2.

(** The stocks of [db'] are those of [db] but for their quantities. *)
Definition stocks_but_quantity (db db' : DB) : Prop :=
  ∀ pk, with_quantity 0 <$> stocks db' !! pk
        = with_quantity 0 <$> stocks db !! pk.

(** The product and the supplier of a stock. *)
Definition stock_owner (stock : Stock) : Z * Z :=
  (stock_product stock, stock_supplier stock).

(** The columns of [unique_shopping_cart_stock] and of
    [unique_order_stock]. *)
Definition cart_key (p : CartPosition) : Z * Z :=
  (cp_shopping_cart p, cp_stock p).

Definition order_key (p : OrderPosition) : Z * Z :=
  (op_order p, op_stock p).

(** Keys of cart positions are unique and below the next key, and no cart
    holds a stock twice ([unique_shopping_cart_stock]). *)
Definition cart_constraints (db : DB) : Prop :=
  NoDup (cp_id <$> cart_positions db)
  ∧ (∀ p, p ∈ cart_positions db → cp_id p < next_cart_position_id db)
  ∧ NoDup (cart_key <$> cart_positions db).

(** Keys of order positions are unique and below the next key, their orders'
    keys are below the next order key, and no order holds a stock twice
    ([unique_order_stock]). *)
Definition order_constraints (db : DB) : Prop :=
  order_positions_wf db
  ∧ order_keys_fresh db
  ∧ NoDup (order_key <$> order_positions db).

(** ** Sample data

    Two purchasers (users 1 and 4), each with a cart and a chain store, and
    two suppliers (users 2 and 3), each with one stock. *)

Module Sample.
Definition alice : User := mkUser 1 purchaser false.
Definition acme : User := mkUser 2 supplier false.
Definition bolt : User := mkUser 3 supplier false.
Definition bob : User := mkUser 4 purchaser false.

Definition db : DB :=
  mkDB {[ 1 := alice; 2 := acme; 3 := bolt; 4 := bob ]}
    {[ 1 := mkSupplier 2 true; 2 := mkSupplier 3 true ]}
    {[ 1 := "phones" ]}
    {[ 1 := mkProduct "phone" 1 ]}
    {[ 1 := "colour" ]}
    {[ 1 := mkProductCharacteristic 1 1 "black" ]}
    {[ 1 := mkStock "sku-1" 1 1 100%Q 5; 2 := mkStock "sku-2" 1 2 40%Q 10 ]}
    {[ 1 := mkPurchaser 1; 2 := mkPurchaser 4 ]}
    {[ 1 := mkChainStore 1; 2 := mkChainStore 2 ]}
    {[ 1 := mkShoppingCart 1; 2 := mkShoppingCart 2 ]}
    [] ∅ [] 1 1 1.

Definition line (stock_pk quantity : Z) : CartPositionData :=
  mkCartPositionData None (Some stock_pk) (Some (JInt quantity)) None.

Definition quantity_only (quantity : JVal) : CartPositionData :=
  mkCartPositionData None None (Some quantity) None.

(** Alice holds 1 of stock 1 and 5 of stock 2 in her cart. *)
Definition with_cart : DB :=
  run [(Authenticated alice, POST_cart_positions (line 1 1));
       (Authenticated alice, POST_cart_positions (line 2 5))] db.

(** Alice has ordered that cart to her chain store: one order, two
    positions, two suppliers. *)
Definition with_order : DB :=
  run [(Authenticated alice, POST_orders (mkOrderData None (Some 1)))]
    with_cart.


(** The supplier of stock 1 has raised its price to 120 while Alice holds
    one unit of it, at 100, in her cart. *)
Definition repriced : DB :=
  run [(Authenticated acme,
        PATCH_stocks 1 (mkStockData None None None (Some 120%Q) None))]
    with_cart.

(** After the price change Alice has raised her quantity of stock 1 from 1
    to 2. *)
Definition raised : DB :=
  run [(Authenticated alice, PATCH_cart_positions 1 (quantity_only (JInt 2)))]
    repriced.
End Sample.

(** ** Further sample data *)

Module Scenario.
(** Alice has cancelled her order. *)
Definition cancelled_order : DB :=
  run [(Authenticated Sample.alice, DELETE_orders 1)] Sample.with_order.

(** A superuser. *)
Definition root : User := mkUser 5 admin true.

(** The request that confirms a position. *)
Definition confirm : OrderPositionData :=
  mkOrderPositionData (Some (JBool true)) None.
End Scenario.

(** * Properties *)

(** ** Order totals *)


Example sample_order_positions :
  order_positions Sample.with_order
  = [mkOrderPosition 1 1 1 1 100%Q false false;
     mkOrderPosition 2 1 2 5 40%Q false false]
  ∧ cart_positions Sample.with_order = []
  ∧ stock_quantity <$> stocks Sample.with_order !! 1 = Some 4
  ∧ stock_quantity <$> stocks Sample.with_order !! 2 = Some 5.
Proof. vm_compute. done. Qed.



Section Surcharge.
Variable COMBINED_ORDER_MULTIPLIER : Q.


(** C10.  An order without positions is confirmed and delivered, and its
    total quantity and total amount are 0. *)
Theorem empty_order_derived_properties (db : DB) (order_pk : Z) :
  order_positions_of db order_pk = [] →
  Order.check_confirmed db order_pk = true
  ∧ Order.check_delivered db order_pk = true
  ∧ Order.calculate_total_quantity db order_pk = 0
  ∧ Order.calculate_total_amount COMBINED_ORDER_MULTIPLIER db order_pk
    = Some 0%Q.
Proof.
  intros Hempty.
  unfold Order.check_confirmed, Order.check_delivered,
    Order.calculate_total_quantity, Order.calculate_total_amount.
  rewrite Hempty. done.
Qed.
End Surcharge.


Lemma empty_order_derived_properties_witness :
  Order.check_confirmed Sample.db 1 = true
  ∧ Order.check_delivered Sample.db 1 = true
  ∧ Order.calculate_total_quantity Sample.db 1 = 0
  ∧ Order.calculate_total_amount (11 # 10) Sample.db 1 = Some 0%Q.
Proof.
  apply (empty_order_derived_properties (11 # 10) Sample.db 1). reflexivity.
Defined.

(** ** List and retrieve reads *)

Lemma pks_filter_subseteq {A} (f : Z → A → bool) (table : gmap Z A) :
  pks (queryset_filter f table) ⊆ pks table.
Proof.
  intros k Hk. unfold pks in *.
  apply list_elem_of_fmap in Hk as ([k' v] & -> & Hin).
  apply elem_of_map_to_list in Hin.
  apply map_lookup_filter_Some in Hin as [Hin _].
  apply list_elem_of_fmap. exists (k', v). split; [done|].
  by apply elem_of_map_to_list.
Qed.

Lemma fmap_filter_subseteq {A} (key : A → Z) (f : A → bool) (rows : list A) :
  key <$> List.filter f rows ⊆ key <$> rows.
Proof.
  intros k Hk. apply list_elem_of_fmap in Hk as (row & -> & Hin).
  apply list_elem_of_fmap. exists row. split; [done|].
  apply list_elem_of_In in Hin. apply filter_In in Hin as [Hin _].
  by apply list_elem_of_In.
Qed.

Lemma list_permissions_authenticated (view : ViewSet) (u : User) :
  view ≠ PurchaserViewSet →
  initial view list_ (Authenticated u) = None.
Proof. by destruct view. Qed.

Lemma get_queryset_subset (view : ViewSet) (db : DB) (u : User) :
  has_role u →
  view ≠ PurchaserViewSet ∨ is_superuser u = true ∨ user_type u = purchaser →
  ∃ rows, get_queryset view db u = Some rows ∧ rows ⊆ all_pks view db.
Proof.
  intros Hrole Hview. destruct u as [id t su]. unfold has_role in Hrole.
  simpl in *.
  destruct view; unfold get_queryset, all_pks, UserViewSet_get_queryset,
    SupplierViewSet_get_queryset, StockViewSet_get_queryset,
    PurchaserViewSet_get_queryset, ShoppingCartViewSet_get_queryset,
    CartPositionViewSet_get_queryset, ChainStoreViewSet_get_queryset,
    OrderViewSet_get_queryset, OrderPositionViewSet_get_queryset, is_type;
    simpl;
    destruct su; simpl;
    repeat case_bool_decide; simpl;
    try (eexists; split; [reflexivity|];
         first [ done | apply pks_filter_subseteq
               | apply fmap_filter_subseteq ]);
    destruct t; intuition congruence.
Qed.

(** C8, as the code has it.  A superuser, a purchaser or a supplier gets
    from every list read the rows of [get_queryset], a subset of the table,
    and no error; the one exception is the list of purchasers, which answers
    superusers and purchasers only and refuses a supplier with a permission
    error.  Without authentication, list and retrieve are refused with an
    authentication error before the handler runs. *)
Theorem list_reads_by_role (view : ViewSet) (db : DB) :
  (∀ u, has_role u →
        view ≠ PurchaserViewSet
        ∨ is_superuser u = true ∨ user_type u = purchaser →
        ∃ rows,
          list_view view (Authenticated u) db
            = Response (Rows rows) status.HTTP_200_OK
          ∧ get_queryset view db u = Some rows
          ∧ rows ⊆ all_pks view db)
  ∧ (∀ u, is_superuser u = false → user_type u = supplier →
          list_view PurchaserViewSet (Authenticated u) db
            = Raise PermissionDenied)
  ∧ list_view view AnonymousUser db = Raise NotAuthenticated
  ∧ initial view retrieve AnonymousUser = Some NotAuthenticated.
Proof.
  split; [|split; [|split]].
  - intros u Hrole Hview.
    destruct (get_queryset_subset view db u Hrole Hview) as (rows & Hq & Hsub).
    exists rows. split; [|done].
    unfold list_view.
    assert (initial view list_ (Authenticated u) = None) as ->.
    { destruct (decide (view = PurchaserViewSet)) as [->|Hne].
      - unfold initial. simpl. unfold is_type.
        destruct Hview as [?|[->|Hp]]; [done|done|].
        rewrite (bool_decide_eq_true_2 _ Hp). by rewrite orb_true_r.
      - by apply list_permissions_authenticated. }
    by rewrite Hq.
  - intros u Hsu Ht. unfold list_view, initial. simpl. unfold is_type.
    rewrite Hsu, Ht. done.
  - by destruct view.
  - by destruct view.
Qed.

Lemma list_reads_by_role_witness :
  (∃ rows,
     list_view StockViewSet (Authenticated Sample.alice) Sample.db
       = Response (Rows rows) status.HTTP_200_OK
     ∧ get_queryset StockViewSet Sample.db Sample.alice = Some rows
     ∧ rows ⊆ all_pks StockViewSet Sample.db)
  ∧ list_view PurchaserViewSet (Authenticated Sample.acme) Sample.db
    = Raise PermissionDenied.
Proof.
  destruct (list_reads_by_role StockViewSet Sample.db) as (Hlist & _).
  destruct (list_reads_by_role PurchaserViewSet Sample.db)
    as (_ & Hdenied & _).
  split.
  - apply Hlist.
    + right. left. reflexivity.
    + left. discriminate.
  - apply Hdenied; reflexivity.
Defined.

(** C8 as stated fails: a supplier is an authenticated user of a listed
    role, and the list of purchasers answers it with an error. *)
Lemma supplier_list_purchasers_is_refused :
  user_type Sample.acme = supplier
  ∧ list_view PurchaserViewSet (Authenticated Sample.acme) Sample.db
    = Raise PermissionDenied
  ∧ ¬ (∀ view u db, ∃ rows,
         list_view view (Authenticated u) db
         = Response (Rows rows) status.HTTP_200_OK).
Proof.
  split; [done|]. split; [done|].
  intros Hall.
  destruct (Hall PurchaserViewSet Sample.acme Sample.db) as [rows Hrows].
  discriminate Hrows.
Qed.

(** ** Adding a line to the cart *)

Ltac view_cases :=
  repeat (simplify_eq /=; try done; case_match); simplify_eq /=; try done.

(** Picks the rows a cart request went through as the witnesses of a goal. *)
Ltac cart_witnesses :=
  match goal with
  | Hs : data_stock _ = Some ?z, Hp : purchaser_of_user _ _ = Some ?pu,
    Hc : shopping_cart_of _ _ = Some ?c, Hst : stocks _ !! _ = Some ?st,
    Hsu : suppliers _ !! _ = Some ?su |- _ =>
      match goal with
      | Hq : data_quantity _ = Some (JInt ?n) |- _ =>
          exists z, n, pu, c, st, su
      end
  end.

Ltac update_witnesses :=
  match goal with
  | Hq : data_quantity _ = Some (JInt ?n),
    Hg : CartPositionViewSet_get_object _ _ _ = inr ?c,
    Hs : stocks _ !! _ = Some ?s |- _ => exists n, c, s
  end.

Ltac bool_to_prop :=
  repeat match goal with
    | H : _ || _ = false |- _ => apply orb_false_iff in H as [? ?]
    | H : _ && _ = true |- _ => apply andb_true_iff in H as [? ?]
    | H : negb _ = true |- _ => apply negb_true_iff in H
    | H : negb _ = false |- _ => apply negb_false_iff in H
    | H : (_ <=? _) = true |- _ => apply Z.leb_le in H
    | H : (_ <=? _) = false |- _ => apply Z.leb_gt in H
    | H : (_ <? _) = true |- _ => apply Z.ltb_lt in H
    | H : (_ <? _) = false |- _ => apply Z.ltb_ge in H
    | H : (_ =? _) = true |- _ => apply Z.eqb_eq in H
    | H : (_ =? _) = false |- _ => apply Z.eqb_neq in H
    | H : bool_decide _ = true |- _ => apply bool_decide_eq_true in H
    | H : bool_decide _ = false |- _ => apply bool_decide_eq_false in H
    end.

(** What a successful [create] did. *)
Lemma CartPositionViewSet_create_succeeded (data : CartPositionData)
    (u : User) (db db' : DB) (o : Outcome) :
  CartPositionViewSet_create data u db = (db', o) →
  succeeded o = true →
  ∃ stock_pk n purchaser_pk cart_pk stock sup,
    data_stock data = Some stock_pk
    ∧ data_quantity data = Some (JInt n)
    ∧ 0 < n ≤ stock_quantity stock
    ∧ purchaser_of_user db u = Some purchaser_pk
    ∧ shopping_cart_of db purchaser_pk = Some cart_pk
    ∧ cart_has_stock db cart_pk stock_pk = false
    ∧ stocks db !! stock_pk = Some stock
    ∧ suppliers db !! stock_supplier stock = Some sup
    ∧ order_status sup = true
    ∧ db' = set_cart_positions
              (cart_positions db
               ++ [mkCartPosition (next_cart_position_id db) cart_pk stock_pk
                     n (stock_price stock)])
              (next_cart_position_id db + 1)
              (save_stock_quantity stock_pk stock (stock_quantity stock - n)
                 db)
    ∧ o = Response (Instance (next_cart_position_id db))
            status.HTTP_201_CREATED.
Proof.
  unfold CartPositionViewSet_create, CartPosition_create,
    CartPositionSerializer_validate.
  intros Hrun Hok. view_cases. bool_to_prop. simplify_eq.
  cart_witnesses. repeat split; try done; lia.
Qed.

(** [create] leaves the database alone unless every check before the
    reservation passed. *)
Lemma CartPositionViewSet_create_unchanged (data : CartPositionData)
    (u : User) (db db' : DB) (o : Outcome) :
  CartPositionViewSet_create data u db = (db', o) →
  db' = db
  ∨ ∃ stock_pk n purchaser_pk cart_pk stock sup,
      data_stock data = Some stock_pk
      ∧ data_quantity data = Some (JInt n)
      ∧ 0 < n ≤ stock_quantity stock
      ∧ purchaser_of_user db u = Some purchaser_pk
      ∧ shopping_cart_of db purchaser_pk = Some cart_pk
      ∧ cart_has_stock db cart_pk stock_pk = false
      ∧ stocks db !! stock_pk = Some stock
      ∧ suppliers db !! stock_supplier stock = Some sup
      ∧ order_status sup = true.
Proof.
  unfold CartPositionViewSet_create.
  intros Hrun. view_cases; try (by left).
  all: right; bool_to_prop; cart_witnesses; repeat split; try done; lia.
Qed.

Lemma dispatch_cases (view : ViewSet) (action : Action) (user : RequestUser)
    (handler : User → DB → DB * Outcome) (db db' : DB) (o : Outcome) :
  dispatch view action user handler db = (db', o) →
  (db' = db ∧ succeeded o = false)
  ∨ ∃ u, user = Authenticated u ∧ handler u db = (db', o).
Proof.
  unfold dispatch. intros Hrun.
  destruct (initial view action user); [left; by simplify_eq|].
  destruct user as [|u]; [left; by simplify_eq|]. right. eauto.
Qed.

Lemma cart_has_stock_true (db : DB) (cart_pk stock_pk : Z) :
  cart_has_stock db cart_pk stock_pk = true ↔
  ∃ p, p ∈ cart_positions db
       ∧ cp_stock p = stock_pk ∧ cp_shopping_cart p = cart_pk.
Proof.
  unfold cart_has_stock. rewrite existsb_exists. split.
  - intros (p & Hin & Hp). exists p. apply list_elem_of_In in Hin.
    bool_to_prop. done.
  - intros (p & Hin & <- & <-). exists p. apply list_elem_of_In in Hin.
    by rewrite !Z.eqb_refl.
Qed.

(** C1.  Adding a line fails, and changes nothing, when the quantity is not
    an integer above 0, when the stock's supplier takes no orders, when the
    quantity exceeds the stock's quantity, and when the purchaser's cart
    already holds the stock.  When it succeeds, the stock's quantity has gone
    down by the requested quantity and the new position carries the stock's
    price. *)
Theorem add_line_to_cart (user : RequestUser) (data : CartPositionData)
    (db db' : DB) (o : Outcome) :
  handle user (POST_cart_positions data) db = (db', o) →
  (∀ q, data_quantity data = Some q → malformed_quantity q →
        succeeded o = false ∧ db' = db)
  ∧ (∀ stock_pk stock sup,
       data_stock data = Some stock_pk →
       stocks db !! stock_pk = Some stock →
       suppliers db !! stock_supplier stock = Some sup →
       order_status sup = false →
       succeeded o = false ∧ db' = db)
  ∧ (∀ stock_pk stock n,
       data_stock data = Some stock_pk →
       stocks db !! stock_pk = Some stock →
       data_quantity data = Some (JInt n) →
       stock_quantity stock < n →
       succeeded o = false ∧ db' = db)
  ∧ (∀ u purchaser_pk cart_pk stock_pk p,
       user = Authenticated u →
       purchaser_of_user db u = Some purchaser_pk →
       shopping_cart_of db purchaser_pk = Some cart_pk →
       data_stock data = Some stock_pk →
       p ∈ cart_positions db →
       cp_shopping_cart p = cart_pk → cp_stock p = stock_pk →
       succeeded o = false ∧ db' = db)
  ∧ (succeeded o = true →
     ∃ stock_pk n stock stock' new,
       data_stock data = Some stock_pk
       ∧ data_quantity data = Some (JInt n)
       ∧ stocks db !! stock_pk = Some stock
       ∧ stocks db' !! stock_pk = Some stock'
       ∧ stock_quantity stock' = stock_quantity stock - n
       ∧ stock_price stock' = stock_price stock
       ∧ (∀ other, other ≠ stock_pk →
                   stocks db' !! other = stocks db !! other)
       ∧ cart_positions db' = (cart_positions db ++ [new])%list
       ∧ cp_stock new = stock_pk
       ∧ cp_quantity new = n
       ∧ cp_price new = stock_price stock).
Proof.
  simpl. intros Hrun.
  apply dispatch_cases in Hrun as [[-> Hfail]|(u & -> & Hrun)].
  { repeat split; try done. intros Hok. congruence. }
  pose proof (CartPositionViewSet_create_unchanged _ _ _ _ _ Hrun) as Hsame.
  pose proof (CartPositionViewSet_create_succeeded _ _ _ _ _ Hrun) as Hsucc.
  assert (∀ P : Prop,
            ((∃ stock_pk n purchaser_pk cart_pk stock sup,
                data_stock data = Some stock_pk
                ∧ data_quantity data = Some (JInt n)
                ∧ 0 < n ≤ stock_quantity stock
                ∧ purchaser_of_user db u = Some purchaser_pk
                ∧ shopping_cart_of db purchaser_pk = Some cart_pk
                ∧ cart_has_stock db cart_pk stock_pk = false
                ∧ stocks db !! stock_pk = Some stock
                ∧ suppliers db !! stock_supplier stock = Some sup
                ∧ order_status sup = true) → False) →
            succeeded o = false ∧ db' = db) as Hrefute.
  { intros _ Hno. split.
    - destruct (succeeded o) eqn:Hok; [|done]. exfalso. apply Hno.
      destruct (Hsucc eq_refl)
        as (s & n & pu & c & st & su & ? & ? & ? & ? & ? & ? & ? & ? & ? & _).
      by exists s, n, pu, c, st, su.
    - destruct Hsame as [?|Hex]; [done|]. by destruct (Hno Hex). }
  split; [|split; [|split; [|split]]].
  - intros q Hq Hbad. apply (Hrefute True).
    intros (s & n & pu & c & st & su & ? & ? & ? & _).
    simplify_eq. simpl in Hbad. lia.
  - intros stock_pk stock sup Hs Hst Hsup Hoff. apply (Hrefute True).
    intros (s & n & pu & c & st & su & ? & ? & ? & ? & ? & ? & ? & ? & ?).
    simplify_eq. congruence.
  - intros stock_pk stock n Hs Hst Hq Hlt. apply (Hrefute True).
    intros (s & m & pu & c & st & su & ? & ? & ? & ? & ? & ? & ? & ? & ?).
    simplify_eq. lia.
  - intros u' purchaser_pk cart_pk stock_pk p [= <-] Hpu Hcart Hs Hin Hc Hp.
    apply (Hrefute True).
    intros (s & m & pu & c & st & su & ? & ? & ? & ? & ? & Hnone & ?).
    simplify_eq.
    assert (cart_has_stock db (cp_shopping_cart p) (cp_stock p) = true)
      by (apply cart_has_stock_true; eauto).
    congruence.
  - intros Hok.
    destruct (Hsucc Hok)
      as (s & n & pu & c & st & su & ? & ? & ? & ? & ? & ? & ? & ? & ? & -> & _).
    exists s, n, st, (with_quantity (stock_quantity st - n) st),
      (mkCartPosition (next_cart_position_id db) c s n (stock_price st)).
    simpl. repeat split; try done.
    + by rewrite lookup_insert_eq.
    + intros other Hne. by rewrite lookup_insert_ne.
Qed.

Lemma add_line_to_cart_witness :
  let added :=
    handle (Authenticated Sample.alice)
      (POST_cart_positions (Sample.line 1 2)) Sample.db in
  let refused :=
    handle (Authenticated Sample.bob)
      (POST_cart_positions (Sample.line 1 9)) Sample.db in
  (∃ stock', stocks added.1 !! 1 = Some stock' ∧ stock_quantity stock' = 3)
  ∧ succeeded refused.2 = false ∧ refused.1 = Sample.db.
Proof.
  intros added refused. split.
  - destruct (add_line_to_cart _ _ _ added.1 added.2
                (surjective_pairing added)) as (_ & _ & _ & _ & Hok).
    destruct (Hok ltac:(vm_compute; reflexivity))
      as (stock_pk & n & stock & stock' & new
          & Hpk & Hn & Hstock & Hstock' & Hq & _).
    injection Hpk as <-. injection Hn as <-.
    vm_compute in Hstock. injection Hstock as <-.
    exists stock'. split; [exact Hstock'|]. rewrite Hq. reflexivity.
  - destruct (add_line_to_cart _ _ _ refused.1 refused.2
                (surjective_pairing refused)) as (_ & _ & Hlow & _).
    apply (Hlow 1 (mkStock "sku-1" 1 1 100%Q 5) 9);
      [reflexivity | reflexivity | reflexivity | simpl; lia].
Defined.

(** ** Malformed quantities *)

(** C9 at a quantity sent as a JSON string: [quantity <= 0] raises
    [TypeError] before [type(quantity) != int] is looked at, both on create
    and on update.  Nothing is written, but the caller gets no response with
    a reason. *)
Theorem string_quantity_raises_type_error :
  handle (Authenticated Sample.alice)
    (POST_cart_positions
       (mkCartPositionData None (Some 1) (Some (JStr "two")) None))
    Sample.db
  = (Sample.db, Raise TypeError)
  ∧ handle (Authenticated Sample.alice)
      (PATCH_cart_positions 1 (Sample.quantity_only (JStr "two")))
      Sample.with_cart
    = (Sample.with_cart, Raise TypeError)
  ∧ structured_failure (Raise TypeError) = false.
Proof. repeat split; vm_compute; reflexivity. Qed.

(** X13.  A malformed quantity that Python can compare with 0 (a number or
    a boolean) is refused by [update] with a reason and nothing is
    written. *)
Lemma update_refuses_malformed_number (user : RequestUser) (pk : Z)
    (data : CartPositionData) (db : DB) (q : JVal) :
  data_quantity data = Some q →
  malformed_quantity q →
  is_Some (py_le_int q 0) →
  ∃ o, handle user (PATCH_cart_positions pk data) db = (db, o)
       ∧ structured_failure o = true.
Proof.
  intros Hq Hbad [c Hc]. simpl. unfold dispatch.
  destruct (initial CartPositionViewSet partial_update user) as [e|] eqn:Hinit.
  { exists (Raise e). split; [done|].
    unfold initial in Hinit. simpl in Hinit.
    destruct user; simpl in Hinit; [by simplify_eq|].
    destruct (is_type purchaser u); by simplify_eq. }
  destruct user as [|u]; [done|].
  unfold CartPositionViewSet_update. rewrite Hq, Hc.
  destruct (pk_truthy _ || pk_truthy _ || decimal_truthy _);
    [by eexists|].
  assert (c || negb (type_is_int q) = true) as ->; [|by eexists].
  destruct q; simpl in *; simplify_eq; try by rewrite orb_true_r.
  apply orb_true_iff. left. by apply Z.leb_le.
Qed.

Lemma update_refuses_malformed_number_witness :
  ∃ o, handle (Authenticated Sample.alice)
         (PATCH_cart_positions 1 (Sample.quantity_only (JFloat (5 # 2))))
         Sample.with_cart
       = (Sample.with_cart, o)
       ∧ structured_failure o = true.
Proof.
  apply (update_refuses_malformed_number _ _ _ _ (JFloat (5 # 2)));
    [reflexivity | exact I | by eexists].
Defined.

(** ** Effects of the cart views *)

Lemma supplier_user_of_stock_save_quantity (db : DB) (stock_pk : Z)
    (stock : Stock) (quantity : Z) (pk : Z) :
  stocks db !! stock_pk = Some stock →
  supplier_user_of_stock (save_stock_quantity stock_pk stock quantity db) pk
  = supplier_user_of_stock db pk.
Proof.
  intros Hstock. unfold supplier_user_of_stock, save_stock_quantity. simpl.
  destruct (decide (pk = stock_pk)) as [->|Hne].
  - by rewrite lookup_insert_eq, Hstock.
  - by rewrite lookup_insert_ne.
Qed.

Lemma CartPositionViewSet_get_object_save_quantity (db : DB) (u : User)
    (stock_pk : Z) (stock : Stock) (quantity : Z) (pk : Z) :
  stocks db !! stock_pk = Some stock →
  CartPositionViewSet_get_object
    (save_stock_quantity stock_pk stock quantity db) u pk
  = CartPositionViewSet_get_object db u pk.
Proof.
  intros Hstock.
  unfold CartPositionViewSet_get_object, CartPositionViewSet_get_queryset,
    IsCartPositionOwner_has_object_permission, stock_of_user.
  simpl cart_positions.
  erewrite (filter_ext (λ p, is_user (supplier_user_of_stock
                                        (save_stock_quantity _ _ _ _) _) u)).
  - reflexivity.
  - intros p. by rewrite supplier_user_of_stock_save_quantity.
Qed.

Lemma CartPositionViewSet_get_object_inr (db : DB) (u : User) (pk : Z)
    (obj : CartPosition) :
  CartPositionViewSet_get_object db u pk = inr obj →
  obj ∈ cart_positions db
  ∧ cp_id obj = pk
  ∧ purchaser_user_of_cart db (cp_shopping_cart obj) = Some (user_id u).
Proof.
  unfold CartPositionViewSet_get_object, CartPositionViewSet_get_queryset,
    IsCartPositionOwner_has_object_permission.
  intros Hget.
  assert (∀ l, List.find (λ p, cp_id p =? pk) l = Some obj →
               obj ∈ l ∧ cp_id obj = pk) as Hfind.
  { intros l Hl. apply find_some in Hl as [Hin Heq].
    split; [by apply list_elem_of_In|]. by apply Z.eqb_eq. }
  assert (∀ f, obj ∈ List.filter f (cart_positions db) →
               obj ∈ cart_positions db) as Hsub.
  { intros f Hin. apply list_elem_of_In in Hin.
    apply filter_In in Hin as [Hin _]. by apply list_elem_of_In. }
  unfold is_user in Hget.
  view_cases; bool_to_prop;
    match goal with
    | H : List.find _ _ = Some _ |- _ => apply Hfind in H as [Hin Hid]
    end;
    repeat split; eauto; congruence.
Qed.

(** What [UpdateModelMixin.update] on a cart position did. *)
Lemma CartPosition_update_effect (pk : Z) (data : CartPositionData)
    (u : User) (db db' : DB) (o : Outcome) :
  CartPosition_update pk data u db = (db', o) →
  (db' = db ∧ succeeded o = false)
  ∨ ∃ instance row,
      CartPositionViewSet_get_object db u pk = inr instance
      ∧ CartPositionSerializer_validate_partial db instance data = Some row
      ∧ db' = set_cart_positions
                (replace_cart_position row (cart_positions db))
                (next_cart_position_id db) db
      ∧ o = Response (Instance pk) status.HTTP_200_OK.
Proof.
  unfold CartPosition_update. intros Hrun.
  view_cases; try (by left). right. by eexists _, _.
Qed.

(** The three ways through [CartPositionViewSet.update]: refused before any
    write; no quantity sent; or a quantity [n] above 0, the stock written,
    and the serializer run on the result. *)
Lemma CartPositionViewSet_update_effect (pk : Z) (data : CartPositionData)
    (u : User) (db db' : DB) (o : Outcome) :
  CartPositionViewSet_update pk data u db = (db', o) →
  (db' = db ∧ succeeded o = false)
  ∨ (data_quantity data = None
     ∧ decimal_truthy (data_price data) = false
     ∧ CartPosition_update pk data u db = (db', o))
  ∨ ∃ n instance stock,
      data_quantity data = Some (JInt n)
      ∧ 0 < n
      ∧ decimal_truthy (data_price data) = false
      ∧ CartPositionViewSet_get_object db u pk = inr instance
      ∧ stocks db !! cp_stock instance = Some stock
      ∧ ((n ≤ cp_quantity instance
          ∧ CartPosition_update pk data u
              (save_stock_quantity (cp_stock instance) stock
                 (stock_quantity stock + (cp_quantity instance - n)) db)
            = (db', o))
         ∨ (cp_quantity instance < n
            ∧ n - cp_quantity instance ≤ stock_quantity stock
            ∧ CartPosition_update pk
                (mkCartPositionData (data_shopping_cart data)
                   (data_stock data) (data_quantity data)
                   (Some (stock_price stock)))
                u
                (save_stock_quantity (cp_stock instance) stock
                   (stock_quantity stock - (n - cp_quantity instance)) db)
              = (db', o))).
Proof.
  unfold CartPositionViewSet_update. intros Hrun.
  view_cases; try (by left); bool_to_prop; right;
    [right; update_witnesses; repeat split; try done; left; by split
    |right; update_witnesses; repeat split; try done; right; by split
    |by left].
Qed.

Lemma CartPositionViewSet_create_effect (data : CartPositionData) (u : User)
    (db db' : DB) (o : Outcome) :
  CartPositionViewSet_create data u db = (db', o) →
  (db' = db ∧ succeeded o = false)
  ∨ ∃ stock_pk n purchaser_pk cart_pk stock sup,
      data_stock data = Some stock_pk
      ∧ data_quantity data = Some (JInt n)
      ∧ 0 < n ≤ stock_quantity stock
      ∧ purchaser_of_user db u = Some purchaser_pk
      ∧ shopping_cart_of db purchaser_pk = Some cart_pk
      ∧ cart_has_stock db cart_pk stock_pk = false
      ∧ stocks db !! stock_pk = Some stock
      ∧ suppliers db !! stock_supplier stock = Some sup
      ∧ order_status sup = true
      ∧ let db1 := save_stock_quantity stock_pk stock
                     (stock_quantity stock - n) db in
        (db' = db1 ∧ o = Raise ValidationError
         ∧ (shopping_carts db !! cart_pk = None
            ∨ price_is_valid (stock_price stock) = false))
        ∨ (db' = set_cart_positions
                   (cart_positions db
                    ++ [mkCartPosition (next_cart_position_id db) cart_pk
                          stock_pk n (stock_price stock)])
                   (next_cart_position_id db + 1) db1
           ∧ o = Response (Instance (next_cart_position_id db))
                   status.HTTP_201_CREATED).
Proof.
  unfold CartPositionViewSet_create, CartPosition_create,
    CartPositionSerializer_validate.
  intros Hrun. view_cases; try (by left).
  - right. bool_to_prop. simplify_eq. cart_witnesses.
    repeat split; try done; try lia. by right.
  - right. cart_witnesses.
    match goal with
    | H : _ && _ && _ && _ && _ = false |- _ => rename H into Hinvalid
    end.
    bool_to_prop.
    repeat split; try done; try lia. left. repeat split; try done.
    rewrite lookup_insert_eq in Hinvalid.
    rewrite (bool_decide_eq_true_2 (is_Some (Some _))) in Hinvalid
      by by eexists.
    assert (cart_has_stock
              (save_stock_quantity z s (stock_quantity s - n) db) z1 z
            = false) as Hnew by done.
    rewrite Hnew in Hinvalid.
    assert ((0 <=? n) = true) as Hpos by (apply Z.leb_le; lia).
    rewrite Hpos in Hinvalid. simpl in Hinvalid.
    rewrite !andb_true_r in Hinvalid.
    apply andb_false_iff in Hinvalid as [Hcart|?]; [left|by right].
    apply bool_decide_eq_false in Hcart.
    by apply eq_None_not_Some.
Qed.

Lemma CartPositionViewSet_destroy_effect (pk : Z) (u : User) (db db' : DB)
    (o : Outcome) :
  CartPositionViewSet_destroy pk u db = (db', o) →
  (db' = db ∧ succeeded o = false)
  ∨ ∃ instance stock,
      CartPositionViewSet_get_object db u pk = inr instance
      ∧ stocks db !! cp_stock instance = Some stock
      ∧ db' = set_cart_positions
                (List.filter (λ p, negb (cp_id p =? cp_id instance))
                   (cart_positions db))
                (next_cart_position_id db)
                (save_stock_quantity (cp_stock instance) stock
                   (stock_quantity stock + cp_quantity instance) db)
      ∧ o = Response NoContent status.HTTP_204_NO_CONTENT.
Proof.
  unfold CartPositionViewSet_destroy, CartPosition_destroy. intros Hrun.
  destruct (CartPositionViewSet_get_object db u pk) as [e|instance] eqn:Hget;
    [left; by simplify_eq|].
  destruct (stocks db !! cp_stock instance) as [stock|] eqn:Hstock;
    [|left; by simplify_eq].
  rewrite CartPositionViewSet_get_object_save_quantity, Hget in Hrun by done.
  right. exists instance, stock. by simplify_eq.
Qed.

Lemma ShoppingCartViewSet_destroy_effect (pk : Z) (u : User) (db db' : DB)
    (o : Outcome) :
  ShoppingCartViewSet_destroy pk u db = (db', o) →
  (db' = db ∧ succeeded o = false)
  ∨ ∃ cart table e,
      ShoppingCartViewSet_get_object db u pk = inr cart
      ∧ return_to_stock
          ((λ p, (cp_stock p, cp_quantity p)) <$> cart_positions_of db pk)
          (stocks db) = (table, e)
      ∧ match e with
        | Some e => db' = set_stocks table db ∧ o = Raise e
        | None =>
            db' = set_cart_positions
                    (List.filter (λ p, negb (cp_shopping_cart p =? pk))
                       (cart_positions db))
                    (next_cart_position_id db) (set_stocks table db)
            ∧ o = Response (Detail "success" "Your shopping cart is empty")
                    status.HTTP_200_OK
        end.
Proof.
  unfold ShoppingCartViewSet_destroy. intros Hrun.
  view_cases; try (by left); right; eexists _, _, _; by repeat split.
Qed.

Lemma OrderViewSet_create_effect (data : OrderData) (u : User) (db db' : DB)
    (o : Outcome) :
  OrderViewSet_create data u db = (db', o) →
  (db' = db ∧ succeeded o = false)
  ∨ ∃ purchaser_pk cart_pk chain_store_pk chain_store created e,
      purchaser_of_user db u = Some purchaser_pk
      ∧ shopping_cart_of db purchaser_pk = Some cart_pk
      ∧ cart_positions_of db cart_pk ≠ []
      ∧ od_chain_store data = Some chain_store_pk
      ∧ chain_stores db !! chain_store_pk = Some chain_store
      ∧ chain_store_purchaser chain_store = purchaser_pk
      ∧ create_order_positions (stocks db) (next_order_id db)
          (next_order_position_id db) (cart_positions_of db cart_pk)
        = (created, e)
      ∧ let db2 :=
          set_order_positions (order_positions db ++ created)
            (next_order_position_id db + Z.of_nat (length created))
            (set_orders
               (<[next_order_id db
                  := mkOrder purchaser_pk saved chain_store_pk]> (orders db))
               (next_order_id db + 1) db) in
        match e with
        | Some e => db' = db2 ∧ o = Raise e
        | None =>
            db' = set_cart_positions
                    (List.filter (λ p, negb (cp_shopping_cart p =? cart_pk))
                       (cart_positions db))
                    (next_cart_position_id db) db2
            ∧ o = Response (Instance (next_order_id db))
                    status.HTTP_201_CREATED
        end.
Proof.
  unfold OrderViewSet_create. intros Hrun.
  view_cases; try (by left); right; bool_to_prop;
    eexists _, _, _, _, _, _;
    (split; [done|]); (split; [done|]);
    (split; [intros Hnil;
             match goal with
             | H : (length _ =? 0)%nat = false |- _ =>
                 rewrite Hnil in H; discriminate H
             end|]);
    by repeat split.
Qed.

(** ** Effects of the order and stock views *)

Lemma OrderViewSet_destroy_effect (pk : Z) (u : User) (db db' : DB)
    (o : Outcome) :
  OrderViewSet_destroy pk u db = (db', o) →
  (db' = db ∧ succeeded o = false)
  ∨ ∃ instance table e,
      OrderViewSet_get_object db u pk = inr instance
      ∧ order_state instance ≠ cancelled
      ∧ any_confirmed_or_delivered (order_positions_of db pk) = false
      ∧ return_to_stock
          ((λ p, (op_stock p, op_quantity p)) <$> order_positions_of db pk)
          (stocks db) = (table, e)
      ∧ db' = set_stocks table
                (set_orders
                   (<[pk := mkOrder (order_purchaser instance) cancelled
                              (order_chain_store instance)]> (orders db))
                   (next_order_id db) db)
      ∧ o = match e with
            | Some e => Raise e
            | None => Response (Detail "success" "Order cancelled")
                        status.HTTP_200_OK
            end.
Proof.
  unfold OrderViewSet_destroy. intros Hrun.
  view_cases; try (by left); right; bool_to_prop; eexists _, _, _;
    by repeat split.
Qed.

Lemma OrderViewSet_update_effect (pk : Z) (data : OrderData) (u : User)
    (db db' : DB) (o : Outcome) :
  OrderViewSet_update pk data u db = (db', o) →
  db' = db
  ∨ ∃ instance chain_store_pk,
      OrderViewSet_get_object db u pk = inr instance
      ∧ db' = set_orders
                (<[pk := mkOrder (order_purchaser instance)
                           (order_state instance) chain_store_pk]>
                   (orders db))
                (next_order_id db) db.
Proof.
  unfold OrderViewSet_update. intros Hrun.
  view_cases; try (by left). right. by eexists _, _.
Qed.

Lemma OrderPositionViewSet_update_effect (pk : Z) (data : OrderPositionData)
    (u : User) (db db' : DB) (o : Outcome) :
  OrderPositionViewSet_update pk data u db = (db', o) →
  (db' = db ∧ succeeded o = false)
  ∨ ∃ instance order confirmed delivered,
      OrderPositionViewSet_get_object db u pk = inr instance
      ∧ orders db !! op_order instance = Some order
      ∧ order_state order ≠ cancelled
      ∧ requested_flag "confirmed" "Your cannot revoke your confirmation"
          (data_confirmed data) (op_confirmed instance) = inr confirmed
      ∧ requested_flag "delivered" "Your cannot revoke your delivery"
          (data_delivered data) (op_delivered instance) = inr delivered
      ∧ (is_Some (data_confirmed data) ∨ is_Some (data_delivered data))
      ∧ db' = set_order_positions
                (replace_order_position
                   (mkOrderPosition (op_id instance) (op_order instance)
                      (op_stock instance) (op_quantity instance)
                      (op_price instance) confirmed delivered)
                   (order_positions db))
                (next_order_position_id db) db
      ∧ o = Response (Detail "success" "Order position successfully amended")
              status.HTTP_200_OK.
Proof.
  unfold OrderPositionViewSet_update. intros Hrun.
  assert (∀ key revoked requested current response,
            requested_flag key revoked requested current = inl response →
            succeeded response = false) as Hflag.
  { intros key revoked requested current response.
    unfold requested_flag. intros Hr. by view_cases. }
  view_cases; try (by left);
    try (left; split; [done|]; eapply Hflag; eassumption);
    right; bool_to_prop; eexists _, _, _, _; repeat split; try done;
    first [ left; by eexists | right; by eexists
          | match goal with H : _ = false |- _ => by rewrite H end ].
Qed.

Lemma StockViewSet_update_effect (pk : Z) (data : StockData) (u : User)
    (db db' : DB) (o : Outcome) :
  StockViewSet_update pk data u db = (db', o) →
  db' = db
  ∨ ∃ instance row,
      StockViewSet_get_object db u pk = inr instance
      ∧ StockSerializer_validate_partial db instance data = Some row
      ∧ db' = set_stocks (<[pk := row]> (stocks db)) db.
Proof.
  unfold StockViewSet_update, Stock_update. intros Hrun.
  view_cases; try (by left); right; by eexists _, _.
Qed.

(** ** Rows and their keys *)

Lemma unique_by_key {A} (key : A → Z) (rows : list A) (x y : A) :
  NoDup (key <$> rows) → x ∈ rows → y ∈ rows → key x = key y → x = y.
Proof.
  induction rows as [|r rows IH]; intros Hnodup Hx Hy Hkey.
  - by apply elem_of_nil in Hx.
  - rewrite fmap_cons in Hnodup. apply NoDup_cons in Hnodup as [Hfresh Hnodup].
    apply elem_of_cons in Hx as [->|Hx]; apply elem_of_cons in Hy as [->|Hy].
    + done.
    + exfalso. apply Hfresh. rewrite Hkey. by apply list_elem_of_fmap_2.
    + exfalso. apply Hfresh. rewrite <- Hkey. by apply list_elem_of_fmap_2.
    + by apply IH.
Qed.

Lemma replace_order_position_lookup (row : OrderPosition)
    (rows : list OrderPosition) (i : nat) (p' : OrderPosition) :
  replace_order_position row rows !! i = Some p' →
  ∃ p, rows !! i = Some p
       ∧ p' = if op_id p =? op_id row then row else p.
Proof.
  unfold replace_order_position. rewrite list_lookup_fmap.
  destruct (rows !! i) as [p|]; [|done]. simpl. intros [= <-]. by exists p.
Qed.

Lemma replace_order_position_keys (row : OrderPosition)
    (rows : list OrderPosition) :
  op_id <$> replace_order_position row rows = op_id <$> rows.
Proof.
  unfold replace_order_position. rewrite <- list_fmap_compose.
  apply list_fmap_ext. intros _ p _. simpl.
  destruct (op_id p =? op_id row) eqn:Heq; [|done]. by apply Z.eqb_eq in Heq.
Qed.

Lemma OrderPositionViewSet_get_object_inr (db : DB) (u : User) (pk : Z)
    (obj : OrderPosition) :
  OrderPositionViewSet_get_object db u pk = inr obj →
  obj ∈ order_positions db ∧ op_id obj = pk.
Proof.
  unfold OrderPositionViewSet_get_object, OrderPositionViewSet_get_queryset.
  intros Hget.
  assert (∀ l, List.find (λ p, op_id p =? pk) l = Some obj →
               obj ∈ l ∧ op_id obj = pk) as Hfind.
  { intros l Hl. apply find_some in Hl as [Hin Heq].
    split; [by apply list_elem_of_In|]. by apply Z.eqb_eq. }
  assert (∀ f, obj ∈ List.filter f (order_positions db) →
               obj ∈ order_positions db) as Hsub.
  { intros f Hin. apply list_elem_of_In in Hin.
    apply filter_In in Hin as [Hin _]. by apply list_elem_of_In. }
  view_cases;
    match goal with
    | H : List.find _ _ = Some _ |- _ => apply Hfind in H as [Hin Hid]
    end; eauto.
Qed.

(** The rows [create_order_positions] makes: one per cart position read,
    with that position's stock, quantity and price, keys counted up from
    [next], and both flags unset. *)
Lemma create_order_positions_spec (table : gmap Z Stock) (order_pk : Z)
    (positions : list CartPosition) :
  ∀ (next : Z) (created : list OrderPosition) (e : option Exn),
    create_order_positions table order_pk next positions = (created, e) →
    (e = None → length created = length positions)
    ∧ (∀ i p, created !! i = Some p →
              ∃ c, positions !! i = Some c
                   ∧ p = mkOrderPosition (next + Z.of_nat i) order_pk
                           (cp_stock c) (cp_quantity c) (cp_price c)
                           false false).
Proof.
  induction positions as [|c rest IH]; intros next created e Hrun;
    simpl in Hrun.
  - simplify_eq. split; [done|]. intros i p Hp. by destruct i.
  - destruct (table !! cp_stock c); [|simplify_eq; split; [done|];
                                       intros i p Hp; by destruct i].
    destruct (create_order_positions table order_pk (next + 1) rest)
      as [created' e'] eqn:Hrest.
    simplify_eq. destruct (IH _ _ _ Hrest) as [Hlen Hrows]. split.
    + intros ->. simpl. by rewrite Hlen.
    + intros [|i] p Hp; simpl in Hp.
      * simplify_eq. exists c. split; [done|]. f_equal. lia.
      * destruct (Hrows i p Hp) as (c' & Hc' & ->). exists c'.
        split; [done|]. f_equal. lia.
Qed.

(** ** Confirmation and delivery flags *)

Lemma requested_flag_inr (key revoked : string) (requested : option JVal)
    (current new : bool) :
  requested_flag key revoked requested current = inr new →
  (current = true → new = true)
  ∧ new = current || requests_true requested.
Proof.
  unfold requested_flag. intros Hflag.
  view_cases; split; try done; by rewrite ?orb_true_r, ?orb_false_r.
Qed.


(** Splits a run of [CartPositionViewSet.update] into its outcomes, each
    with the database it leaves. *)
Ltac cart_update_cases Hrun :=
  let n := fresh "n" in
  let instance := fresh "instance" in
  let stock := fresh "stock" in
  let row := fresh "row" in
  let Hq := fresh "Hq" in
  let Hn := fresh "Hn" in
  let Hprice := fresh "Hprice" in
  let Hget := fresh "Hget" in
  let Hget' := fresh "Hget'" in
  let Hstock := fresh "Hstock" in
  let Hle := fresh "Hle" in
  let Hlt := fresh "Hlt" in
  let Hvalid := fresh "Hvalid" in
  apply CartPositionViewSet_update_effect in Hrun
    as [[-> _]
       |[(Hq & Hprice & Hrun)
        |(n & instance & stock & Hq & Hn & Hprice & Hget & Hstock
          & [[Hle Hrun]|(Hlt & Hle & Hrun)])]];
  [ | apply CartPosition_update_effect in Hrun
        as [[-> _]|(instance & row & Hget & Hvalid & -> & ->)]
    | apply CartPosition_update_effect in Hrun
        as [[-> _]|(? & row & Hget' & Hvalid & -> & ->)];
      [ | rewrite CartPositionViewSet_get_object_save_quantity in Hget'
            by done;
          rewrite Hget in Hget'; symmetry in Hget'; simplify_eq ]
    | apply CartPosition_update_effect in Hrun
        as [[-> _]|(? & row & Hget' & Hvalid & -> & ->)];
      [ | rewrite CartPositionViewSet_get_object_save_quantity in Hget'
            by done;
          rewrite Hget in Hget'; symmetry in Hget'; simplify_eq ] ].

(** What a request does to the table of order positions: nothing, or the
    row of one position is written with its flags kept or raised, or the
    rows copied from a cart are added at the end. *)
Lemma handle_order_positions (user : RequestUser) (request : Request)
    (db db' : DB) (o : Outcome) :
  handle user request db = (db', o) →
  (order_positions db' = order_positions db
   ∧ next_order_position_id db' = next_order_position_id db)
  ∨ (∃ instance row,
       instance ∈ order_positions db
       ∧ op_id row = op_id instance
       ∧ op_price row = op_price instance
       ∧ flags_kept instance row
       ∧ order_positions db'
         = replace_order_position row (order_positions db)
       ∧ next_order_position_id db' = next_order_position_id db)
  ∨ (∃ cart_pk created,
       order_positions db' = (order_positions db ++ created)%list
       ∧ next_order_position_id db'
         = next_order_position_id db + Z.of_nat (length created)
       ∧ ∀ i p, created !! i = Some p →
                ∃ c, cart_positions_of db cart_pk !! i = Some c
                     ∧ p = mkOrderPosition
                             (next_order_position_id db + Z.of_nat i)
                             (next_order_id db) (cp_stock c)
                             (cp_quantity c) (cp_price c) false false).
Proof.
  intros Hrun. destruct request; simpl in Hrun;
    apply dispatch_cases in Hrun as [[-> _]|(u & -> & Hrun)];
    try (by left).
  - apply CartPositionViewSet_create_effect in Hrun
      as [[-> _]|(? & ? & ? & ? & ? & ? & ? & ? & ? & ? & ? & ? & ? & ? & ?
                  & [(-> & _)|(-> & _)])]; by left.
  - cart_update_cases Hrun; by left.
  - apply CartPositionViewSet_destroy_effect in Hrun
      as [[-> _]|(? & ? & ? & ? & -> & _)]; by left.
  - apply ShoppingCartViewSet_destroy_effect in Hrun
      as [[-> _]|(? & ? & [e|] & ? & ? & He)]; [by left| |];
      destruct He as [-> _]; by left.
  - apply OrderViewSet_create_effect in Hrun
      as [[-> _]|(? & cart_pk & ? & ? & created & e & ? & ? & ? & ? & ? & ?
                  & Hcreated & Hdb)]; [by left|].
    right. right. exists cart_pk, created.
    apply create_order_positions_spec in Hcreated as [_ Hrows].
    destruct e; destruct Hdb as [-> _]; by repeat split.
  - apply OrderViewSet_update_effect in Hrun as [->|(? & ? & ? & ->)];
      by left.
  - apply OrderViewSet_destroy_effect in Hrun
      as [[-> _]|(? & ? & ? & ? & ? & ? & ? & -> & _)]; by left.
  - apply OrderPositionViewSet_update_effect in Hrun
      as [[-> _]|(instance & ? & c & d & Hget & ? & ? & Hc & Hd & _ & -> & _)];
      [by left|].
    right. left.
    exists instance,
      (mkOrderPosition (op_id instance) (op_order instance)
         (op_stock instance) (op_quantity instance) (op_price instance) c d).
    apply OrderPositionViewSet_get_object_inr in Hget as [Hin _].
    apply requested_flag_inr in Hc as [Hc _].
    apply requested_flag_inr in Hd as [Hd _].
    split; [done|]. by repeat split.
  - apply StockViewSet_update_effect in Hrun as [->|(? & ? & ? & ? & ->)];
      by left.
Qed.

Lemma handle_order_position_kept (user : RequestUser) (request : Request)
    (db db' : DB) (o : Outcome) :
  order_positions_wf db →
  handle user request db = (db', o) →
  order_positions_wf db'
  ∧ ∀ i p, order_positions db !! i = Some p →
           ∃ p', order_positions db' !! i = Some p'
                 ∧ op_id p' = op_id p
                 ∧ op_price p' = op_price p
                 ∧ flags_kept p p'.
Proof.
  intros [Hnodup Hnext] Hrun. unfold order_positions_wf.
  apply handle_order_positions in Hrun
    as [[Hsame Hn]
       |[(instance & row & Hin & Hid & Hprice & Hflags & Hrows & Hn)
        |(cart_pk & created & Hrows & Hn & Hcreated)]].
  - rewrite Hsame. split.
    + split; [done|]. intros p Hp. rewrite Hn. by apply Hnext.
    + intros i p Hp. exists p. by repeat split.
  - rewrite Hrows. split.
    + split; [by rewrite replace_order_position_keys|].
      intros p' Hp'. rewrite Hn.
      apply list_elem_of_lookup_1 in Hp' as [i Hp'].
      apply replace_order_position_lookup in Hp' as (p & Hp & ->).
      apply list_elem_of_lookup_2 in Hp.
      destruct (op_id p =? op_id row); [|by apply Hnext].
      rewrite Hid. by apply Hnext.
    + intros i p Hp. unfold replace_order_position.
      rewrite list_lookup_fmap, Hp. simpl.
      destruct (op_id p =? op_id row) eqn:Heq.
      * apply Z.eqb_eq in Heq. exists row.
        assert (p = instance) as ->.
        { apply (unique_by_key op_id (order_positions db)); try done.
          - by apply list_elem_of_lookup_2 in Hp.
          - congruence. }
        by split_and!.
      * exists p. by repeat split.
  - rewrite Hrows. split.
    + split.
      * rewrite fmap_app. apply NoDup_app. split; [done|]. split.
        -- intros k Hk Hk'.
           apply list_elem_of_fmap in Hk as (p & -> & Hp).
           apply list_elem_of_fmap in Hk' as (p' & Heq & Hp').
           apply list_elem_of_lookup_1 in Hp' as [i Hp'].
           destruct (Hcreated i p' Hp') as (c & _ & ->). simpl in Heq.
           specialize (Hnext p Hp). lia.
        -- apply NoDup_alt. intros i j k Hi Hj.
           rewrite list_lookup_fmap in Hi, Hj.
           destruct (created !! i) as [p|] eqn:Hp; [|done].
           destruct (created !! j) as [p'|] eqn:Hp'; [|done].
           destruct (Hcreated i p Hp) as (c & _ & ->).
           destruct (Hcreated j p' Hp') as (c' & _ & ->).
           simpl in Hi, Hj. simplify_eq. lia.
      * intros p Hp. rewrite Hn. apply elem_of_app in Hp as [Hp|Hp].
        -- specialize (Hnext p Hp). lia.
        -- apply list_elem_of_lookup_1 in Hp as [i Hp].
           pose proof (lookup_lt_Some _ _ _ Hp) as Hlt.
           destruct (Hcreated i p Hp) as (c & _ & ->). simpl. lia.
    + intros i p Hp. exists p. split; [by apply lookup_app_l_Some|].
      by repeat split.
Qed.

(** Over any sequence of requests a position stays at its place in the
    table, with its key and its price, and a flag that is set stays set. *)
Lemma run_order_position_kept (requests : list (RequestUser * Request)) :
  ∀ db, order_positions_wf db →
        order_positions_wf (run requests db)
        ∧ ∀ i p, order_positions db !! i = Some p →
                 ∃ p', order_positions (run requests db) !! i = Some p'
                       ∧ op_id p' = op_id p
                       ∧ op_price p' = op_price p
                       ∧ flags_kept p p'.
Proof.
  induction requests as [|[user request] rest IH]; intros db Hwf; simpl.
  - split; [done|]. intros i p Hp. exists p. by repeat split.
  - destruct (handle user request db) as [db1 o] eqn:Hrun. simpl.
    destruct (handle_order_position_kept _ _ _ _ _ Hwf Hrun) as [Hwf1 Hstep].
    destruct (IH db1 Hwf1) as [Hwf' Hrest]. split; [done|].
    intros i p Hp.
    destruct (Hstep i p Hp) as (p1 & Hp1 & Hid1 & Hprice1 & Hc1 & Hd1).
    destruct (Hrest i p1 Hp1) as (p' & Hp' & Hid & Hprice & Hc & Hd).
    exists p'. split; [done|]. split; [congruence|]. split; [congruence|].
    split; auto.
Qed.

(** C6.  Once a position is confirmed (or delivered) it stays so under every
    sequence of requests.  Confirming or delivering fails, and changes
    nothing, when the position's order is cancelled and when [false] is sent
    for a flag that is set; otherwise, for the supplier the position's stock
    belongs to and boolean values, it succeeds and sets the flags sent as
    [true].  No stock is changed. *)
Theorem confirmation_flags_monotonic
    (requests : list (RequestUser * Request)) (user : RequestUser) (pk : Z)
    (data : OrderPositionData) (db db' : DB) (o : Outcome) :
  order_positions_wf db →
  handle user (PATCH_order_positions pk data) db = (db', o) →
  (∀ i p, order_positions db !! i = Some p →
          ∃ p', order_positions (run requests db) !! i = Some p'
                ∧ op_id p' = op_id p
                ∧ (op_confirmed p = true → op_confirmed p' = true)
                ∧ (op_delivered p = true → op_delivered p' = true))
  ∧ (∀ p order,
       p ∈ order_positions db → op_id p = pk →
       orders db !! op_order p = Some order →
       order_state order = cancelled →
       succeeded o = false ∧ db' = db)
  ∧ (∀ p,
       p ∈ order_positions db → op_id p = pk →
       (op_confirmed p = true ∧ data_confirmed data = Some (JBool false))
       ∨ (op_delivered p = true ∧ data_delivered data = Some (JBool false)) →
       succeeded o = false ∧ db' = db)
  ∧ (∀ u p order (c d : option bool),
       user = Authenticated u → user_type u = supplier →
       OrderPositionViewSet_get_object db u pk = inr p →
       orders db !! op_order p = Some order →
       order_state order ≠ cancelled →
       data_confirmed data = JBool <$> c →
       data_delivered data = JBool <$> d →
       is_Some c ∨ is_Some d →
       (c = Some false → op_confirmed p = false) →
       (d = Some false → op_delivered p = false) →
       succeeded o = true
       ∧ order_positions db'
         = replace_order_position
             (mkOrderPosition (op_id p) (op_order p) (op_stock p)
                (op_quantity p) (op_price p)
                (op_confirmed p || bool_decide (c = Some true))
                (op_delivered p || bool_decide (d = Some true)))
             (order_positions db))
  ∧ stocks db' = stocks db.
Proof.
  intros Hwf Hrun. split.
  { intros i p Hp.
    destruct (run_order_position_kept requests db Hwf) as [_ Hkept].
    destruct (Hkept i p Hp) as (p' & Hp' & Hid & _ & Hc & Hd). by exists p'. }
  assert (∀ p, p ∈ order_positions db → op_id p = pk →
               (∀ instance order c d,
                  instance = p →
                  orders db !! op_order instance = Some order →
                  order_state order ≠ cancelled →
                  requested_flag "confirmed"
                    "Your cannot revoke your confirmation"
                    (data_confirmed data) (op_confirmed instance) = inr c →
                  requested_flag "delivered" "Your cannot revoke your delivery"
                    (data_delivered data) (op_delivered instance) = inr d →
                  False) →
               succeeded o = false ∧ db' = db) as Hrefute.
  { intros p Hp Hid Hno. simpl in Hrun.
    apply dispatch_cases in Hrun as [[-> Hfail]|(u & -> & Hrun)]; [done|].
    apply OrderPositionViewSet_update_effect in Hrun
      as [[-> Hfail]
         |(instance & order & c & d & Hget & Horder & Hstate & Hc & Hd & _)];
      [done|].
    exfalso. apply (Hno instance order c d); try done.
    apply OrderPositionViewSet_get_object_inr in Hget as [Hin Hpk].
    apply (unique_by_key op_id (order_positions db)); try done.
    - by destruct Hwf.
    - congruence. }
  split; [|split; [|split]].
  - intros p order Hp Hid Horder Hcancelled. apply (Hrefute p Hp Hid).
    intros instance order' c d -> Horder' Hstate _ _. congruence.
  - intros p Hp Hid Hrevoke. apply (Hrefute p Hp Hid).
    intros instance order c d -> _ _ Hc Hd.
    destruct Hrevoke as [[Hset Hsent]|[Hset Hsent]].
    + rewrite Hsent, Hset in Hc. done.
    + rewrite Hsent, Hset in Hd. done.
  - intros u p order c d -> Htype Hget Horder Hstate Hc Hd Hsome Hkc Hkd.
    simpl in Hrun. unfold dispatch, initial in Hrun. simpl in Hrun.
    unfold is_type in Hrun. rewrite (bool_decide_eq_true_2 _ Htype) in Hrun.
    unfold OrderPositionViewSet_update in Hrun.
    rewrite Hget, Horder, Hc, Hd in Hrun.
    rewrite (bool_decide_eq_false_2 _ Hstate) in Hrun.
    destruct c as [[]|], d as [[]|]; simpl in Hrun;
      try (by destruct Hsome as [[? ?]|[? ?]]);
      rewrite ?(Hkc eq_refl), ?(Hkd eq_refl) in Hrun; simpl in Hrun;
      simplify_eq; (split; [done|]); simpl;
      rewrite ?(Hkc eq_refl), ?(Hkd eq_refl), ?orb_true_r, ?orb_false_r;
      done.
  - simpl in Hrun.
    apply dispatch_cases in Hrun as [[-> _]|(u & -> & Hrun)]; [done|].
    apply OrderPositionViewSet_update_effect in Hrun
      as [[-> _]|(? & ? & ? & ? & ? & ? & ? & ? & ? & ? & -> & _)]; done.
Qed.

Lemma sample_order_positions_wf : order_positions_wf Sample.with_order.
Proof.
  split.
  - apply (bool_decide_unpack _). vm_compute. exact I.
  - intros p Hp. vm_compute in Hp.
    repeat (apply elem_of_cons in Hp as [->|Hp]; [vm_compute; reflexivity|]).
    by apply elem_of_nil in Hp.
Defined.

Lemma confirmation_flags_monotonic_witness :
  let confirm :=
    handle (Authenticated Sample.acme)
      (PATCH_order_positions 1 (mkOrderPositionData (Some (JBool true)) None))
      Sample.with_order in
  succeeded confirm.2 = true
  ∧ order_positions confirm.1
    = [mkOrderPosition 1 1 1 1 100%Q true false;
       mkOrderPosition 2 1 2 5 40%Q false false]
  ∧ stocks confirm.1 = stocks Sample.with_order.
Proof.
  intros confirm.
  destruct (confirmation_flags_monotonic [] _ _ _ _ confirm.1 confirm.2
              sample_order_positions_wf (surjective_pairing confirm))
    as (_ & _ & _ & Hsets & Hstocks).
  destruct (Hsets Sample.acme (mkOrderPosition 1 1 1 1 100%Q false false)
              (mkOrder 1 saved 1) (Some true) None
              eq_refl eq_refl ltac:(vm_compute; reflexivity)
              ltac:(vm_compute; reflexivity) ltac:(discriminate)
              eq_refl eq_refl ltac:(left; by eexists)
              ltac:(discriminate) ltac:(discriminate))
    as [Hok Hrows].
  split; [exact Hok|]. split; [|exact Hstocks].
  rewrite Hrows. vm_compute. reflexivity.
Defined.

(** ** Cancelling an order *)

Lemma return_to_stock_spec (items : list (Z * Z)) :
  ∀ (table table' : gmap Z Stock),
    return_to_stock items table = (table', None) →
    ∀ stock_pk,
      table' !! stock_pk
      = (λ stock, with_quantity
                    (stock_quantity stock + quantity_of_stock stock_pk items)
                    stock)
          <$> table !! stock_pk.
Proof.
  induction items as [|[s q] rest IH]; intros table table' Hrun stock_pk;
    simpl in Hrun.
  - injection Hrun as <-. destruct (table !! stock_pk) as [[]|]; simpl; [|done].
    unfold with_quantity. simpl. do 2 f_equal. lia.
  - destruct (table !! s) as [stock|] eqn:Hs; [|done].
    rewrite (IH _ _ Hrun stock_pk). simpl.
    destruct (s =? stock_pk) eqn:Heq.
    + apply Z.eqb_eq in Heq as ->. rewrite lookup_insert_eq, Hs. simpl.
      unfold with_quantity. simpl. do 2 f_equal. lia.
    + apply Z.eqb_neq in Heq. by rewrite lookup_insert_ne.
Qed.

Lemma OrderViewSet_get_object_inr (db : DB) (u : User) (pk : Z)
    (obj : Order) :
  OrderViewSet_get_object db u pk = inr obj → orders db !! pk = Some obj.
Proof.
  unfold OrderViewSet_get_object, OrderViewSet_get_queryset, queryset_filter.
  intros Hget. view_cases;
    match goal with
    | H : filter _ _ !! _ = Some _ |- _ =>
        by apply map_lookup_filter_Some in H as [? _]
    end.
Qed.

(** C3.  Cancelling fails, and changes nothing, when the order is already
    cancelled and when one of its positions is confirmed or delivered.  When
    it succeeds the order is cancelled, every stock has gained the quantity
    the order's positions held of it, and cancelling the order again
    fails. *)
Theorem cancel_order (user : RequestUser) (pk : Z) (db db' : DB)
    (o : Outcome) :
  handle user (DELETE_orders pk) db = (db', o) →
  (∀ order, orders db !! pk = Some order → order_state order = cancelled →
            succeeded o = false ∧ db' = db)
  ∧ (∀ p, p ∈ order_positions db → op_order p = pk →
          op_confirmed p = true ∨ op_delivered p = true →
          succeeded o = false ∧ db' = db)
  ∧ (succeeded o = true →
     (∃ order order',
        orders db !! pk = Some order
        ∧ orders db' !! pk = Some order'
        ∧ order_state order' = cancelled)
     ∧ (∀ stock_pk,
          stocks db' !! stock_pk
          = (λ stock,
               with_quantity
                 (stock_quantity stock
                  + quantity_of_stock stock_pk
                      ((λ p, (op_stock p, op_quantity p))
                         <$> order_positions_of db pk))
                 stock)
              <$> stocks db !! stock_pk)
     ∧ order_positions db' = order_positions db
     ∧ (∀ user2 db2 o2,
          handle user2 (DELETE_orders pk) db' = (db2, o2) →
          succeeded o2 = false ∧ db2 = db')).
Proof.
  simpl. intros Hrun.
  apply dispatch_cases in Hrun as [[-> Hfail]|(u & -> & Hrun)].
  { split; [done|]. split; [done|]. intros Hok. congruence. }
  apply OrderViewSet_destroy_effect in Hrun
    as [[-> Hfail]
       |(instance & table & e & Hget & Hstate & Hnone & Hloop & -> & ->)].
  { split; [done|]. split; [done|]. intros Hok. congruence. }
  apply OrderViewSet_get_object_inr in Hget.
  split; [|split].
  - intros order Horder Hcancelled. congruence.
  - intros p Hp Hpk Hflag. exfalso.
    assert (any_confirmed_or_delivered (order_positions_of db pk) = true);
      [|congruence].
    apply existsb_exists. exists p. split.
    + apply filter_In. split; [by apply list_elem_of_In|]. by apply Z.eqb_eq.
    + destruct Hflag as [-> | ->]; [done|by rewrite orb_true_r].
  - intros Hok. destruct e as [e|]; [done|]. simpl. split; [|split; [|split]].
    + eexists instance, _. split; [done|]. by rewrite lookup_insert_eq.
    + intros stock_pk. by apply return_to_stock_spec.
    + done.
    + intros user2 db2 o2 Hrun2.
      apply dispatch_cases in Hrun2 as [[-> Hfail]|(u2 & -> & Hrun2)];
        [done|].
      apply OrderViewSet_destroy_effect in Hrun2
        as [[-> Hfail]|(instance2 & ? & ? & Hget2 & Hstate2 & _)]; [done|].
      apply OrderViewSet_get_object_inr in Hget2. simpl in Hget2.
      rewrite lookup_insert_eq in Hget2. by simplify_eq.
Qed.

Lemma cancel_order_witness :
  let cancel :=
    handle (Authenticated Sample.alice) (DELETE_orders 1) Sample.with_order in
  succeeded cancel.2 = true
  ∧ stock_quantity <$> stocks cancel.1 !! 1 = Some 5
  ∧ stock_quantity <$> stocks cancel.1 !! 2 = Some 10
  ∧ ∀ user2 db2 o2,
      handle user2 (DELETE_orders 1) cancel.1 = (db2, o2) →
      succeeded o2 = false ∧ db2 = cancel.1.
Proof.
  intros cancel.
  destruct (cancel_order _ _ _ cancel.1 cancel.2 (surjective_pairing cancel))
    as (_ & _ & Hok).
  destruct (Hok ltac:(vm_compute; reflexivity))
    as (_ & Hstocks & _ & Hagain).
  split; [vm_compute; reflexivity|].
  split; [rewrite (Hstocks 1); vm_compute; reflexivity|].
  split; [rewrite (Hstocks 2); vm_compute; reflexivity|].
  exact Hagain.
Defined.

(** ** Placing an order *)

Lemma filter_filter_negb {A} (f : A → bool) (rows : list A) :
  List.filter f (List.filter (λ x, negb (f x)) rows) = [].
Proof.
  induction rows as [|x rows IH]; [done|]. simpl.
  destruct (f x) eqn:Hx; simpl; [done|]. by rewrite Hx.
Qed.

(** C5.  Placing an order fails, and changes nothing, when the purchaser's
    cart is empty and when the chain store is not the purchaser's.  When it
    succeeds there is a new order with status saved, the table of order
    positions has gained one row per position of the cart, in the cart's
    order, with that position's stock, quantity and price, no stock has
    changed, and the purchaser's cart is empty. *)
Theorem place_order (user : RequestUser) (data : OrderData) (db db' : DB)
    (o : Outcome) :
  handle user (POST_orders data) db = (db', o) →
  (∀ u purchaser_pk cart_pk,
     user = Authenticated u →
     purchaser_of_user db u = Some purchaser_pk →
     shopping_cart_of db purchaser_pk = Some cart_pk →
     cart_positions_of db cart_pk = [] →
     succeeded o = false ∧ db' = db)
  ∧ (∀ u purchaser_pk chain_store_pk chain_store,
       user = Authenticated u →
       purchaser_of_user db u = Some purchaser_pk →
       od_chain_store data = Some chain_store_pk →
       chain_stores db !! chain_store_pk = Some chain_store →
       chain_store_purchaser chain_store ≠ purchaser_pk →
       succeeded o = false ∧ db' = db)
  ∧ (succeeded o = true →
     ∃ u purchaser_pk cart_pk chain_store_pk created,
       user = Authenticated u
       ∧ purchaser_of_user db u = Some purchaser_pk
       ∧ shopping_cart_of db purchaser_pk = Some cart_pk
       ∧ od_chain_store data = Some chain_store_pk
       ∧ o = Response (Instance (next_order_id db)) status.HTTP_201_CREATED
       ∧ orders db'
         = <[next_order_id db := mkOrder purchaser_pk saved chain_store_pk]>
             (orders db)
       ∧ order_positions db' = (order_positions db ++ created)%list
       ∧ length created = length (cart_positions_of db cart_pk)
       ∧ (∀ i p, created !! i = Some p →
                 ∃ c, cart_positions_of db cart_pk !! i = Some c
                      ∧ p = mkOrderPosition
                              (next_order_position_id db + Z.of_nat i)
                              (next_order_id db) (cp_stock c)
                              (cp_quantity c) (cp_price c) false false)
       ∧ stocks db' = stocks db
       ∧ cart_positions db'
         = List.filter (λ p, negb (cp_shopping_cart p =? cart_pk))
             (cart_positions db)
       ∧ cart_positions_of db' cart_pk = []).
Proof.
  simpl. intros Hrun.
  apply dispatch_cases in Hrun as [[-> Hfail]|(u & -> & Hrun)].
  { split; [done|]. split; [done|]. intros Hok. congruence. }
  apply OrderViewSet_create_effect in Hrun
    as [[-> Hfail]
       |(purchaser_pk & cart_pk & chain_store_pk & chain_store & created & e
         & Hpurchaser & Hcart & Hfull & Hdata & Hstore & Howner & Hloop
         & Hdb)].
  { split; [done|]. split; [done|]. intros Hok. congruence. }
  split; [|split].
  - intros u' purchaser_pk' cart_pk' [= <-] Hp Hc Hempty. congruence.
  - intros u' purchaser_pk' chain_store_pk' chain_store' [= <-] Hp Hd Hs Hne.
    congruence.
  - intros Hok. destruct e as [e|]; destruct Hdb as [-> ->]; [done|].
    apply create_order_positions_spec in Hloop as [Hlen Hrows].
    exists u, purchaser_pk, cart_pk, chain_store_pk, created.
    repeat split; try done; [by apply Hlen|].
    unfold cart_positions_of. simpl. apply filter_filter_negb.
Qed.

Lemma place_order_witness :
  let placed :=
    handle (Authenticated Sample.alice)
      (POST_orders (mkOrderData None (Some 1))) Sample.with_cart in
  let refused :=
    handle (Authenticated Sample.alice)
      (POST_orders (mkOrderData None (Some 2))) Sample.with_cart in
  (order_state <$> orders placed.1 !! 1 = Some saved
   ∧ order_positions placed.1
     = [mkOrderPosition 1 1 1 1 100%Q false false;
        mkOrderPosition 2 1 2 5 40%Q false false]
   ∧ stocks placed.1 = stocks Sample.with_cart
   ∧ cart_positions_of placed.1 1 = [])
  ∧ succeeded refused.2 = false ∧ refused.1 = Sample.with_cart.
Proof.
  intros placed refused. split.
  - destruct (place_order _ _ _ placed.1 placed.2 (surjective_pairing placed))
      as (_ & _ & Hok).
    destruct (Hok ltac:(vm_compute; reflexivity))
      as (u & purchaser_pk & cart_pk & chain_store_pk & created
          & Hu & Hp & Hc & Hd & _ & Horders & Hrows & _ & _ & Hstocks & _
          & Hcart).
    injection Hu as <-. vm_compute in Hp. injection Hp as <-.
    vm_compute in Hc. injection Hc as <-. injection Hd as <-.
    split; [rewrite Horders; vm_compute; reflexivity|].
    split; [vm_compute; reflexivity|]. split; [exact Hstocks|exact Hcart].
  - destruct (place_order _ _ _ refused.1 refused.2
                (surjective_pairing refused)) as (_ & Hforeign & _).
    apply (Hforeign Sample.alice 1 2 (mkChainStore 2));
      [reflexivity | vm_compute; reflexivity | reflexivity
      | vm_compute; reflexivity | simpl; lia].
Defined.

(** ** Prices of positions *)

(** C2 as stated fails.  Alice holds one unit of stock 1 at 100; the
    supplier raises the stock's price to 120, which leaves her position at
    100; she then raises the quantity to 2 and the position is at 120. *)
Lemma increase_takes_current_price :
  cart_positions Sample.with_cart
  = [mkCartPosition 1 1 1 1 100%Q; mkCartPosition 2 1 2 5 40%Q]
  ∧ cart_positions Sample.repriced = cart_positions Sample.with_cart
  ∧ stock_price <$> stocks Sample.repriced !! 1 = Some 120%Q
  ∧ handle (Authenticated Sample.alice)
      (PATCH_cart_positions 1 (Sample.quantity_only (JInt 2)))
      Sample.repriced
    = (Sample.raised,
       Response (Instance 1) status.HTTP_200_OK)
  ∧ cart_positions Sample.raised
    = [mkCartPosition 1 1 1 2 120%Q; mkCartPosition 2 1 2 5 40%Q].
Proof. vm_compute. done. Qed.

Lemma zero_price_is_invalid (q : Q) :
  decimal_truthy (Some q) = false → price_is_valid q = false.
Proof.
  unfold decimal_truthy, price_is_valid. intros Hzero.
  apply negb_false_iff, Qeq_bool_iff in Hzero.
  destruct (Qle_bool price_min_value q) eqn:Hle; [|done].
  apply Qle_bool_iff in Hle. rewrite Hzero in Hle. by vm_compute in Hle.
Qed.

(** The row a valid partial update saves. *)
Lemma CartPositionSerializer_validate_partial_row (db : DB)
    (instance row : CartPosition) (data : CartPositionData) :
  CartPositionSerializer_validate_partial db instance data = Some row →
  cp_id row = cp_id instance
  ∧ cp_price row = default (cp_price instance) (data_price data)
  ∧ (∀ q, data_price data = Some q → price_is_valid q = true)
  ∧ (∀ pk, data_stock data = Some pk → is_Some (stocks db !! pk))
  ∧ cp_stock row = default (cp_stock instance) (data_stock data)
  ∧ cp_shopping_cart row
    = default (cp_shopping_cart instance) (data_shopping_cart data)
  ∧ JInt (cp_quantity row)
    = default (JInt (cp_quantity instance)) (data_quantity data).
Proof.
  unfold CartPositionSerializer_validate_partial. intros Hvalid.
  destruct (default (JInt (cp_quantity instance)) (data_quantity data))
    eqn:Hq; try done.
  match type of Hvalid with (if ?c then _ else _) = _ =>
    destruct c eqn:Hchecks end; [|done].
  injection Hvalid as <-. simpl. bool_to_prop.
  repeat split; try done.
  - intros q Hprice. by rewrite Hprice in *.
  - intros pk Hstock. rewrite Hstock in *. by bool_to_prop.
Qed.

Lemma replace_cart_position_elem_of (row : CartPosition)
    (rows : list CartPosition) (p' : CartPosition) :
  p' ∈ replace_cart_position row rows →
  (p' ∈ rows ∧ cp_id p' ≠ cp_id row)
  ∨ (p' = row ∧ ∃ p, p ∈ rows ∧ cp_id p = cp_id row).
Proof.
  unfold replace_cart_position. intros Hin.
  apply list_elem_of_fmap in Hin as (p & -> & Hp).
  destruct (cp_id p =? cp_id row) eqn:Heq.
  - apply Z.eqb_eq in Heq. right. split; [done|]. by exists p.
  - apply Z.eqb_neq in Heq. by left.
Qed.

(** What a request does to the table of cart positions: nothing; rows are
    deleted; a row is added with its stock's price; or one row is written. *)
Lemma handle_cart_positions (user : RequestUser) (request : Request)
    (db db' : DB) (o : Outcome) :
  handle user request db = (db', o) →
  cart_positions db' = cart_positions db
  ∨ (∃ f, cart_positions db' = List.filter f (cart_positions db))
  ∨ (∃ data new stock,
       request = POST_cart_positions data
       ∧ stocks db !! cp_stock new = Some stock
       ∧ cp_price new = stock_price stock
       ∧ cart_positions db' = (cart_positions db ++ [new])%list)
  ∨ (∃ pk data instance row,
       request = PATCH_cart_positions pk data
       ∧ succeeded o = true
       ∧ instance ∈ cart_positions db
       ∧ cp_id instance = pk
       ∧ cp_id row = pk
       ∧ price_after_update db data instance row
       ∧ cart_positions db' = replace_cart_position row (cart_positions db)).
Proof.
  intros Hrun. destruct request; simpl in Hrun;
    apply dispatch_cases in Hrun as [[-> _]|(u & -> & Hrun)];
    try (by left).
  - apply CartPositionViewSet_create_effect in Hrun
      as [[-> _]|(? & ? & ? & ? & ? & ? & ? & ? & ? & ? & ? & ? & ? & ? & ?
                  & [(-> & _)|(-> & _)])]; [by left|by left|].
    right. right. left. eexists _, _, _. by repeat split.
  - cart_update_cases Hrun; try (by left); right; right; right;
      apply CartPositionViewSet_get_object_inr in Hget as (Hin & Hid & _);
      apply CartPositionSerializer_validate_partial_row in Hvalid
        as (Hrid & Hrprice & Hpvalid & _);
      exists pk, data, instance, row;
      (split; [done|]); (split; [done|]); (split; [done|]);
      (split; [done|]); (split; [congruence|]); (split; [|done]).
    + left. split; [|intros n' Hn'; congruence].
      rewrite Hrprice. destruct (data_price data) as [q|] eqn:Hq'; [|done].
      apply zero_price_is_invalid in Hprice. specialize (Hpvalid q eq_refl).
      congruence.
    + left. split; [|intros n' Hn'; by simplify_eq].
      rewrite Hrprice. destruct (data_price data) as [q|] eqn:Hq'; [|done].
      apply zero_price_is_invalid in Hprice. specialize (Hpvalid q eq_refl).
      congruence.
    + right. by exists n, stock.
  - apply CartPositionViewSet_destroy_effect in Hrun
      as [[-> _]|(? & ? & ? & ? & -> & _)]; [by left|].
    right. left. by eexists.
  - apply ShoppingCartViewSet_destroy_effect in Hrun
      as [[-> _]|(? & ? & [e|] & ? & ? & He)]; [by left| |];
      destruct He as [-> _]; [by left|].
    right. left. by eexists.
  - apply OrderViewSet_create_effect in Hrun
      as [[-> _]|(? & cart_pk & ? & ? & created & e & ? & ? & ? & ? & ? & ?
                  & Hcreated & Hdb)]; [by left|].
    destruct e; destruct Hdb as [-> _]; [by left|].
    right. left. by eexists.
  - apply OrderViewSet_update_effect in Hrun as [->|(? & ? & ? & ->)];
      by left.
  - apply OrderViewSet_destroy_effect in Hrun
      as [[-> _]|(? & ? & ? & ? & ? & ? & ? & -> & _)]; by left.
  - apply OrderPositionViewSet_update_effect in Hrun
      as [[-> _]|(? & ? & ? & ? & ? & ? & ? & ? & ? & ? & -> & _)]; by left.
  - apply StockViewSet_update_effect in Hrun as [->|(? & ? & ? & ? & ->)];
      by left.
Qed.

(** C2, as the code has it.  No sequence of requests changes the price of
    an order position.  A cart position found after a request is a row the
    request left as it was, or a row just created at its stock's price, or
    the row of the position a PATCH wrote: that row keeps the position's
    price unless the quantity went up, and then it carries the stock's
    current price.  A request that changes a stock changes no position. *)
Theorem position_prices (requests : list (RequestUser * Request))
    (user : RequestUser) (request : Request) (db db' : DB) (o : Outcome) :
  order_positions_wf db →
  handle user request db = (db', o) →
  (∀ i p, order_positions db !! i = Some p →
          ∃ p', order_positions (run requests db) !! i = Some p'
                ∧ op_id p' = op_id p
                ∧ op_price p' = op_price p)
  ∧ (∀ p', p' ∈ cart_positions db' →
           p' ∈ cart_positions db
           ∨ (∃ data stock,
                request = POST_cart_positions data
                ∧ stocks db !! cp_stock p' = Some stock
                ∧ cp_price p' = stock_price stock)
           ∨ (∃ pk data p,
                request = PATCH_cart_positions pk data
                ∧ p ∈ cart_positions db
                ∧ cp_id p = pk
                ∧ cp_id p' = pk
                ∧ ((cp_price p' = cp_price p
                    ∧ ∀ n, data_quantity data = Some (JInt n) →
                           n ≤ cp_quantity p)
                   ∨ ∃ n stock,
                       data_quantity data = Some (JInt n)
                       ∧ cp_quantity p < n
                       ∧ stocks db !! cp_stock p = Some stock
                       ∧ cp_price p' = stock_price stock)))
  ∧ (∀ pk data, request = PATCH_stocks pk data →
                cart_positions db' = cart_positions db
                ∧ order_positions db' = order_positions db).
Proof.
  intros Hwf Hrun. split; [|split].
  - intros i p Hp.
    destruct (run_order_position_kept requests db Hwf) as [_ Hkept].
    destruct (Hkept i p Hp) as (p' & Hp' & Hid & Hprice & _). by exists p'.
  - intros p' Hp'.
    apply handle_cart_positions in Hrun
      as [Hsame
         |[[f Hrows]
          |[(data & new & stock & -> & Hstock & Hprice & Hrows)
           |(pk & data & instance & row & -> & _ & Hin & Hid & Hrid & Hupd
             & Hrows)]]];
      rewrite ?Hsame, ?Hrows in Hp'.
    + by left.
    + left. apply list_elem_of_In in Hp'. apply filter_In in Hp' as [Hp' _].
      by apply list_elem_of_In.
    + apply elem_of_app in Hp' as [Hp'|Hp']; [by left|].
      apply list_elem_of_singleton in Hp' as ->. right. left.
      by exists data, stock.
    + apply replace_cart_position_elem_of in Hp' as [[Hp' _]|[-> _]];
        [by left|].
      right. right. exists pk, data, instance. by repeat split.
  - intros pk data ->. simpl in Hrun.
    apply dispatch_cases in Hrun as [[-> _]|(u & -> & Hrun)]; [done|].
    apply StockViewSet_update_effect in Hrun as [->|(? & ? & ? & ? & ->)];
      done.
Qed.

Lemma position_prices_witness :
  let repriced :=
    handle (Authenticated Sample.acme)
      (PATCH_stocks 1 (mkStockData None None None (Some 120%Q) None))
      Sample.with_cart in
  cart_positions repriced.1 = cart_positions Sample.with_cart
  ∧ order_positions repriced.1 = order_positions Sample.with_cart.
Proof.
  intros repriced.
  assert (order_positions_wf Sample.with_cart) as Hwf.
  { split; [vm_compute; constructor|].
    intros p Hp. vm_compute in Hp. by apply elem_of_nil in Hp. }
  destruct (position_prices [] _ _ _ repriced.1 repriced.2 Hwf
              (surjective_pairing repriced)) as (_ & _ & Hstock).
  by apply (Hstock 1 (mkStockData None None None (Some 120%Q) None)).
Defined.

(** ** Conservation of stock under cart operations *)

Lemma add_quantity_0 (stock : Stock) : add_quantity 0 stock = stock.
Proof.
  destruct stock. unfold add_quantity, with_quantity. simpl. f_equal. lia.
Qed.

Lemma add_quantity_add_quantity (d1 d2 : Z) (stock : Stock) :
  add_quantity d2 (add_quantity d1 stock) = add_quantity (d1 + d2) stock.
Proof. unfold add_quantity, with_quantity. simpl. f_equal. lia. Qed.

Lemma quantity_of_stock_app (stock_pk : Z) (items items' : list (Z * Z)) :
  quantity_of_stock stock_pk (items ++ items')
  = quantity_of_stock stock_pk items + quantity_of_stock stock_pk items'.
Proof.
  induction items as [|[s q] items IH]; simpl; [done|].
  destruct (s =? stock_pk); lia.
Qed.

Lemma quantity_of_stock_partition (stock_pk : Z) (f : CartPosition → bool)
    (rows : list CartPosition) :
  quantity_of_stock stock_pk (cart_items rows)
  = quantity_of_stock stock_pk (cart_items (List.filter f rows))
    + quantity_of_stock stock_pk
        (cart_items (List.filter (λ p, negb (f p)) rows)).
Proof.
  induction rows as [|p rows IH]; simpl; [done|].
  destruct (f p); simpl; destruct (cp_stock p =? stock_pk); lia.
Qed.

Lemma quantity_of_stock_cons (stock_pk : Z) (p : CartPosition)
    (rows : list CartPosition) :
  quantity_of_stock stock_pk (cart_items (p :: rows))
  = held p stock_pk + quantity_of_stock stock_pk (cart_items rows).
Proof. unfold held. simpl. destruct (cp_stock p =? stock_pk); lia. Qed.

Lemma filter_other_keys_fresh (pk : Z) (rows : list CartPosition) :
  pk ∉ cp_id <$> rows →
  List.filter (λ p, negb (cp_id p =? pk)) rows = rows.
Proof.
  intros Hfresh. apply forallb_filter_id, forallb_forall. intros x Hx.
  apply negb_true_iff, Z.eqb_neq. intros Heq. apply Hfresh. rewrite <- Heq.
  apply list_elem_of_fmap_2. by apply list_elem_of_In.
Qed.

Lemma replace_cart_position_fresh (row : CartPosition)
    (rows : list CartPosition) :
  cp_id row ∉ cp_id <$> rows → replace_cart_position row rows = rows.
Proof.
  intros Hfresh. unfold replace_cart_position.
  rewrite <- (list_fmap_id rows) at 2. apply list_fmap_ext.
  intros i x Hx. simpl. destruct (cp_id x =? cp_id row) eqn:Heq; [|done].
  apply Z.eqb_eq in Heq. exfalso. apply Hfresh. rewrite <- Heq.
  apply list_elem_of_fmap_2. by apply list_elem_of_lookup_2 in Hx.
Qed.

Lemma quantity_of_stock_remove (stock_pk : Z) (rows : list CartPosition)
    (instance : CartPosition) :
  NoDup (cp_id <$> rows) → instance ∈ rows →
  quantity_of_stock stock_pk
    (cart_items (List.filter (λ p, negb (cp_id p =? cp_id instance)) rows))
  = quantity_of_stock stock_pk (cart_items rows) - held instance stock_pk.
Proof.
  induction rows as [|p rows IH]; intros Hnodup Hin.
  - by apply elem_of_nil in Hin.
  - rewrite fmap_cons in Hnodup.
    apply NoDup_cons in Hnodup as [Hfresh Hnodup].
    rewrite quantity_of_stock_cons.
    change (List.filter (λ q, negb (cp_id q =? cp_id instance)) (p :: rows))
      with (if negb (cp_id p =? cp_id instance)
            then p :: List.filter (λ q, negb (cp_id q =? cp_id instance)) rows
            else List.filter (λ q, negb (cp_id q =? cp_id instance)) rows).
    apply elem_of_cons in Hin as [->|Hin].
    + rewrite Z.eqb_refl. simpl negb. cbv iota.
      rewrite filter_other_keys_fresh by done. lia.
    + destruct (cp_id p =? cp_id instance) eqn:Heq.
      * apply Z.eqb_eq in Heq. exfalso. apply Hfresh. rewrite Heq.
        by apply list_elem_of_fmap_2.
      * simpl negb. cbv iota. rewrite quantity_of_stock_cons.
        rewrite (IH Hnodup Hin). lia.
Qed.

Lemma quantity_of_stock_replace (stock_pk : Z) (rows : list CartPosition)
    (instance row : CartPosition) :
  NoDup (cp_id <$> rows) → instance ∈ rows → cp_id row = cp_id instance →
  quantity_of_stock stock_pk (cart_items (replace_cart_position row rows))
  = quantity_of_stock stock_pk (cart_items rows)
    - held instance stock_pk + held row stock_pk.
Proof.
  intros Hnodup Hin Hid. induction rows as [|p rows IH].
  - by apply elem_of_nil in Hin.
  - rewrite fmap_cons in Hnodup.
    apply NoDup_cons in Hnodup as [Hfresh Hnodup].
    rewrite quantity_of_stock_cons.
    change (replace_cart_position row (p :: rows))
      with ((if cp_id p =? cp_id row then row else p)
            :: replace_cart_position row rows).
    rewrite quantity_of_stock_cons.
    apply elem_of_cons in Hin as [->|Hin].
    + rewrite Hid, Z.eqb_refl.
      rewrite replace_cart_position_fresh by by rewrite Hid. lia.
    + destruct (cp_id p =? cp_id row) eqn:Heq.
      * apply Z.eqb_eq in Heq. exfalso. apply Hfresh. rewrite Heq, Hid.
        by apply list_elem_of_fmap_2.
      * rewrite (IH Hnodup Hin). lia.
Qed.

Lemma conserved_refl (db : DB) : conserved db db.
Proof.
  intros s. rewrite Z.sub_diag. destruct (stocks db !! s); [|done].
  simpl. by rewrite add_quantity_0.
Qed.

Lemma conserved_trans (db db1 db2 : DB) :
  conserved db db1 → conserved db1 db2 → conserved db db2.
Proof.
  intros H1 H2 s. rewrite (H2 s), (H1 s).
  destruct (stocks db !! s); [|done]. simpl.
  rewrite add_quantity_add_quantity. do 2 f_equal. lia.
Qed.

(** Conservation when only the cart positions and the quantity of one
    stock were written. *)
Lemma conserved_one_stock (db db' : DB) (stock_pk : Z) (stock : Stock)
    (quantity : Z) :
  stocks db !! stock_pk = Some stock →
  stocks db' = <[stock_pk := with_quantity quantity stock]> (stocks db) →
  (∀ s, reserved db' s
        = reserved db s
          - (if s =? stock_pk then quantity - stock_quantity stock else 0)) →
  conserved db db'.
Proof.
  intros Hstock Hstocks Hreserved s. rewrite Hstocks, (Hreserved s).
  destruct (s =? stock_pk) eqn:Heq.
  - apply Z.eqb_eq in Heq as ->. rewrite lookup_insert_eq, Hstock. simpl.
    unfold add_quantity. do 2 f_equal. lia.
  - apply Z.eqb_neq in Heq. rewrite lookup_insert_ne by done.
    replace (reserved db s - (reserved db s - 0)) with 0 by lia.
    destruct (stocks db !! s); [|done]. simpl. by rewrite add_quantity_0.
Qed.

Lemma held_other (p : CartPosition) (s : Z) :
  held p s = if s =? cp_stock p then cp_quantity p else 0.
Proof. unfold held. by rewrite (Z.eqb_sym s). Qed.

Lemma conserved_stocks (db db' : DB) :
  conserved db db' →
  (∀ pk, is_Some (stocks db !! pk) → is_Some (stocks db' !! pk))
  ∧ (∀ pk stock', stocks db' !! pk = Some stock' →
                  ∃ stock, stocks db !! pk = Some stock
                           ∧ stock_price stock' = stock_price stock).
Proof.
  intros Hc. split.
  - intros pk [stock Hstock]. rewrite (Hc pk), Hstock. by eexists.
  - intros pk stock' Hstock'. rewrite (Hc pk) in Hstock'.
    destruct (stocks db !! pk) as [stock|]; [|done].
    simpl in Hstock'. injection Hstock' as <-. by exists stock.
Qed.

Lemma find_row_Some {A} (f : Z → A → bool) (table : gmap Z A) (pk : Z)
    (row : A) :
  find_row f table = Some (pk, row) →
  table !! pk = Some row ∧ f pk row = true.
Proof.
  unfold find_row, queryset_filter. intros Hhead.
  apply head_Some_elem_of, elem_of_map_to_list in Hhead.
  apply map_lookup_filter_Some in Hhead as [Hrow Hf]. split; [done|].
  simpl in Hf. by apply Is_true_true.
Qed.

Lemma shopping_cart_of_Some (db : DB) (purchaser_pk cart_pk : Z) :
  shopping_cart_of db purchaser_pk = Some cart_pk →
  ∃ cart, shopping_carts db !! cart_pk = Some cart
          ∧ cart_purchaser cart = purchaser_pk.
Proof.
  unfold shopping_cart_of. intros Hcart.
  destruct (find_row _ _) as [[pk cart]|] eqn:Hrow; [|done].
  simpl in Hcart. injection Hcart as <-.
  apply find_row_Some in Hrow as [Hrow Hf]. exists cart.
  split; [done|]. by apply Z.eqb_eq.
Qed.

Lemma purchaser_of_user_Some (db : DB) (u : User) (purchaser_pk : Z) :
  purchaser_of_user db u = Some purchaser_pk →
  purchaser_user_of db purchaser_pk = Some (user_id u).
Proof.
  unfold purchaser_of_user, purchaser_user_of. intros Hp.
  destruct (find_row _ _) as [[pk row]|] eqn:Hrow; [|done].
  simpl in Hp. injection Hp as <-.
  apply find_row_Some in Hrow as [-> Hf]. simpl. f_equal. by apply Z.eqb_eq.
Qed.

(** [UpdateModelMixin.update] on a request that carries the quantity and,
    after an increase, the stock's price. *)
Lemma CartPosition_update_quantity (pk : Z) (u : User) (db : DB)
    (instance : CartPosition) (n : Z) (price : option Q) :
  CartPositionViewSet_get_object db u pk = inr instance →
  0 ≤ n →
  (∀ q, price = Some q → price_is_valid q = true) →
  CartPosition_update pk
    (mkCartPositionData None None (Some (JInt n)) price) u db
  = (set_cart_positions
       (replace_cart_position
          (mkCartPosition (cp_id instance) (cp_shopping_cart instance)
             (cp_stock instance) n (default (cp_price instance) price))
          (cart_positions db))
       (next_cart_position_id db) db,
     Response (Instance pk) status.HTTP_200_OK).
Proof.
  intros Hget Hn Hprice. unfold CartPosition_update. rewrite Hget.
  unfold CartPositionSerializer_validate_partial. simpl.
  rewrite !Z.eqb_refl. simpl.
  assert ((0 <=? n) = true) as -> by by apply Z.leb_le.
  destruct price as [q|]; simpl; [|done]. by rewrite (Hprice q eq_refl).
Qed.

Lemma return_to_stock_total (items : list (Z * Z)) :
  ∀ table : gmap Z Stock,
    (∀ item, item ∈ items → is_Some (table !! item.1)) →
    ∃ table', return_to_stock items table = (table', None).
Proof.
  induction items as [|[s q] items IH]; intros table Hfk; simpl.
  - by eexists.
  - destruct (Hfk (s, q)) as [stock Hstock]; [left|]. simpl in Hstock.
    rewrite Hstock. apply IH. intros item Hitem.
    apply lookup_insert_is_Some'. right. apply Hfk. by right.
Qed.

Lemma NoDup_fmap_filter {A} (key : A → Z) (f : A → bool) (rows : list A) :
  NoDup (key <$> rows) → NoDup (key <$> List.filter f rows).
Proof.
  induction rows as [|x rows IH]; [done|]. rewrite fmap_cons.
  intros Hnodup. apply NoDup_cons in Hnodup as [Hfresh Hnodup]. simpl.
  destruct (f x); [|by apply IH]. rewrite fmap_cons. apply NoDup_cons.
  split; [|by apply IH]. intros Hin. apply Hfresh.
  by apply (fmap_filter_subseteq key f rows).
Qed.

Lemma elem_of_filter_1 {A} (f : A → bool) (rows : list A) (x : A) :
  x ∈ List.filter f rows → x ∈ rows ∧ f x = true.
Proof.
  intros Hin. apply list_elem_of_In, filter_In in Hin as [Hin Hf].
  split; [by apply list_elem_of_In|done].
Qed.

Lemma replace_cart_position_keys (row : CartPosition)
    (rows : list CartPosition) :
  cp_id <$> replace_cart_position row rows = cp_id <$> rows.
Proof.
  unfold replace_cart_position. rewrite <- list_fmap_compose.
  apply list_fmap_ext. intros _ p _. simpl.
  destruct (cp_id p =? cp_id row) eqn:Heq; [|done]. by apply Z.eqb_eq in Heq.
Qed.

(** Well-formedness after a step that conserves stock. *)
Lemma carts_wf_conserved (db db' : DB) :
  carts_wf db → conserved db db' →
  NoDup (cp_id <$> cart_positions db') →
  (∀ p, p ∈ cart_positions db' → cp_id p < next_cart_position_id db') →
  (∀ p, p ∈ cart_positions db' → is_Some (stocks db !! cp_stock p)) →
  carts_wf db'.
Proof.
  intros (_ & _ & _ & Hprices) Hc Hnodup Hnext Hfk.
  destruct (conserved_stocks db db' Hc) as [Hdom Hsame].
  split; [done|]. split; [done|]. split.
  - intros p Hp. apply Hdom. by apply Hfk.
  - intros pk stock' Hstock'.
    destruct (Hsame pk stock' Hstock') as (stock & Hstock & ->).
    by apply (Hprices pk).
Qed.

Lemma filter_filter_implied {A} (f g : A → bool) (rows : list A) :
  (∀ x, x ∈ rows → g x = false → f x = false) →
  List.filter f (List.filter g rows) = List.filter f rows.
Proof.
  induction rows as [|x rows IH]; intros Himp; [done|]. simpl.
  destruct (g x) eqn:Hg; simpl.
  - destruct (f x); rewrite IH; try done; intros y Hy; apply Himp; by right.
  - rewrite (Himp x) by (done || left). apply IH.
    intros y Hy. apply Himp. by right.
Qed.

Lemma filter_replace_hidden (f : CartPosition → bool) (row : CartPosition)
    (rows : list CartPosition) :
  f row = false →
  (∀ p, p ∈ rows → cp_id p = cp_id row → f p = false) →
  List.filter f (replace_cart_position row rows) = List.filter f rows.
Proof.
  intros Hrow. induction rows as [|p rows IH]; intros Hsame; [done|].
  change (replace_cart_position row (p :: rows))
    with ((if cp_id p =? cp_id row then row else p)
          :: replace_cart_position row rows).
  simpl. destruct (cp_id p =? cp_id row) eqn:Heq.
  - apply Z.eqb_eq in Heq. rewrite Hrow, (Hsame p) by (done || left).
    apply IH. intros q Hq. apply Hsame. by right.
  - destruct (f p); rewrite IH; try done; intros q Hq; apply Hsame; by right.
Qed.

Lemma ShoppingCartViewSet_get_object_inr (db : DB) (u : User) (pk : Z)
    (obj : ShoppingCart) :
  ShoppingCartViewSet_get_object db u pk = inr obj →
  shopping_carts db !! pk = Some obj
  ∧ purchaser_user_of db (cart_purchaser obj) = Some (user_id u).
Proof.
  unfold ShoppingCartViewSet_get_object, ShoppingCartViewSet_get_queryset,
    queryset_filter, IsPurchaserOwner_has_object_permission, is_user.
  intros Hget. view_cases; bool_to_prop;
    try match goal with
      | H : filter _ _ !! _ = Some _ |- _ =>
          apply map_lookup_filter_Some in H as [? _]
      end; split; congruence.
Qed.

Lemma owned_by_cart (db : DB) (u : User) (p : CartPosition) :
  purchaser_user_of_cart db (cp_shopping_cart p) = Some (user_id u) →
  owned_by db u p = true.
Proof.
  unfold owned_by, is_user. intros ->. apply Z.eqb_refl.
Qed.

Lemma cart_step_refl (u : User) (db : DB) : carts_wf db → cart_step u db db.
Proof. intros Hwf. split; [done|]. split; [apply conserved_refl|done]. Qed.

Lemma add_line_step (u : User) (stock_pk : Z) (quantity : JVal)
    (db db' : DB) (o : Outcome) :
  carts_wf db →
  CartPositionViewSet_create
    (mkCartPositionData None (Some stock_pk) (Some quantity) None) u db
  = (db', o) →
  cart_step u db db'.
Proof.
  intros Hwf Hrun.
  apply CartPositionViewSet_create_effect in Hrun
    as [[-> _]
       |(k & n & purchaser_pk & cart_pk & stock & sup & Hk & Hq & Hn
         & Hpurchaser & Hcart & _ & Hstock & _ & _ & Hdb)];
    [by apply cart_step_refl|].
  simpl in Hk, Hq. simplify_eq.
  destruct Hwf as (Hnodup & Hnext & Hfk & Hprices).
  destruct (shopping_cart_of_Some _ _ _ Hcart) as (cart & Hrow & Howner).
  destruct Hdb as [(_ & _ & [Hnone|Hinvalid])|[-> _]].
  { congruence. }
  { rewrite (Hprices _ _ Hstock) in Hinvalid. done. }
  set (new := mkCartPosition (next_cart_position_id db) cart_pk k n
                (stock_price stock)).
  assert (conserved db
            (set_cart_positions (cart_positions db ++ [new])
               (next_cart_position_id db + 1)
               (save_stock_quantity k stock (stock_quantity stock - n) db)))
    as Hconserved.
  { apply (conserved_one_stock _ _ k stock (stock_quantity stock - n));
      [done|done|].
    intros s. unfold reserved, cart_items. simpl.
    rewrite fmap_app, quantity_of_stock_app. simpl.
    rewrite (Z.eqb_sym k s). destruct (s =? k); lia. }
  split; [|split; [done|split; [done|split; [done|]]]].
  - apply (carts_wf_conserved db); try done; simpl.
    + rewrite fmap_app. apply NoDup_app. split; [done|]. split.
      * intros pk Hpk Hnew. apply list_elem_of_singleton in Hnew.
        apply list_elem_of_fmap in Hpk as (p & -> & Hp).
        specialize (Hnext p Hp). simpl in Hnew. lia.
      * apply NoDup_singleton.
    + intros p Hp. apply elem_of_app in Hp as [Hp|Hp].
      * specialize (Hnext p Hp). lia.
      * apply list_elem_of_singleton in Hp as ->. simpl. lia.
    + intros p Hp. apply elem_of_app in Hp as [Hp|Hp]; [by apply Hfk|].
      apply list_elem_of_singleton in Hp as ->. by eexists.
  - simpl. rewrite List.filter_app. simpl.
    assert (owned_by db u new = true) as ->.
    { apply owned_by_cart. simpl. unfold purchaser_user_of_cart.
      rewrite Hrow. simpl. rewrite Howner.
      by apply purchaser_of_user_Some. }
    simpl. by rewrite app_nil_r.
Qed.

(** The step of [update] once the stock is written with [quantity] and the
    position with [n]. *)
Lemma update_line_written (u : User) (db : DB) (instance : CartPosition)
    (stock : Stock) (n quantity : Z) (price : Q) :
  carts_wf db →
  instance ∈ cart_positions db →
  purchaser_user_of_cart db (cp_shopping_cart instance) = Some (user_id u) →
  stocks db !! cp_stock instance = Some stock →
  quantity - stock_quantity stock = cp_quantity instance - n →
  cart_step u db
    (set_cart_positions
       (replace_cart_position
          (mkCartPosition (cp_id instance) (cp_shopping_cart instance)
             (cp_stock instance) n price)
          (cart_positions
             (save_stock_quantity (cp_stock instance) stock quantity db)))
       (next_cart_position_id
          (save_stock_quantity (cp_stock instance) stock quantity db))
       (save_stock_quantity (cp_stock instance) stock quantity db)).
Proof.
  intros Hwf Hin Howner Hstock Hdelta.
  pose proof Hwf as (Hnodup & Hnext & Hfk & Hprices).
  set (row := mkCartPosition (cp_id instance) (cp_shopping_cart instance)
                (cp_stock instance) n price).
  simpl cart_positions. simpl next_cart_position_id.
  assert (conserved db
            (set_cart_positions
               (replace_cart_position row (cart_positions db))
               (next_cart_position_id db)
               (save_stock_quantity (cp_stock instance) stock quantity db)))
    as Hconserved.
  { apply (conserved_one_stock _ _ (cp_stock instance) stock quantity);
      [done|done|].
    intros s. unfold reserved. simpl cart_positions.
    rewrite (quantity_of_stock_replace s _ instance row) by done.
    rewrite !held_other. simpl. destruct (s =? cp_stock instance); lia. }
  split; [|split; [done|split; [done|split; [done|]]]].
  - apply (carts_wf_conserved db); try done; simpl.
    + by rewrite replace_cart_position_keys.
    + intros p Hp.
      apply replace_cart_position_elem_of in Hp as [[Hp _]|[-> _]];
        [by apply Hnext|]. simpl. by apply Hnext.
    + intros p Hp.
      apply replace_cart_position_elem_of in Hp as [[Hp _]|[-> _]];
        [by apply Hfk|]. simpl. by eexists.
  - simpl. apply filter_replace_hidden.
    + apply negb_false_iff. by apply owned_by_cart.
    + intros p Hp Hid. simpl in Hid.
      assert (p = instance) as ->
        by by apply (unique_by_key cp_id (cart_positions db)).
      apply negb_false_iff. by apply owned_by_cart.
Qed.

Lemma update_line_step (u : User) (pk : Z) (quantity : JVal)
    (db db' : DB) (o : Outcome) :
  carts_wf db →
  CartPositionViewSet_update pk
    (mkCartPositionData None None (Some quantity) None) u db
  = (db', o) →
  cart_step u db db'.
Proof.
  intros Hwf Hrun.
  apply CartPositionViewSet_update_effect in Hrun
    as [[-> _]
       |[(Hq & _)
        |(n & instance & stock & Hq & Hn & _ & Hget & Hstock
          & [[Hle Hrun]|(Hlt & Hle & Hrun)])]];
    [by apply cart_step_refl|done| |];
    simpl in Hq; simplify_eq;
    pose proof (CartPositionViewSet_get_object_inr _ _ _ _ Hget)
      as (Hin & Hid & Howner).
  - rewrite (CartPosition_update_quantity _ _ _ instance) in Hrun;
      [|by rewrite CartPositionViewSet_get_object_save_quantity|lia|done].
    injection Hrun as <- <-. simpl default.
    apply update_line_written; try done. lia.
  - simpl in Hrun.
    rewrite (CartPosition_update_quantity _ _ _ instance) in Hrun;
      [|by rewrite CartPositionViewSet_get_object_save_quantity|lia|].
    + injection Hrun as <- <-. simpl default.
      apply update_line_written; try done. lia.
    + intros q [= <-]. destruct Hwf as (_ & _ & _ & Hprices).
      by apply (Hprices _ _ Hstock).
Qed.

Lemma remove_line_step (u : User) (pk : Z) (db db' : DB) (o : Outcome) :
  carts_wf db →
  CartPositionViewSet_destroy pk u db = (db', o) →
  cart_step u db db'.
Proof.
  intros Hwf Hrun.
  apply CartPositionViewSet_destroy_effect in Hrun
    as [[-> _]|(instance & stock & Hget & Hstock & -> & _)];
    [by apply cart_step_refl|].
  pose proof Hwf as (Hnodup & Hnext & Hfk & Hprices).
  apply CartPositionViewSet_get_object_inr in Hget as (Hin & Hid & Howner).
  set (db' := set_cart_positions _ _ _).
  assert (conserved db db') as Hconserved.
  { apply (conserved_one_stock _ _ (cp_stock instance) stock
             (stock_quantity stock + cp_quantity instance)); [done|done|].
    intros s. unfold reserved. simpl cart_positions.
    rewrite (quantity_of_stock_remove s _ instance) by done.
    rewrite held_other. destruct (s =? cp_stock instance); lia. }
  split; [|split; [done|split; [done|split; [done|]]]].
  - apply (carts_wf_conserved db); try done; simpl.
    + by apply NoDup_fmap_filter.
    + intros p Hp. apply elem_of_filter_1 in Hp as [Hp _]. by apply Hnext.
    + intros p Hp. apply elem_of_filter_1 in Hp as [Hp _]. by apply Hfk.
  - simpl. apply filter_filter_implied. intros p Hp Hgone.
    apply negb_false_iff, Z.eqb_eq in Hgone.
    assert (p = instance) as ->
      by by apply (unique_by_key cp_id (cart_positions db)).
    apply negb_false_iff. by apply owned_by_cart.
Qed.

Lemma clear_cart_step (u : User) (pk : Z) (db db' : DB) (o : Outcome) :
  carts_wf db →
  ShoppingCartViewSet_destroy pk u db = (db', o) →
  cart_step u db db'
  ∧ (succeeded o = true →
     cart_positions_of db' pk = []
     ∧ purchaser_user_of_cart db pk = Some (user_id u)
     ∧ cart_positions db'
       = List.filter (λ p, negb (cp_shopping_cart p =? pk))
           (cart_positions db)
     ∧ ∀ s, stocks db' !! s
            = add_quantity
                (quantity_of_stock s (cart_items (cart_positions_of db pk)))
                <$> stocks db !! s).
Proof.
  intros Hwf Hrun.
  apply ShoppingCartViewSet_destroy_effect in Hrun
    as [[-> Hfail]|(cart & table & e & Hget & Hloop & Hdb)].
  { split; [by apply cart_step_refl|congruence]. }
  pose proof Hwf as (Hnodup & Hnext & Hfk & Hprices).
  apply ShoppingCartViewSet_get_object_inr in Hget as [Hcart Howner].
  destruct (return_to_stock_total
              ((λ p, (cp_stock p, cp_quantity p)) <$> cart_positions_of db pk)
              (stocks db)) as [table' Htotal].
  { intros item Hitem. apply list_elem_of_fmap in Hitem as (p & -> & Hp).
    apply elem_of_filter_1 in Hp as [Hp _]. by apply Hfk. }
  rewrite Htotal in Hloop. injection Hloop as <- <-.
  destruct Hdb as [-> ->].
  set (db' := set_cart_positions _ _ _).
  assert (conserved db db') as Hconserved.
  { intros s. simpl. rewrite (return_to_stock_spec _ _ _ Htotal s).
    unfold reserved. simpl cart_positions.
    rewrite (quantity_of_stock_partition s
               (λ p, cp_shopping_cart p =? pk) (cart_positions db)).
    destruct (stocks db !! s) as [stock|]; [|done]. simpl.
    unfold add_quantity, cart_items, cart_positions_of. do 2 f_equal. lia. }
  split.
  2:{ intros _. split; [apply filter_filter_negb|].
      split; [unfold purchaser_user_of_cart; by rewrite Hcart|].
      split; [done|]. intros s. simpl.
      by rewrite (return_to_stock_spec _ _ _ Htotal s). }
  split; [|split; [done|split; [done|split; [done|]]]].
  - apply (carts_wf_conserved db); try done; simpl.
    + by apply NoDup_fmap_filter.
    + intros p Hp. apply elem_of_filter_1 in Hp as [Hp _]. by apply Hnext.
    + intros p Hp. apply elem_of_filter_1 in Hp as [Hp _]. by apply Hfk.
  - simpl. apply filter_filter_implied. intros p Hp Hgone.
    apply negb_false_iff, Z.eqb_eq in Hgone.
    apply negb_false_iff, owned_by_cart. unfold purchaser_user_of_cart.
    by rewrite Hgone, Hcart.
Qed.

Lemma owned_by_ext (db db' : DB) (u : User) (p : CartPosition) :
  purchasers db' = purchasers db → shopping_carts db' = shopping_carts db →
  owned_by db' u p = owned_by db u p.
Proof.
  intros Hp Hc.
  unfold owned_by, purchaser_user_of_cart, purchaser_user_of.
  by rewrite Hp, Hc.
Qed.

Lemma cart_step_trans (u : User) (db db1 db2 : DB) :
  cart_step u db db1 → cart_step u db1 db2 → cart_step u db db2.
Proof.
  intros (_ & Hc1 & Hp1 & Hs1 & Ho1) (Hwf & Hc2 & Hp2 & Hs2 & Ho2).
  split; [done|]. split; [by apply (conserved_trans db db1)|].
  split; [congruence|]. split; [congruence|].
  rewrite <- Ho1. unfold positions_of_others in Ho2.
  rewrite (filter_ext (λ p, negb (owned_by db u p))
             (λ p, negb (owned_by db1 u p)))
    by (intros p; by rewrite (owned_by_ext db db1)).
  rewrite Ho2. apply filter_ext. intros p. by rewrite (owned_by_ext db db1).
Qed.

Lemma cart_op_handler_step (u : User) (op : CartOp) (db db' : DB)
    (o : Outcome) :
  carts_wf db →
  handle (Authenticated u) (cart_request op) db = (db', o) →
  cart_step u db db'.
Proof.
  intros Hwf Hrun. destruct op; simpl in Hrun;
    apply dispatch_cases in Hrun as [[-> _]|(u' & [= <-] & Hrun)];
    try (by apply cart_step_refl).
  - by apply (add_line_step _ _ _ _ _ _ Hwf Hrun).
  - by apply (update_line_step _ _ _ _ _ _ Hwf Hrun).
  - by apply (remove_line_step _ _ _ _ _ Hwf Hrun).
  - by apply (clear_cart_step _ _ _ _ _ Hwf Hrun).
Qed.

Lemma cart_op_step (user : RequestUser) (op : CartOp) (db db' : DB)
    (o : Outcome) :
  carts_wf db →
  handle user (cart_request op) db = (db', o) →
  carts_wf db' ∧ conserved db db'.
Proof.
  intros Hwf Hrun. destruct user as [|u].
  - assert (db' = db) as ->; [|split; [done|apply conserved_refl]].
    destruct op; simpl in Hrun;
      by apply dispatch_cases in Hrun as [[-> _]|(u' & [=] & _)].
  - by destruct (cart_op_handler_step u op db db' o Hwf Hrun) as (? & ? & _).
Qed.

Lemma run_cart_ops (ops : list (RequestUser * CartOp)) :
  ∀ db, carts_wf db →
        carts_wf (run (cart_requests ops) db)
        ∧ conserved db (run (cart_requests ops) db).
Proof.
  induction ops as [|[user op] ops IH]; intros db Hwf; simpl.
  - split; [done|apply conserved_refl].
  - destruct (handle user (cart_request op) db) as [db1 o] eqn:Hrun. simpl.
    destruct (cart_op_step _ _ _ _ _ Hwf Hrun) as [Hwf1 Hc1].
    destruct (IH db1 Hwf1) as [Hwf' Hc']. split; [done|].
    by apply (conserved_trans db db1).
Qed.

Lemma run_cart_ops_of_user (u : User) (ops : list (RequestUser * CartOp)) :
  ∀ db, carts_wf db →
        (∀ op, op ∈ ops → op.1 = Authenticated u) →
        cart_step u db (run (cart_requests ops) db).
Proof.
  induction ops as [|[user op] ops IH]; intros db Hwf Huser; simpl.
  - by apply cart_step_refl.
  - assert (user = Authenticated u) as -> by (apply (Huser (user, op)); left).
    destruct (handle (Authenticated u) (cart_request op) db) as [db1 o]
      eqn:Hrun. simpl.
    pose proof (cart_op_handler_step _ _ _ _ _ Hwf Hrun) as Hstep.
    apply (cart_step_trans u db db1); [done|].
    apply IH; [by destruct Hstep|]. intros op' Hop'. apply Huser. by right.
Qed.


Lemma sample_carts_wf : carts_wf Sample.db.
Proof.
  split; [vm_compute; constructor|].
  split; [intros p Hp; vm_compute in Hp; by apply elem_of_nil in Hp|].
  split; [intros p Hp; vm_compute in Hp; by apply elem_of_nil in Hp|].
  apply (bool_decide_unpack
           (map_Forall (λ _ stock, price_is_valid (stock_price stock) = true)
              (stocks Sample.db))).
  vm_compute. exact I.
Defined.


(** * Further properties *)

(** ** Who may write *)

Lemma has_permission_anonymous (perm : Permission) :
  has_permission perm AnonymousUser = false.
Proof.
  induction perm; simpl; try done. by rewrite IHperm1, IHperm2.
Qed.

(** X1.  No permission class admits an anonymous user; so an action that
    carries a permission answers an anonymous request with
    [NotAuthenticated], and every request that writes leaves the database
    as it was. *)
Theorem anonymous_user_is_refused :
  (∀ perm, has_permission perm AnonymousUser = false)
  ∧ (∀ view action,
       initial view action AnonymousUser
       = match get_permissions view action with
         | [] => None
         | _ :: _ => Some NotAuthenticated
         end)
  ∧ (∀ request db,
       handle AnonymousUser request db = (db, Raise NotAuthenticated)).
Proof.
  split; [apply has_permission_anonymous|]. split.
  - intros view action. unfold initial.
    destruct (get_permissions view action) as [|perm perms]; [done|].
    simpl. by rewrite has_permission_anonymous.
  - by intros [].
Qed.

(** X2.  The cart and order requests are refused with [PermissionDenied]
    for every user whose type is not purchaser, and the requests on order
    positions and stocks for every user whose type is not supplier;
    [is_superuser] does not help.  Nothing is written. *)
Theorem requests_are_gated_by_user_type (u : User) (request : Request)
    (db : DB) :
  user_type u ≠ (if purchaser_request request then purchaser else supplier) →
  handle (Authenticated u) request db = (db, Raise PermissionDenied).
Proof.
  intros Htype.
  destruct request; simpl in Htype; unfold handle, dispatch, initial; simpl;
    unfold is_type; by rewrite bool_decide_eq_false_2.
Qed.

Lemma requests_are_gated_by_user_type_witness :
  handle (Authenticated (mkUser 9 supplier true))
    (POST_orders (mkOrderData None (Some 1))) Sample.with_cart
  = (Sample.with_cart, Raise PermissionDenied).
Proof.
  apply (requests_are_gated_by_user_type (mkUser 9 supplier true)). done.
Defined.

Lemma find_filter_None {A} (f g : A → bool) (rows : list A) :
  (∀ x, x ∈ rows → g x = true → f x = false) →
  List.find g (List.filter f rows) = None.
Proof.
  intros Hnone. destruct (List.find g (List.filter f rows)) as [x|] eqn:Hfind;
    [|done].
  apply find_some in Hfind as [Hin Hg]. apply filter_In in Hin as [Hin Hf].
  apply list_elem_of_In in Hin. by rewrite (Hnone x Hin Hg) in Hf.
Qed.

Lemma queryset_filter_None {A} (f : Z → A → bool) (table : gmap Z A) (pk : Z) :
  (∀ row, table !! pk = Some row → f pk row = false) →
  queryset_filter f table !! pk = None.
Proof.
  intros Hnone. unfold queryset_filter.
  destruct (filter _ table !! pk) as [row|] eqn:Hrow; [|done].
  apply map_lookup_filter_Some in Hrow as [Hrow Hf]. simpl in Hf.
  by rewrite (Hnone row Hrow) in Hf.
Qed.

(** X3.  For a purchaser who is no superuser a cart position, a shopping
    cart or an order that is not theirs is not in the queryset: updating or
    deleting it answers [Http404] and writes nothing. *)
Theorem rows_of_other_purchasers_are_not_found (u : User) (pk : Z) (db : DB) :
  user_type u = purchaser →
  is_superuser u = false →
  ((∀ p, p ∈ cart_positions db → cp_id p = pk → owned_by db u p = false) →
   handle (Authenticated u) (DELETE_cart_positions pk) db = (db, Raise Http404)
   ∧ ∀ n, 0 < n →
       handle (Authenticated u)
         (PATCH_cart_positions pk
            (mkCartPositionData None None (Some (JInt n)) None)) db
       = (db, Raise Http404))
  ∧ ((∀ cart, shopping_carts db !! pk = Some cart →
              is_user (purchaser_user_of db (cart_purchaser cart)) u = false) →
     handle (Authenticated u) (DELETE_shopping_carts pk) db
     = (db, Raise Http404))
  ∧ ((∀ order, orders db !! pk = Some order →
               is_user (purchaser_user_of db (order_purchaser order)) u
               = false) →
     handle (Authenticated u) (DELETE_orders pk) db = (db, Raise Http404)
     ∧ ∀ data,
         handle (Authenticated u) (PATCH_orders pk data) db
         = (db, Raise Http404)).
Proof.
  intros Htype Hsuper.
  assert (is_type purchaser u = true) as Hpurchaser
    by (unfold is_type; by rewrite bool_decide_eq_true_2).
  split; [|split].
  - intros Hforeign.
    assert (CartPositionViewSet_get_object db u pk = inl Http404) as Hget.
    { unfold CartPositionViewSet_get_object, CartPositionViewSet_get_queryset.
      rewrite Hsuper, Hpurchaser. rewrite find_filter_None; [done|].
      intros p Hin Hpk. apply Z.eqb_eq in Hpk. by apply Hforeign. }
    split.
    + unfold handle, dispatch, initial. simpl. rewrite Hpurchaser.
      unfold CartPositionViewSet_destroy. by rewrite Hget.
    + intros n Hn. unfold handle, dispatch, initial. simpl.
      rewrite Hpurchaser. unfold CartPositionViewSet_update. simpl.
      rewrite Hget. by destruct (n <=? 0) eqn:Hle; [apply Z.leb_le in Hle; lia|].
  - intros Hforeign. unfold handle, dispatch, initial. simpl.
    rewrite Hpurchaser.
    unfold ShoppingCartViewSet_destroy, ShoppingCartViewSet_get_object,
      ShoppingCartViewSet_get_queryset.
    rewrite Hsuper, Hpurchaser. by rewrite queryset_filter_None.
  - intros Hforeign.
    assert (OrderViewSet_get_object db u pk = inl Http404) as Hget.
    { unfold OrderViewSet_get_object, OrderViewSet_get_queryset.
      rewrite Hsuper, Hpurchaser. by rewrite queryset_filter_None. }
    split; [|intros data]; unfold handle, dispatch, initial; simpl;
      rewrite Hpurchaser.
    + unfold OrderViewSet_destroy. by rewrite Hget.
    + unfold OrderViewSet_update. by rewrite Hget.
Qed.

Lemma rows_of_other_purchasers_are_not_found_witness :
  handle (Authenticated Sample.bob) (DELETE_cart_positions 1) Sample.with_cart
  = (Sample.with_cart, Raise Http404)
  ∧ handle (Authenticated Sample.bob) (DELETE_shopping_carts 1)
      Sample.with_cart
    = (Sample.with_cart, Raise Http404)
  ∧ handle (Authenticated Sample.bob) (DELETE_orders 1) Sample.with_order
    = (Sample.with_order, Raise Http404).
Proof.
  destruct (rows_of_other_purchasers_are_not_found Sample.bob 1
              Sample.with_cart eq_refl eq_refl) as (Hposition & Hcart & _).
  destruct (rows_of_other_purchasers_are_not_found Sample.bob 1
              Sample.with_order eq_refl eq_refl) as (_ & _ & Horder).
  split; [|split].
  - apply Hposition. intros p Hp _. vm_compute in Hp.
    repeat (apply elem_of_cons in Hp as [->|Hp]; [vm_compute; reflexivity|]).
    by apply elem_of_nil in Hp.
  - apply Hcart. intros cart Hrow. vm_compute in Hrow.
    injection Hrow as <-. vm_compute. reflexivity.
  - apply Horder. intros order Hrow. vm_compute in Hrow.
    injection Hrow as <-. vm_compute. reflexivity.
Defined.

(** X4.  For a supplier who is no superuser an order position of another
    supplier's stock, and another supplier's stock, are not in the queryset:
    the update answers [Http404] and writes nothing. *)
Theorem rows_of_other_suppliers_are_not_found (u : User) (pk : Z) (db : DB) :
  user_type u = supplier →
  is_superuser u = false →
  ((∀ p, p ∈ order_positions db → op_id p = pk →
         stock_of_user db u (op_stock p) = false) →
   ∀ data, is_Some (data_confirmed data) ∨ is_Some (data_delivered data) →
     handle (Authenticated u) (PATCH_order_positions pk data) db
     = (db, Raise Http404))
  ∧ (stock_of_user db u pk = false →
     ∀ data, pk_truthy (sd_product data) || pk_truthy (sd_supplier data)
             = false →
       handle (Authenticated u) (PATCH_stocks pk data) db
       = (db, Raise Http404)).
Proof.
  intros Htype Hsuper.
  assert (is_type supplier u = true) as Hsupplier
    by (unfold is_type; by rewrite bool_decide_eq_true_2).
  assert (is_type purchaser u = false) as Hpurchaser
    by (unfold is_type; rewrite bool_decide_eq_false_2; congruence).
  split.
  - intros Hforeign data Hkeys. unfold handle, dispatch, initial. simpl.
    rewrite Hsupplier.
    unfold OrderPositionViewSet_update, OrderPositionViewSet_get_object,
      OrderPositionViewSet_get_queryset.
    rewrite Hsuper, Hpurchaser, Hsupplier. rewrite find_filter_None.
    + destruct Hkeys as [[v ->]|[v ->]]; [done|].
      by destruct (data_confirmed data).
    + intros p Hin Hpk. apply Z.eqb_eq in Hpk. by apply Hforeign.
  - intros Hforeign data Hguard. unfold handle, dispatch, initial. simpl.
    rewrite Hsupplier. unfold StockViewSet_update. rewrite Hguard.
    unfold StockViewSet_get_object, StockViewSet_get_queryset.
    rewrite Hsuper, Hpurchaser, Hsupplier. rewrite queryset_filter_None; [done|].
    done.
Qed.

Lemma rows_of_other_suppliers_are_not_found_witness :
  handle (Authenticated Sample.bolt)
    (PATCH_order_positions 1 (mkOrderPositionData (Some (JBool true)) None))
    Sample.with_order
  = (Sample.with_order, Raise Http404)
  ∧ handle (Authenticated Sample.bolt)
      (PATCH_stocks 1 (mkStockData None None None (Some 1%Q) None))
      Sample.with_order
    = (Sample.with_order, Raise Http404).
Proof.
  destruct (rows_of_other_suppliers_are_not_found Sample.bolt 1
              Sample.with_order eq_refl eq_refl) as (Hposition & Hstock).
  split.
  - apply Hposition; [|left; by eexists]. intros p Hp Hpk. vm_compute in Hp.
    apply elem_of_cons in Hp as [->|Hp]; [vm_compute; reflexivity|].
    apply elem_of_cons in Hp as [->|Hp]; [discriminate|].
    by apply elem_of_nil in Hp.
  - apply Hstock; vm_compute; reflexivity.
Defined.

(** ** Quantities stay above 0 *)

Lemma return_to_stock_nonneg (items : list (Z * Z)) :
  ∀ (table table' : gmap Z Stock) (e : option Exn),
    return_to_stock items table = (table', e) →
    (∀ item, item ∈ items → 0 ≤ item.2) →
    (∀ pk stock, table !! pk = Some stock → 0 ≤ stock_quantity stock) →
    ∀ pk stock, table' !! pk = Some stock → 0 ≤ stock_quantity stock.
Proof.
  induction items as [|[s q] rest IH]; intros table table' e Hrun Hitems Htable;
    simpl in Hrun.
  - by injection Hrun as <- _.
  - destruct (table !! s) as [stock|] eqn:Hs; [|by injection Hrun as <- _].
    apply (IH _ _ _ Hrun).
    + intros item Hitem. apply Hitems. by right.
    + intros pk stock' Hpk.
      destruct (decide (pk = s)) as [->|Hne].
      * rewrite lookup_insert_eq in Hpk. injection Hpk as <-. simpl.
        specialize (Hitems (s, q) ltac:(left)). specialize (Htable s stock Hs).
        simpl in Hitems. lia.
      * rewrite lookup_insert_ne in Hpk by done. by eapply Htable.
Qed.

Lemma stocks_nonneg_insert (table : gmap Z Stock) (pk : Z) (row : Stock) :
  (∀ pk stock, table !! pk = Some stock → 0 ≤ stock_quantity stock) →
  0 ≤ stock_quantity row →
  ∀ pk' stock, <[pk := row]> table !! pk' = Some stock →
               0 ≤ stock_quantity stock.
Proof.
  intros Htable Hrow pk' stock Hpk'.
  destruct (decide (pk' = pk)) as [->|Hne].
  - rewrite lookup_insert_eq in Hpk'. by injection Hpk' as <-.
  - rewrite lookup_insert_ne in Hpk' by done. by eapply Htable.
Qed.

Lemma CartPosition_update_nonneg (pk : Z) (data : CartPositionData)
    (u : User) (db db' : DB) (o : Outcome) :
  CartPosition_update pk data u db = (db', o) →
  quantities_nonneg db → quantities_nonneg db'.
Proof.
  intros Hrun (Hstocks & Hcart & Horder).
  apply CartPosition_update_effect in Hrun
    as [[-> _]|(instance & row & Hget & Hvalid & -> & _)]; [done|].
  split; [done|]. split; [|done]. simpl. intros p Hp.
  apply replace_cart_position_elem_of in Hp as [[Hp _]|[-> _]];
    [by apply Hcart|].
  unfold CartPositionSerializer_validate_partial in Hvalid.
  destruct (default (JInt (cp_quantity instance)) (data_quantity data));
    try done.
  match type of Hvalid with (if ?c then _ else _) = _ =>
    destruct c eqn:Hchecks end; [|done].
  injection Hvalid as <-. simpl. by bool_to_prop.
Qed.

Lemma save_stock_quantity_nonneg (stock_pk : Z) (stock : Stock)
    (quantity : Z) (db : DB) :
  quantities_nonneg db → 0 ≤ quantity →
  quantities_nonneg (save_stock_quantity stock_pk stock quantity db).
Proof.
  intros (Hstocks & Hcart & Horder) Hquantity. split; [|done].
  by apply stocks_nonneg_insert.
Qed.

Lemma StockViewSet_get_object_inr (db : DB) (u : User) (pk : Z)
    (obj : Stock) :
  StockViewSet_get_object db u pk = inr obj →
  stocks db !! pk = Some obj
  ∧ (supplier_user <$> suppliers db !! stock_supplier obj) = Some (user_id u).
Proof.
  unfold StockViewSet_get_object, StockViewSet_get_queryset, queryset_filter.
  intros Hget.
  assert (∀ o : option Z, is_user o u = true → o = Some (user_id u)) as Huser.
  { intros [z|]; [|done]. unfold is_user. intros Heq.
    by apply Z.eqb_eq in Heq as ->. }
  view_cases; (split; [|by apply Huser]);
    match goal with
    | H : filter _ _ !! _ = Some _ |- _ =>
        by apply map_lookup_filter_Some in H as [? _]
    | _ => done
    end.
Qed.

Lemma handle_quantities_nonneg (user : RequestUser) (request : Request)
    (db : DB) :
  quantities_nonneg db → quantities_nonneg (handle user request db).1.
Proof.
  intros Hdb. destruct (handle user request db) as [db' o] eqn:Hrun. simpl.
  pose proof Hdb as (Hstocks & Hcart & Horder).
  destruct request; simpl in Hrun;
    apply dispatch_cases in Hrun as [[-> _]|(u & -> & Hrun)]; try done.
  - apply CartPositionViewSet_create_effect in Hrun
      as [[-> _]|(s & n & pu & c & st & su & _ & _ & Hn & _ & _ & _ & Hst
                  & _ & _ & [(-> & _)|(-> & _)])]; [done|..].
    + apply save_stock_quantity_nonneg; [done|lia].
    + split; [apply stocks_nonneg_insert; [done|simpl; lia]|].
      split; [|done]. simpl. intros p Hp.
      apply elem_of_app in Hp as [Hp|Hp]; [by apply Hcart|].
      apply list_elem_of_singleton in Hp as ->. simpl. lia.
  - apply CartPositionViewSet_update_effect in Hrun
      as [[-> _]|[(_ & _ & Hrun)
                 |(n & i & st & _ & Hn & _ & Hget & Hst & Hrun)]]; [done|..].
    + by eapply CartPosition_update_nonneg.
    + apply CartPositionViewSet_get_object_inr in Hget as (Hin & _ & _).
      pose proof (Hstocks _ _ Hst). pose proof (Hcart _ Hin).
      destruct Hrun as [(Hle & Hrun)|(Hlt & Hle & Hrun)];
        (eapply CartPosition_update_nonneg; [exact Hrun|]);
        (apply save_stock_quantity_nonneg; [exact Hdb|lia]).
  - apply CartPositionViewSet_destroy_effect in Hrun
      as [[-> _]|(i & st & Hget & Hst & -> & _)]; [done|].
    apply CartPositionViewSet_get_object_inr in Hget as (Hin & _ & _).
    pose proof (Hstocks _ _ Hst). pose proof (Hcart _ Hin).
    split; [apply stocks_nonneg_insert; [done|simpl; lia]|].
    split; [|done]. simpl. intros p Hp.
    apply elem_of_filter_1 in Hp as [Hp _]. by apply Hcart.
  - apply ShoppingCartViewSet_destroy_effect in Hrun
      as [[-> _]|(cart & table & e & _ & Hreturn & Hrun)]; [done|].
    assert (∀ pk stock, table !! pk = Some stock → 0 ≤ stock_quantity stock)
      as Htable.
    { apply (return_to_stock_nonneg _ _ _ _ Hreturn); [|done].
      intros item Hitem. apply list_elem_of_fmap in Hitem as (p & -> & Hp).
      simpl. apply Hcart. unfold cart_positions_of in Hp.
      by apply elem_of_filter_1 in Hp as [Hp _]. }
    destruct e as [e|]; destruct Hrun as [-> _]; [done|].
    split; [done|]. split; [|done]. simpl. intros p Hp.
    apply elem_of_filter_1 in Hp as [Hp _]. by apply Hcart.
  - apply OrderViewSet_create_effect in Hrun
      as [[-> _]|(pu & c & cs & store & created & e & _ & _ & _ & _ & _ & _
                  & Hcreate & Hrun)]; [done|].
    assert (∀ p, p ∈ (order_positions db ++ created)%list → 0 ≤ op_quantity p)
      as Hrows.
    { intros p Hp. apply elem_of_app in Hp as [Hp|Hp]; [by apply Horder|].
      apply list_elem_of_lookup_1 in Hp as [i Hi].
      apply create_order_positions_spec in Hcreate as [_ Hcreated].
      destruct (Hcreated i p Hi) as (cp & Hcp & ->). simpl.
      apply Hcart. apply list_elem_of_lookup_2 in Hcp.
      unfold cart_positions_of in Hcp. by apply elem_of_filter_1 in Hcp as [Hcp _]. }
    simpl in Hrun. destruct e as [e|]; destruct Hrun as [-> _]; [done|].
    split; [done|]. split; [|done]. simpl. intros p Hp.
    apply elem_of_filter_1 in Hp as [Hp _]. by apply Hcart.
  - apply OrderViewSet_update_effect in Hrun as [->|(i & cs & _ & ->)]; done.
  - apply OrderViewSet_destroy_effect in Hrun
      as [[-> _]|(i & table & e & _ & _ & _ & Hreturn & -> & _)]; [done|].
    split; [|done]. simpl.
    apply (return_to_stock_nonneg _ _ _ _ Hreturn); [|done].
    intros item Hitem. apply list_elem_of_fmap in Hitem as (p & -> & Hp).
    simpl. apply Horder. unfold order_positions_of in Hp.
    by apply elem_of_filter_1 in Hp as [Hp _].
  - apply OrderPositionViewSet_update_effect in Hrun
      as [[-> _]|(i & or & c & d & Hget & _ & _ & _ & _ & _ & -> & _)];
      [done|].
    split; [done|]. split; [done|]. simpl. intros p Hp.
    unfold replace_order_position in Hp.
    apply list_elem_of_fmap in Hp as (p0 & -> & Hp0).
    apply OrderPositionViewSet_get_object_inr in Hget as (Hin & _).
    simpl. destruct (op_id p0 =? op_id i); simpl; by apply Horder.
  - apply StockViewSet_update_effect in Hrun
      as [->|(i & row & Hget & Hvalid & ->)]; [done|].
    split; [|done]. simpl. apply stocks_nonneg_insert; [done|].
    apply StockViewSet_get_object_inr in Hget as [Hget _].
    unfold StockSerializer_validate_partial in Hvalid.
    match type of Hvalid with (if ?c then _ else _) = _ =>
      destruct c eqn:Hchecks end; [|done].
    injection Hvalid as <-. simpl. bool_to_prop.
    destruct (sd_quantity data); simpl; [by bool_to_prop|by eapply Hstocks].
Qed.

Lemma sample_quantities_nonneg : quantities_nonneg Sample.db.
Proof.
  split; [|split].
  - apply (bool_decide_unpack
             (map_Forall (λ _ stock, 0 ≤ stock_quantity stock)
                (stocks Sample.db))).
    vm_compute. exact I.
  - intros p Hp. vm_compute in Hp. by apply elem_of_nil in Hp.
  - intros p Hp. vm_compute in Hp. by apply elem_of_nil in Hp.
Defined.

(** X5.  No sequence of requests takes a stock's quantity, or the quantity
    of a cart position or of an order position, below 0. *)
Theorem quantities_never_negative (requests : list (RequestUser * Request)) :
  ∀ db, quantities_nonneg db → quantities_nonneg (run requests db).
Proof.
  induction requests as [|[user request] rest IH]; intros db Hdb; [done|].
  simpl. apply IH. by apply handle_quantities_nonneg.
Qed.

Lemma quantities_never_negative_witness :
  quantities_nonneg Sample.with_order.
Proof.
  exact (quantities_never_negative
           [(Authenticated Sample.alice,
             POST_cart_positions (Sample.line 1 1));
            (Authenticated Sample.alice,
             POST_cart_positions (Sample.line 2 5));
            (Authenticated Sample.alice,
             POST_orders (mkOrderData None (Some 1)))]
           Sample.db sample_quantities_nonneg).
Defined.

(** ** Totals of carts and orders *)

Lemma all_confirmed_spec (positions : list OrderPosition) :
  Order.all_confirmed positions = true
  ↔ ∀ p, p ∈ positions → op_confirmed p = true.
Proof.
  induction positions as [|q rest IH]; simpl.
  - split; [|done]. intros _ p Hp. by apply elem_of_nil in Hp.
  - destruct (op_confirmed q) eqn:Hq; simpl.
    + rewrite IH. split.
      * intros Hrest p Hp. apply elem_of_cons in Hp as [->|Hp]; auto.
      * intros Hall p Hp. apply Hall. by right.
    + split; [done|]. intros Hall. rewrite <- Hq. apply Hall. by left.
Qed.

Lemma all_delivered_spec (positions : list OrderPosition) :
  Order.all_delivered positions = true
  ↔ ∀ p, p ∈ positions → op_delivered p = true.
Proof.
  induction positions as [|q rest IH]; simpl.
  - split; [|done]. intros _ p Hp. by apply elem_of_nil in Hp.
  - destruct (op_delivered q) eqn:Hq; simpl.
    + rewrite IH. split.
      * intros Hrest p Hp. apply elem_of_cons in Hp as [->|Hp]; auto.
      * intros Hall p Hp. apply Hall. by right.
    + split; [done|]. intros Hall. rewrite <- Hq. apply Hall. by left.
Qed.

Lemma elem_of_order_positions_of (db : DB) (order_pk : Z) (p : OrderPosition) :
  p ∈ order_positions_of db order_pk
  ↔ p ∈ order_positions db ∧ op_order p = order_pk.
Proof.
  unfold order_positions_of.
  rewrite list_elem_of_In, filter_In, <- list_elem_of_In, Z.eqb_eq. done.
Qed.

(** X6.  [Order.check_confirmed] holds exactly when every position of the
    order is confirmed, and [Order.check_delivered] exactly when every
    position is delivered. *)
Theorem order_flags_follow_positions (db : DB) (order_pk : Z) :
  (Order.check_confirmed db order_pk = true
   ↔ ∀ p, p ∈ order_positions db → op_order p = order_pk →
          op_confirmed p = true)
  ∧ (Order.check_delivered db order_pk = true
     ↔ ∀ p, p ∈ order_positions db → op_order p = order_pk →
            op_delivered p = true).
Proof.
  unfold Order.check_confirmed, Order.check_delivered.
  rewrite all_confirmed_spec, all_delivered_spec.
  split; split.
  all: try (intros Hall p Hp Horder; apply Hall;
            by apply elem_of_order_positions_of).
  all: intros Hall p Hp; apply elem_of_order_positions_of in Hp as [Hp Ho];
    by apply Hall.
Qed.






Lemma filter_all {A} (f : A → bool) (rows : list A) :
  (∀ x, x ∈ rows → f x = true) → List.filter f rows = rows.
Proof.
  induction rows as [|x rows IH]; intros Hall; [done|]. simpl.
  rewrite (Hall x) by left. f_equal. apply IH. intros y Hy. apply Hall.
  by right.
Qed.

Lemma filter_none {A} (f : A → bool) (rows : list A) :
  (∀ x, x ∈ rows → f x = false) → List.filter f rows = [].
Proof.
  induction rows as [|x rows IH]; intros Hall; [done|]. simpl.
  rewrite (Hall x) by left. apply IH. intros y Hy. apply Hall. by right.
Qed.





(** ** Requests that succeed, and their round trips *)

(** X9.  Adding a line succeeds when the user is a purchaser with a cart
    that does not hold the stock, the stock's supplier takes orders, the
    quantity is an integer above 0 and within the stock's quantity, and the
    stock's price is valid: the stock loses the quantity and the cart gains
    the position at the stock's price. *)
Theorem add_line_succeeds (u : User) (data : CartPositionData)
    (stock_pk n purchaser_pk cart_pk : Z) (stock : Stock) (sup : Supplier)
    (db : DB) :
  user_type u = purchaser →
  data_stock data = Some stock_pk →
  stock_pk ≠ 0 →
  data_quantity data = Some (JInt n) →
  0 < n ≤ stock_quantity stock →
  purchaser_of_user db u = Some purchaser_pk →
  shopping_cart_of db purchaser_pk = Some cart_pk →
  cart_has_stock db cart_pk stock_pk = false →
  stocks db !! stock_pk = Some stock →
  suppliers db !! stock_supplier stock = Some sup →
  order_status sup = true →
  price_is_valid (stock_price stock) = true →
  handle (Authenticated u) (POST_cart_positions data) db
  = (set_cart_positions
       (cart_positions db
        ++ [mkCartPosition (next_cart_position_id db) cart_pk stock_pk n
              (stock_price stock)])
       (next_cart_position_id db + 1)
       (save_stock_quantity stock_pk stock (stock_quantity stock - n) db),
     Response (Instance (next_cart_position_id db)) status.HTTP_201_CREATED).
Proof.
  intros Htype Hstock_key Hne Hquantity Hn Hpurchaser Hcart Hnew Hstock Hsup
    Hstatus Hprice.
  unfold handle, dispatch, initial. simpl. unfold is_type.
  rewrite (bool_decide_eq_true_2 _ Htype).
  unfold CartPositionViewSet_create.
  rewrite Hstock_key, Hquantity, Hpurchaser, Hcart, Hnew, Hstock, Hsup,
    Hstatus.
  apply Z.eqb_neq in Hne. rewrite Hne. simpl.
  assert ((n =? 0) = false) as -> by (apply Z.eqb_neq; lia).
  assert ((n <=? 0) = false) as -> by (apply Z.leb_gt; lia).
  assert ((stock_quantity stock <? n) = false) as ->
    by (apply Z.ltb_ge; lia).
  simpl. unfold CartPosition_create, CartPositionSerializer_validate. simpl.
  destruct (shopping_cart_of_Some _ _ _ Hcart) as (cart & -> & _).
  rewrite lookup_insert_eq.
  assert ((0 <=? n) = true) as -> by (apply Z.leb_le; lia).
  rewrite Hprice.
  change (cart_has_stock (save_stock_quantity _ _ _ db) cart_pk stock_pk)
    with (cart_has_stock db cart_pk stock_pk).
  rewrite Hnew. simpl.
  done.
Qed.

Lemma add_line_succeeds_witness :
  handle (Authenticated Sample.alice) (POST_cart_positions (Sample.line 1 2))
    Sample.db
  = (set_cart_positions [mkCartPosition 1 1 1 2 100%Q] 2
       (save_stock_quantity 1 (mkStock "sku-1" 1 1 100%Q 5) 3 Sample.db),
     Response (Instance 1) status.HTTP_201_CREATED).
Proof.
  exact (add_line_succeeds Sample.alice (Sample.line 1 2) 1 2 1 1
           (mkStock "sku-1" 1 1 100%Q 5) (mkSupplier 2 true) Sample.db
           eq_refl eq_refl ltac:(discriminate) eq_refl
           ltac:(simpl; lia) ltac:(vm_compute; reflexivity)
           ltac:(vm_compute; reflexivity) eq_refl eq_refl eq_refl eq_refl
           eq_refl).
Defined.



Lemma find_app_fresh {A} (f : A → bool) (rows : list A) (x : A) :
  (∀ y, y ∈ rows → f y = false) →
  List.find f (rows ++ [x]) = if f x then Some x else None.
Proof.
  induction rows as [|y rows IH]; intros Hfresh; [done|]. simpl.
  rewrite (Hfresh y) by left. apply IH. intros z Hz. apply Hfresh. by right.
Qed.

Lemma dispatch_purchaser (view : ViewSet) (action : Action) (u : User)
    (handler : User → DB → DB * Outcome) (db db' : DB) (o : Outcome) :
  get_permissions view action = [IsPurchaser]
  ∨ get_permissions view action = [IsCartPositionOwner]
  ∨ get_permissions view action = [IsPurchaserOwner] →
  dispatch view action (Authenticated u) handler db = (db', o) →
  succeeded o = true →
  is_type purchaser u = true ∧ handler u db = (db', o).
Proof.
  unfold dispatch, initial. intros Hperms Hrun Hok.
  destruct Hperms as [Hperms|[Hperms|Hperms]]; rewrite Hperms in Hrun;
    simpl in Hrun; destruct (is_type purchaser u); by simplify_eq.
Qed.

Lemma with_quantity_restored (stock : Stock) (n m : Z) :
  m = stock_quantity stock →
  with_quantity m (with_quantity n stock) = stock.
Proof. intros ->. by destruct stock. Qed.

(** X11.  Deleting the line just added succeeds and gives back the stocks
    and the cart positions as they were before the line was added. *)
Theorem add_then_remove_restores (u : User) (data : CartPositionData)
    (db db1 : DB) (o1 : Outcome) :
  (∀ p, p ∈ cart_positions db → cp_id p < next_cart_position_id db) →
  handle (Authenticated u) (POST_cart_positions data) db = (db1, o1) →
  succeeded o1 = true →
  ∃ db2,
    handle (Authenticated u)
      (DELETE_cart_positions (next_cart_position_id db)) db1
    = (db2, Response NoContent status.HTTP_204_NO_CONTENT)
    ∧ stocks db2 = stocks db
    ∧ cart_positions db2 = cart_positions db.
Proof.
  intros Hfresh Hrun Hok. simpl in Hrun.
  apply dispatch_purchaser in Hrun as [Hpurchaser Hrun]; [|by left|done].
  destruct (CartPositionViewSet_create_succeeded _ _ _ _ _ Hrun Hok)
    as (s & n & pu & c & st & su & _ & _ & Hn & Hpu & Hc & _ & Hst & _ & _
        & -> & _).
  set (new := mkCartPosition (next_cart_position_id db) c s n
                (stock_price st)).
  set (db0 := save_stock_quantity s st (stock_quantity st - n) db).
  assert (purchaser_user_of_cart db c = Some (user_id u)) as Howner.
  { destruct (shopping_cart_of_Some _ _ _ Hc) as (cart & Hcart & <-).
    unfold purchaser_user_of_cart. rewrite Hcart. simpl.
    by apply purchaser_of_user_Some. }
  assert (∀ f : CartPosition → bool,
            f new = true →
            List.find (λ p, cp_id p =? next_cart_position_id db)
              (List.filter f (cart_positions db ++ [new]))
            = Some new) as Hfind.
  { intros f Hf. rewrite List.filter_app. simpl. rewrite Hf.
    rewrite find_app_fresh; [by simpl; rewrite Z.eqb_refl|].
    intros p Hp. apply elem_of_filter_1 in Hp as [Hp _].
    apply Z.eqb_neq. specialize (Hfresh p Hp). lia. }
  assert (CartPositionViewSet_get_object
            (set_cart_positions (cart_positions db ++ [new])
               (next_cart_position_id db + 1) db0) u
            (next_cart_position_id db) = inr new) as Hget.
  { unfold CartPositionViewSet_get_object, CartPositionViewSet_get_queryset,
      IsCartPositionOwner_has_object_permission.
    rewrite Hpurchaser. simpl.
    change (purchaser_user_of_cart (set_cart_positions _ _ db0))
      with (purchaser_user_of_cart db).
    destruct (is_superuser u).
    - rewrite <- (filter_all (λ _, true) (_ ++ _)) by done.
      rewrite Hfind by done. simpl. rewrite Howner. simpl.
      by rewrite Z.eqb_refl.
    - rewrite Hfind; simpl; rewrite Howner; simpl; by rewrite Z.eqb_refl. }
  eexists. split; [|split].
  - unfold handle, dispatch, initial. simpl. rewrite Hpurchaser.
    unfold CartPositionViewSet_destroy. rewrite Hget. simpl.
    rewrite lookup_insert_eq. unfold CartPosition_destroy.
    rewrite CartPositionViewSet_get_object_save_quantity
      by (simpl; apply lookup_insert_eq).
    rewrite Hget. reflexivity.
  - simpl. rewrite insert_insert_eq.
    rewrite with_quantity_restored by (simpl; lia). by apply insert_id.
  - simpl. rewrite List.filter_app. simpl. rewrite Z.eqb_refl. simpl.
    rewrite app_nil_r. apply filter_all. intros p Hp.
    apply negb_true_iff, Z.eqb_neq. specialize (Hfresh p Hp). lia.
Qed.

Lemma add_then_remove_restores_witness :
  let added :=
    handle (Authenticated Sample.bob) (POST_cart_positions (Sample.line 1 2))
      Sample.with_cart in
  ∃ db2,
    handle (Authenticated Sample.bob) (DELETE_cart_positions 3) added.1
    = (db2, Response NoContent status.HTTP_204_NO_CONTENT)
    ∧ stocks db2 = stocks Sample.with_cart
    ∧ cart_positions db2 = cart_positions Sample.with_cart.
Proof.
  intros added.
  apply (add_then_remove_restores Sample.bob (Sample.line 1 2)
           Sample.with_cart added.1 added.2).
  - intros p Hp. vm_compute in Hp.
    repeat (apply elem_of_cons in Hp as [->|Hp]; [vm_compute; reflexivity|]).
    by apply elem_of_nil in Hp.
  - apply surjective_pairing.
  - vm_compute. reflexivity.
Defined.



(** ** Other users' carts, and requests that succeed *)

(** X14.  The add, update, remove and clear operations of one user leave
    the positions in the carts of every other user, the purchasers and the
    carts as they were. *)
Theorem carts_of_others_are_untouched (u : User)
    (ops : list (RequestUser * CartOp)) (db : DB) :
  carts_wf db →
  (∀ op, op ∈ ops → op.1 = Authenticated u) →
  List.filter (λ p, negb (owned_by db u p))
    (cart_positions (run (cart_requests ops) db))
  = positions_of_others db u
  ∧ purchasers (run (cart_requests ops) db) = purchasers db
  ∧ shopping_carts (run (cart_requests ops) db) = shopping_carts db.
Proof.
  intros Hwf Huser.
  by destruct (run_cart_ops_of_user u ops db Hwf Huser)
    as (_ & _ & ? & ? & ?).
Qed.

Lemma carts_of_others_are_untouched_witness :
  positions_of_others
    (run (cart_requests
            [(Authenticated Sample.bob, AddLine 1 (JInt 2));
             (Authenticated Sample.bob, UpdateLine 1 (JInt 1));
             (Authenticated Sample.bob, RemoveLine 2);
             (Authenticated Sample.bob, ClearCart 1)])
       Sample.with_cart)
    Sample.bob
  = cart_positions Sample.with_cart.
Proof.
  assert (carts_wf Sample.with_cart) as Hwf.
  { apply (run_cart_ops [(Authenticated Sample.alice, AddLine 1 (JInt 1));
                         (Authenticated Sample.alice, AddLine 2 (JInt 5))]
             Sample.db sample_carts_wf). }
  destruct (carts_of_others_are_untouched Sample.bob
              [(Authenticated Sample.bob, AddLine 1 (JInt 2));
               (Authenticated Sample.bob, UpdateLine 1 (JInt 1));
               (Authenticated Sample.bob, RemoveLine 2);
               (Authenticated Sample.bob, ClearCart 1)]
              Sample.with_cart Hwf) as (Hothers & _ & _).
  { intros op Hop.
    repeat (apply elem_of_cons in Hop as [->|Hop]; [reflexivity|]).
    by apply elem_of_nil in Hop. }
  unfold positions_of_others at 1.
  etrans; [|etrans; [exact Hothers|]]; vm_compute; reflexivity.
Defined.



Lemma create_order_positions_total (table : gmap Z Stock) (order_pk : Z)
    (positions : list CartPosition) :
  ∀ next,
    (∀ p, p ∈ positions → is_Some (table !! cp_stock p)) →
    ∃ created,
      create_order_positions table order_pk next positions = (created, None).
Proof.
  induction positions as [|c rest IH]; intros next Hfk; simpl.
  - by eexists.
  - destruct (Hfk c) as [stock ->]; [left|].
    destruct (IH (next + 1)) as [created ->]; [|by eexists].
    intros p Hp. apply Hfk. by right.
Qed.

(** X16.  Placing an order succeeds when the user is a purchaser whose
    cart is not empty, the chain store sent exists and is the purchaser's,
    and the stocks of the cart's positions exist: the order is saved under
    the next key and no stock changes. *)
Theorem placing_an_order_succeeds (u : User) (data : OrderData)
    (purchaser_pk cart_pk chain_store_pk : Z) (chain_store : ChainStore)
    (db : DB) :
  user_type u = purchaser →
  purchaser_of_user db u = Some purchaser_pk →
  shopping_cart_of db purchaser_pk = Some cart_pk →
  cart_positions_of db cart_pk ≠ [] →
  od_chain_store data = Some chain_store_pk →
  chain_stores db !! chain_store_pk = Some chain_store →
  chain_store_purchaser chain_store = purchaser_pk →
  (∀ p, p ∈ cart_positions db → cp_shopping_cart p = cart_pk →
        is_Some (stocks db !! cp_stock p)) →
  ∃ db',
    handle (Authenticated u) (POST_orders data) db
    = (db', Response (Instance (next_order_id db)) status.HTTP_201_CREATED)
    ∧ orders db'
      = <[next_order_id db := mkOrder purchaser_pk saved chain_store_pk]>
          (orders db)
    ∧ stocks db' = stocks db.
Proof.
  intros Htype Hpurchaser Hcart Hne Hkey Hstore Hown Hfk.
  destruct (create_order_positions_total (stocks db) (next_order_id db)
              (cart_positions_of db cart_pk) (next_order_position_id db))
    as [created Hcreate].
  { intros p Hp. apply elem_of_filter_1 in Hp as [Hp Hc].
    apply Z.eqb_eq in Hc. by apply Hfk. }
  eexists. split; [|split].
  - unfold handle, dispatch, initial. simpl. unfold is_type.
    rewrite (bool_decide_eq_true_2 _ Htype).
    unfold OrderViewSet_create. rewrite Hpurchaser, Hcart.
    destruct (cart_positions_of db cart_pk) as [|c rest] eqn:Hpositions;
      [done|]. simpl length. simpl Nat.eqb. cbv iota.
    rewrite Hkey, Hstore, Hown, Z.eqb_refl. simpl negb. cbv iota.
    change (stocks (set_orders _ _ db)) with (stocks db).
    change (next_order_position_id (set_orders _ _ db))
      with (next_order_position_id db).
    rewrite Hcreate. reflexivity.
  - done.
  - done.
Qed.

Lemma placing_an_order_succeeds_witness :
  ∃ db',
    handle (Authenticated Sample.alice)
      (POST_orders (mkOrderData None (Some 1))) Sample.with_cart
    = (db', Response (Instance 1) status.HTTP_201_CREATED)
    ∧ orders db' = <[1 := mkOrder 1 saved 1]> ∅
    ∧ stocks db' = stocks Sample.with_cart.
Proof.
  apply (placing_an_order_succeeds Sample.alice (mkOrderData None (Some 1))
           1 1 1 (mkChainStore 1) Sample.with_cart eq_refl
           ltac:(vm_compute; reflexivity) ltac:(vm_compute; reflexivity)
           ltac:(vm_compute; discriminate) eq_refl eq_refl eq_refl).
  intros p Hp _. vm_compute in Hp.
  repeat (apply elem_of_cons in Hp as [->|Hp]; [by eexists|]).
  by apply elem_of_nil in Hp.
Defined.

(** ** Updating and cancelled orders *)

Lemma filter_fmap_hidden {A} (f : A → bool) (g : A → A) (rows : list A) :
  (∀ x, x ∈ rows → g x = x ∨ (f (g x) = false ∧ f x = false)) →
  List.filter f (g <$> rows) = List.filter f rows.
Proof.
  induction rows as [|x rows IH]; intros Hrows; [done|].
  rewrite fmap_cons. simpl. rewrite IH by (intros y Hy; apply Hrows; by right).
  destruct (Hrows x) as [->|[-> ->]]; [left|done..].
Qed.

(** What [OrderViewSet.update] may write: nothing, or the chain store of a
    saved order of the user's that has no confirmed or delivered
    position. *)
Lemma OrderViewSet_update_written (pk : Z) (data : OrderData) (u : User)
    (db db' : DB) (o : Outcome) :
  OrderViewSet_update pk data u db = (db', o) →
  db' = db
  ∨ ∃ order chain_store_pk chain_store,
      orders db !! pk = Some order
      ∧ purchaser_user_of db (order_purchaser order) = Some (user_id u)
      ∧ order_state order = saved
      ∧ any_confirmed_or_delivered (order_positions_of db pk) = false
      ∧ od_purchaser data = None
      ∧ od_chain_store data = Some chain_store_pk
      ∧ chain_stores db !! chain_store_pk = Some chain_store
      ∧ (chain_store_pk = 0
         ∨ purchaser_user_of db (chain_store_purchaser chain_store)
           = Some (user_id u))
      ∧ db' = set_orders
                (<[pk := mkOrder (order_purchaser order) saved
                           chain_store_pk]> (orders db))
                (next_order_id db) db.
Proof.
  intros Hrun. unfold OrderViewSet_update in Hrun.
  destruct (OrderViewSet_get_object db u pk) as [e|order] eqn:Hget;
    [injection Hrun as <- _; by left|].
  assert (purchaser_user_of db (order_purchaser order) = Some (user_id u))
    as Howner.
  { unfold OrderViewSet_get_object, IsPurchaserOwner_has_object_permission
      in Hget.
    destruct (OrderViewSet_get_queryset db u) as [queryset|]; [|done].
    destruct (queryset !! pk) as [obj|]; [|done].
    destruct (is_user (purchaser_user_of db (order_purchaser obj)) u)
      eqn:Huser; [|done].
    injection Hget as <-. unfold is_user in Huser.
    destruct (purchaser_user_of db (order_purchaser obj)); [|done].
    apply Z.eqb_eq in Huser. by rewrite Huser. }
  apply OrderViewSet_get_object_inr in Hget.
  destruct (bool_decide (order_state order = cancelled)) eqn:Hstate;
    [injection Hrun as <- _; by left|].
  destruct (any_confirmed_or_delivered (order_positions_of db pk)) eqn:Hflags;
    [injection Hrun as <- _; by left|].
  destruct (bool_decide (is_Some (od_purchaser data))) eqn:Hkey;
    [injection Hrun as <- _; by left|].
  destruct (od_chain_store data) as [cs|] eqn:Hcs;
    [|injection Hrun as <- _; by left].
  destruct (chain_stores db !! cs) as [store|] eqn:Hstore;
    [|injection Hrun as <- _; by left].
  match type of Hrun with (if ?c then _ else _) = _ =>
    destruct c eqn:Hforeign end;
    [injection Hrun as <- _; by left|].
  injection Hrun as <- _. right. exists order, cs, store.
  apply bool_decide_eq_false in Hstate, Hkey.
  assert (order_state order = saved) as Hsaved
    by (destruct (order_state order); congruence).
  rewrite Hsaved. do 4 (split; [done|]). split.
  { destruct (od_purchaser data); [|done]. exfalso. apply Hkey. by eexists. }
  do 2 (split; [done|]). split; [|done].
  apply andb_false_iff in Hforeign as [Hzero|Hown].
  - left. apply negb_false_iff in Hzero. by apply Z.eqb_eq.
  - right. apply negb_false_iff in Hown. unfold is_user in Hown.
    destruct (purchaser_user_of db (chain_store_purchaser store)); [|done].
    apply Z.eqb_eq in Hown. by rewrite Hown.
Qed.

(** X17.  An update of an order never writes stocks, cart positions, order
    positions or another order; it changes the order only when the user
    owns it, it is saved, none of its positions is confirmed or delivered
    and no purchaser is sent, and then only its chain store, to one of the
    user's own. *)
Theorem order_update_moves_delivery_only (user : RequestUser) (pk : Z)
    (data : OrderData) (db db' : DB) (o : Outcome) :
  handle user (PATCH_orders pk data) db = (db', o) →
  stocks db' = stocks db
  ∧ cart_positions db' = cart_positions db
  ∧ order_positions db' = order_positions db
  ∧ (∀ k, k ≠ pk → orders db' !! k = orders db !! k)
  ∧ (orders db' !! pk = orders db !! pk
     ∨ ∃ u order chain_store_pk chain_store,
         user = Authenticated u
         ∧ orders db !! pk = Some order
         ∧ purchaser_user_of db (order_purchaser order) = Some (user_id u)
         ∧ order_state order = saved
         ∧ (∀ p, p ∈ order_positions db → op_order p = pk →
                 op_confirmed p = false ∧ op_delivered p = false)
         ∧ od_purchaser data = None
         ∧ od_chain_store data = Some chain_store_pk
         ∧ chain_stores db !! chain_store_pk = Some chain_store
         ∧ (chain_store_pk = 0
            ∨ purchaser_user_of db (chain_store_purchaser chain_store)
              = Some (user_id u))
         ∧ orders db' !! pk
           = Some (mkOrder (order_purchaser order) saved chain_store_pk)).
Proof.
  intros Hrun. simpl in Hrun.
  apply dispatch_cases in Hrun as [[-> _]|(u & -> & Hrun)];
    [repeat split; auto|].
  apply OrderViewSet_update_written in Hrun
    as [->|(order & cs & store & Horder & Howner & Hsaved & Hflags & Hkey
            & Hcs & Hstore & Hown & ->)]; [repeat split; auto|].
  simpl. do 3 (split; [done|]). split.
  { intros k Hk. by rewrite lookup_insert_ne. }
  right. exists u, order, cs, store. do 4 (split; [done|]). split.
  { intros p Hp Hof. unfold any_confirmed_or_delivered in Hflags.
    assert (op_confirmed p || op_delivered p = false) as Hp'.
    { apply not_true_is_false. intros Hset.
      assert (existsb (λ p, op_confirmed p || op_delivered p)
                (order_positions_of db pk) = true) as Hex; [|congruence].
      apply existsb_exists. exists p. split; [|done].
      apply list_elem_of_In. by apply elem_of_order_positions_of. }
    by apply orb_false_iff in Hp'. }
  do 4 (split; [done|]). by rewrite lookup_insert_eq.
Qed.

Lemma order_update_moves_delivery_only_witness :
  let moved :=
    handle (Authenticated Sample.alice)
      (PATCH_orders 1 (mkOrderData None (Some 2))) Sample.with_order in
  stocks moved.1 = stocks Sample.with_order
  ∧ orders moved.1 !! 1 = Some (mkOrder 1 saved 1).
Proof.
  intros moved.
  destruct (order_update_moves_delivery_only _ _ _ _ _ _
              (surjective_pairing moved))
    as (Hstocks & _ & _ & _
        & [Hsame|(u & order & cs & store & Hu & _ & _ & _ & _ & _ & Hcs
                  & Hstore & Hown & _)]).
  - split; [exact Hstocks|]. rewrite Hsame. vm_compute. reflexivity.
  - exfalso. injection Hu as <-. injection Hcs as <-.
    vm_compute in Hstore. injection Hstore as <-.
    destruct Hown as [Hzero|Hown]; [discriminate|].
    vm_compute in Hown. discriminate.
Defined.

Lemma handle_cancelled_order (user : RequestUser) (request : Request)
    (db db' : DB) (o : Outcome) (pk : Z) (order : Order) :
  orders_wf db →
  order_positions_wf db →
  orders db !! pk = Some order →
  order_state order = cancelled →
  handle user request db = (db', o) →
  orders_wf db'
  ∧ orders db' !! pk = Some order
  ∧ order_positions_of db' pk = order_positions_of db pk.
Proof.
  intros Hwf Hpwf Horder Hstate Hrun.
  destruct request as [data|k data|k|k|data|k data|k|k data|k data];
    simpl in Hrun;
    apply dispatch_cases in Hrun as [[-> _]|(u & -> & Hrun)]; try done.
  - apply CartPositionViewSet_create_effect in Hrun
      as [[-> _]|(? & ? & ? & ? & ? & ? & _ & _ & _ & _ & _ & _ & _ & _ & _
                  & [(-> & _)|(-> & _)])]; done.
  - apply CartPositionViewSet_update_effect in Hrun
      as [[-> _]|[(_ & _ & Hrun)|(? & ? & ? & _ & _ & _ & _ & _ & Hrun)]];
      [done|..].
    + apply CartPosition_update_effect in Hrun
        as [[-> _]|(? & ? & _ & _ & -> & _)]; done.
    + destruct Hrun as [(_ & Hrun)|(_ & _ & Hrun)];
        apply CartPosition_update_effect in Hrun
          as [[-> _]|(? & ? & _ & _ & -> & _)]; done.
  - apply CartPositionViewSet_destroy_effect in Hrun
      as [[-> _]|(? & ? & _ & _ & -> & _)]; done.
  - apply ShoppingCartViewSet_destroy_effect in Hrun
      as [[-> _]|(? & ? & [e|] & _ & _ & -> & _)]; done.
  - apply OrderViewSet_create_effect in Hrun
      as [[-> _]|(pu & c & cs & store & created & e & _ & _ & _ & _ & _ & _
                  & Hcreate & Hrun)]; [done|].
    pose proof (Hwf _ _ Horder) as Hbelow.
    apply create_order_positions_spec in Hcreate as [_ Hcreated].
    assert (List.filter (λ p, op_order p =? pk) created = []) as Hnone.
    { apply filter_none. intros p Hp.
      apply list_elem_of_lookup_1 in Hp as [i Hi].
      destruct (Hcreated i p Hi) as (cp & _ & ->). simpl.
      apply Z.eqb_neq. lia. }
    simpl in Hrun.
    assert (orders_wf db'
            ∧ orders db'
              = <[next_order_id db := mkOrder pu saved cs]> (orders db)
            ∧ order_positions db' = (order_positions db ++ created)%list)
      as (Hwf' & Horders' & Hpositions').
    { destruct e as [e|]; destruct Hrun as [-> _]; (split; [|done]);
        intros key order' Hkey; simpl in *;
        (destruct (decide (key = next_order_id db)) as [->|Hne]; [lia|]);
        rewrite lookup_insert_ne in Hkey by done;
        specialize (Hwf _ _ Hkey); lia. }
    split; [done|]. split.
    + rewrite Horders', lookup_insert_ne by lia. done.
    + unfold order_positions_of. rewrite Hpositions', List.filter_app, Hnone.
      by rewrite app_nil_r.
  - apply OrderViewSet_update_written in Hrun
      as [->|(order' & cs & store & Horder' & _ & Hsaved & _ & _ & _ & _ & _
              & ->)]; [done|].
    assert (k ≠ pk) as Hne by (intros ->; congruence).
    split; [|split; [|done]].
    + intros key order'' Hkey. simpl in *.
      destruct (decide (key = k)) as [->|Hkey']; [by eapply Hwf|].
      rewrite lookup_insert_ne in Hkey by done. by eapply Hwf.
    + simpl. by rewrite lookup_insert_ne.
  - apply OrderViewSet_destroy_effect in Hrun
      as [[-> _]|(instance & table & e & Hget & Hsaved & _ & _ & -> & _)];
      [done|].
    apply OrderViewSet_get_object_inr in Hget.
    assert (k ≠ pk) as Hne by (intros ->; congruence).
    split; [|split; [|done]].
    + intros key order'' Hkey. simpl in *.
      destruct (decide (key = k)) as [->|Hkey']; [by eapply Hwf|].
      rewrite lookup_insert_ne in Hkey by done. by eapply Hwf.
    + simpl. by rewrite lookup_insert_ne.
  - apply OrderPositionViewSet_update_effect in Hrun
      as [[-> _]|(instance & order' & c & d & Hget & Horder' & Hsaved & _ & _
                  & _ & -> & _)]; [done|].
    apply OrderPositionViewSet_get_object_inr in Hget as [Hin _].
    split; [done|]. split; [done|].
    unfold order_positions_of, replace_order_position. simpl.
    apply filter_fmap_hidden. intros p Hp.
    destruct (op_id p =? op_id instance) eqn:Hid; [|by left].
    apply Z.eqb_eq in Hid. right.
    assert (p = instance) as ->
      by (destruct Hpwf as [Hnodup _];
          by apply (unique_by_key op_id (order_positions db))).
    assert (op_order instance ≠ pk) as Hne by (intros Heq; congruence).
    apply Z.eqb_neq in Hne. by rewrite Hne.
  - apply StockViewSet_update_effect in Hrun
      as [->|(? & ? & _ & _ & ->)]; done.
Qed.

Lemma cancelled_order_wf :
  orders_wf Scenario.cancelled_order
  ∧ order_positions_wf Scenario.cancelled_order.
Proof.
  split; [|split].
  - apply (bool_decide_unpack
             (map_Forall (λ pk _, pk < next_order_id Scenario.cancelled_order)
                (orders Scenario.cancelled_order))).
    vm_compute. exact I.
  - apply (bool_decide_unpack _). vm_compute. exact I.
  - intros p Hp. vm_compute in Hp.
    repeat (apply elem_of_cons in Hp as [->|Hp]; [vm_compute; reflexivity|]).
    by apply elem_of_nil in Hp.
Defined.

(** X18.  Once an order is cancelled no sequence of requests changes it
    or any of its positions: it stays cancelled, and its positions are
    never confirmed or delivered afterwards. *)
Theorem cancelled_orders_are_frozen
    (requests : list (RequestUser * Request)) :
  ∀ (db : DB) (pk : Z) (order : Order),
    orders_wf db →
    order_positions_wf db →
    orders db !! pk = Some order →
    order_state order = cancelled →
    orders (run requests db) !! pk = Some order
    ∧ order_positions_of (run requests db) pk = order_positions_of db pk.
Proof.
  induction requests as [|[user request] rest IH];
    intros db pk order Hwf Hpwf Horder Hstate; [done|].
  simpl. destruct (handle user request db) as [db1 o] eqn:Hrun. simpl.
  destruct (handle_cancelled_order _ _ _ _ _ _ _ Hwf Hpwf Horder Hstate Hrun)
    as (Hwf1 & Horder1 & Hpositions1).
  destruct (handle_order_position_kept _ _ _ _ _ Hpwf Hrun) as [Hpwf1 _].
  destruct (IH db1 pk order Hwf1 Hpwf1 Horder1 Hstate) as [Horder' Hrows'].
  split; [done|]. by rewrite Hrows'.
Qed.

Lemma cancelled_orders_are_frozen_witness :
  let later :=
    run [(Authenticated Sample.acme,
          PATCH_order_positions 1 Scenario.confirm);
         (Authenticated Sample.alice,
          PATCH_orders 1 (mkOrderData None (Some 1)));
         (Authenticated Sample.alice, DELETE_orders 1)]
      Scenario.cancelled_order in
  orders later !! 1 = Some (mkOrder 1 cancelled 1)
  ∧ order_positions_of later 1
    = order_positions_of Scenario.cancelled_order 1.
Proof.
  intros later.
  exact (cancelled_orders_are_frozen _ Scenario.cancelled_order 1
           (mkOrder 1 cancelled 1) (proj1 cancelled_order_wf)
           (proj2 cancelled_order_wf) eq_refl eq_refl).
Defined.

(** ** Suppliers that stop taking orders *)

Lemma SupplierViewSet_destroy_effect (user : RequestUser) (pk : Z)
    (db db' : DB) (o : Outcome) :
  DELETE_suppliers user pk db = (db', o) →
  (db' = db ∧ succeeded o = false)
  ∨ ∃ u sup,
      user = Authenticated u
      ∧ is_superuser u = true
      ∧ suppliers db !! pk = Some sup
      ∧ db' = set_suppliers
                (<[pk := mkSupplier (supplier_user sup) false]> (suppliers db))
                db
      ∧ o = Response NoContent status.HTTP_204_NO_CONTENT.
Proof.
  unfold DELETE_suppliers. intros Hrun.
  apply dispatch_cases in Hrun as [?|(u & -> & Hrun)]; [by left|].
  unfold SupplierViewSet_destroy, SupplierViewSet_get_object,
    SupplierViewSet_get_queryset in Hrun.
  destruct (is_superuser u) eqn:Hsuper; simpl in Hrun.
  - destruct (suppliers db !! pk) as [sup|] eqn:Hsup;
      [|injection Hrun as <- <-; by left].
    injection Hrun as <- <-. right. by exists u, sup.
  - left. view_cases.
Qed.

(** X19.  [SupplierViewSet.destroy] deletes nothing: a superuser's request
    keeps the supplier's row and switches its [order_status] off, and leaves
    stocks, carts and orders alone.  Afterwards no line can be added for a
    stock of the supplier, no quantity of one raised, and purchasers no
    longer list its stocks. *)
Theorem destroyed_supplier_takes_no_orders (user : RequestUser) (pk : Z)
    (db db' : DB) (o : Outcome) :
  DELETE_suppliers user pk db = (db', o) →
  succeeded o = true →
  (∃ u sup,
     user = Authenticated u
     ∧ is_superuser u = true
     ∧ suppliers db !! pk = Some sup
     ∧ suppliers db' !! pk = Some (mkSupplier (supplier_user sup) false))
  ∧ (∀ k, k ≠ pk → suppliers db' !! k = suppliers db !! k)
  ∧ stocks db' = stocks db
  ∧ cart_positions db' = cart_positions db
  ∧ orders db' = orders db
  ∧ order_positions db' = order_positions db
  ∧ (∀ buyer data stock_pk stock,
       data_stock data = Some stock_pk →
       stocks db !! stock_pk = Some stock →
       stock_supplier stock = pk →
       ∃ o', handle buyer (POST_cart_positions data) db' = (db', o')
             ∧ succeeded o' = false)
  ∧ (∀ buyer k n instance stock,
       user_type buyer = purchaser →
       CartPositionViewSet_get_object db' buyer k = inr instance →
       stocks db !! cp_stock instance = Some stock →
       stock_supplier stock = pk →
       0 < n →
       cp_quantity instance < n →
       handle (Authenticated buyer)
         (PATCH_cart_positions k
            (mkCartPositionData None None (Some (JInt n)) None)) db'
       = (db', bad_request "error" supplier_takes_no_orders))
  ∧ (∀ buyer rows k stock,
       is_superuser buyer = false →
       user_type buyer = purchaser →
       get_queryset StockViewSet db' buyer = Some rows →
       stocks db !! k = Some stock →
       stock_supplier stock = pk →
       k ∉ rows).
Proof.
  intros Hrun Hok.
  apply SupplierViewSet_destroy_effect in Hrun
    as [[_ Hfail]|(u & sup & -> & Hsuper & Hsup & -> & _)]; [congruence|].
  split. { exists u, sup. simpl. by rewrite lookup_insert_eq. }
  split. { intros k Hk. simpl. by rewrite lookup_insert_ne. }
  do 4 (split; [done|]). split; [|split].
  - intros buyer data stock_pk stock Hkey Hstock Hof.
    destruct (handle buyer (POST_cart_positions data) _) as [db'' o'] eqn:Hadd.
    simpl in Hadd.
    apply dispatch_cases in Hadd as [[-> Hfail]|(b & -> & Hadd)];
      [by eexists|].
    apply CartPositionViewSet_create_effect in Hadd
      as [[-> Hfail]|(s & n & pu & c & st & su & Hs & _ & _ & _ & _ & _ & Hst
                      & Hsu & Hstatus & _)]; [by eexists|].
    exfalso. simpl in Hst, Hsu. simplify_eq.
    rewrite lookup_insert_eq in Hsu. by simplify_eq.
  - intros buyer k n instance stock Htype Hget Hstock Hof Hpos Hn.
    unfold handle, dispatch, initial. simpl. unfold is_type.
    rewrite (bool_decide_eq_true_2 _ Htype).
    unfold CartPositionViewSet_update. simpl.
    assert ((n <=? 0) = false) as -> by (apply Z.leb_gt; lia). simpl.
    rewrite Hget. simpl. rewrite Hstock.
    assert ((n <=? cp_quantity instance) = false) as ->
      by (apply Z.leb_gt; lia).
    by rewrite Hof, lookup_insert_eq.
  - intros buyer rows k stock Hsuper' Htype Hrows Hstock Hof Hin.
    unfold get_queryset, StockViewSet_get_queryset in Hrows.
    rewrite Hsuper' in Hrows. unfold is_type in Hrows.
    rewrite (bool_decide_eq_true_2 _ Htype) in Hrows. simpl in Hrows.
    injection Hrows as <-. unfold pks in Hin.
    apply list_elem_of_fmap in Hin as ([k' row] & -> & Hrow).
    apply elem_of_map_to_list in Hrow. unfold queryset_filter in Hrow.
    apply map_lookup_filter_Some in Hrow as [Hrow Hshown]. simpl in *.
    simplify_eq. by rewrite lookup_insert_eq in Hshown.
Qed.

Lemma destroyed_supplier_takes_no_orders_witness :
  let stopped := DELETE_suppliers (Authenticated Scenario.root) 1 Sample.db in
  succeeded stopped.2 = true
  ∧ ∃ o,
      handle (Authenticated Sample.alice)
        (POST_cart_positions (Sample.line 1 1)) stopped.1
      = (stopped.1, o)
      ∧ succeeded o = false.
Proof.
  intros stopped. split; [vm_compute; reflexivity|].
  destruct (destroyed_supplier_takes_no_orders _ _ _ _ _
              (surjective_pairing stopped) ltac:(vm_compute; reflexivity))
    as (_ & _ & _ & _ & _ & _ & Hadd & _).
  exact (Hadd (Authenticated Sample.alice) (Sample.line 1 1) 1
           (mkStock "sku-1" 1 1 100%Q 5) eq_refl eq_refl eq_refl).
Defined.

(** ** Stocks *)

Lemma find_row_is_Some {A} (f : Z → A → bool) (table : gmap Z A) (pk : Z)
    (row : A) :
  table !! pk = Some row → f pk row = true → is_Some (find_row f table).
Proof.
  intros Hrow Hf. unfold find_row, queryset_filter.
  destruct (map_to_list (filter _ table)) as [|x rest] eqn:Hlist;
    [|by eexists].
  apply map_to_list_empty_iff in Hlist.
  assert (filter (λ row : Z * A, Is_true (f row.1 row.2)) table !! pk
          = Some row) as Hin.
  { apply map_lookup_filter_Some. split; [done|]. simpl. by rewrite Hf. }
  by rewrite Hlist in Hin.
Qed.

Lemma find_row_None {A} (f : Z → A → bool) (table : gmap Z A) (pk : Z)
    (row : A) :
  find_row f table = None → table !! pk = Some row → f pk row = false.
Proof.
  intros Hnone Hrow. destruct (f pk row) eqn:Hf; [|done].
  destruct (find_row_is_Some f table pk row Hrow Hf) as [x Hx]. congruence.
Qed.

Lemma stock_exists_true (db : DB) (pk : Z) (stock : Stock) :
  stocks db !! pk = Some stock →
  stock_exists db (stock_sku stock) (stock_product stock)
    (stock_supplier stock) = true.
Proof.
  intros Hstock. unfold stock_exists. apply bool_decide_eq_true_2.
  apply (find_row_is_Some _ _ pk stock Hstock).
  rewrite !Z.eqb_refl, !andb_true_r. by apply String.eqb_eq.
Qed.

Lemma stock_exists_false (db : DB) (sku : string) (product supplier_pk : Z)
    (pk : Z) (stock : Stock) :
  stock_exists db sku product supplier_pk = false →
  stocks db !! pk = Some stock →
  stock_key stock ≠ (sku, product, supplier_pk).
Proof.
  unfold stock_exists. intros Hnone Hstock Hkey.
  apply bool_decide_eq_false in Hnone. apply Hnone.
  apply (find_row_is_Some _ _ pk stock Hstock).
  unfold stock_key in Hkey. injection Hkey as -> -> ->.
  rewrite !Z.eqb_refl, !andb_true_r. by apply String.eqb_eq.
Qed.

(** X20.  The update of a stock that sends the stock's own sku is
    refused: the view's check for a stock with this sku, product and
    supplier finds the stock itself. *)
Theorem resending_the_sku_is_refused (u : User) (pk : Z) (stock : Stock)
    (data : StockData) (db : DB) :
  user_type u = supplier →
  StockViewSet_get_object db u pk = inr stock →
  pk_truthy (sd_product data) || pk_truthy (sd_supplier data) = false →
  sd_sku data = Some (stock_sku stock) →
  stock_sku stock ≠ "" →
  handle (Authenticated u) (PATCH_stocks pk data) db
  = (db, bad_request "error" "Stock with this sku and product already exists").
Proof.
  intros Htype Hget Hguard Hsku Hblank.
  unfold handle, dispatch, initial. simpl. unfold is_type.
  rewrite (bool_decide_eq_true_2 _ Htype).
  unfold StockViewSet_update. rewrite Hguard, Hget, Hsku.
  apply StockViewSet_get_object_inr in Hget as [Hstock _].
  rewrite (stock_exists_true _ _ _ Hstock).
  assert (String.eqb (stock_sku stock) "" = false) as ->; [|done].
  by apply String.eqb_neq.
Qed.

Lemma resending_the_sku_is_refused_witness :
  handle (Authenticated Sample.acme)
    (PATCH_stocks 1
       (mkStockData None None (Some "sku-1") (Some 120%Q) None))
    Sample.db
  = (Sample.db,
     bad_request "error" "Stock with this sku and product already exists").
Proof.
  apply (resending_the_sku_is_refused Sample.acme 1
           (mkStock "sku-1" 1 1 100%Q 5)); try done.
Defined.

Lemma return_to_stock_but_quantity (items : list (Z * Z)) :
  ∀ (table table' : gmap Z Stock) (e : option Exn),
    return_to_stock items table = (table', e) →
    ∀ pk, with_quantity 0 <$> table' !! pk = with_quantity 0 <$> table !! pk.
Proof.
  induction items as [|[s q] rest IH]; intros table table' e Hrun pk;
    simpl in Hrun.
  - by injection Hrun as <- _.
  - destruct (table !! s) as [stock|] eqn:Hs; [|by injection Hrun as <- _].
    rewrite (IH _ _ _ Hrun pk).
    destruct (decide (pk = s)) as [->|Hne].
    + by rewrite lookup_insert_eq, Hs.
    + by rewrite lookup_insert_ne.
Qed.

Lemma save_stock_but_quantity (db : DB) (stock_pk : Z) (stock : Stock)
    (quantity : Z) :
  stocks db !! stock_pk = Some stock →
  stocks_but_quantity db (save_stock_quantity stock_pk stock quantity db).
Proof.
  intros Hstock pk. simpl. destruct (decide (pk = stock_pk)) as [->|Hne].
  - by rewrite lookup_insert_eq, Hstock.
  - by rewrite lookup_insert_ne.
Qed.

(** What a request does to the table of stocks: only quantities change,
    unless it is the update of a stock, which writes the row the
    serializer made of the stock. *)
Lemma handle_stocks (user : RequestUser) (request : Request)
    (db db' : DB) (o : Outcome) :
  handle user request db = (db', o) →
  products db' = products db
  ∧ suppliers db' = suppliers db
  ∧ (stocks_but_quantity db db'
     ∨ ∃ u pk data instance row,
         user = Authenticated u
         ∧ request = PATCH_stocks pk data
         ∧ pk_truthy (sd_product data) || pk_truthy (sd_supplier data)
           = false
         ∧ stocks db !! pk = Some instance
         ∧ (supplier_user <$> suppliers db !! stock_supplier instance)
           = Some (user_id u)
         ∧ StockSerializer_validate_partial db instance data = Some row
         ∧ stocks db' = <[pk := row]> (stocks db)).
Proof.
  intros Hrun.
  assert (∀ db1 : DB,
            products db1 = products db → suppliers db1 = suppliers db →
            stocks_but_quantity db db1 →
            products db1 = products db
            ∧ suppliers db1 = suppliers db
            ∧ (stocks_but_quantity db db1
               ∨ ∃ u pk data instance row,
                   user = Authenticated u
                   ∧ request = PATCH_stocks pk data
                   ∧ pk_truthy (sd_product data)
                     || pk_truthy (sd_supplier data) = false
                   ∧ stocks db !! pk = Some instance
                   ∧ (supplier_user
                        <$> suppliers db !! stock_supplier instance)
                     = Some (user_id u)
                   ∧ StockSerializer_validate_partial db instance data
                     = Some row
                   ∧ stocks db1 = <[pk := row]> (stocks db))) as Hkept
    by (intros db1 ? ? ?; split; [done|]; split; [done|]; by left).
  destruct request as [data|k data|k|k|data|k data|k|k data|k data];
    simpl in Hrun;
    apply dispatch_cases in Hrun as [[-> _]|(u & -> & Hrun)];
    try (by apply Hkept).
  - apply CartPositionViewSet_create_effect in Hrun
      as [[-> _]|(? & ? & ? & ? & ? & ? & _ & _ & _ & _ & _ & _ & Hstock & _
                  & _ & [(-> & _)|(-> & _)])].
    + by apply Hkept.
    + apply Hkept; try done. by apply save_stock_but_quantity.
    + apply Hkept; try done. by apply save_stock_but_quantity.
  - apply CartPositionViewSet_update_effect in Hrun
      as [[-> _]|[(_ & _ & Hrun)
                 |(? & ? & ? & _ & _ & _ & _ & Hstock & Hrun)]].
    + by apply Hkept.
    + apply CartPosition_update_effect in Hrun
        as [[-> _]|(? & ? & _ & _ & -> & _)]; by apply Hkept.
    + destruct Hrun as [(_ & Hrun)|(_ & _ & Hrun)];
        apply CartPosition_update_effect in Hrun
          as [[-> _]|(? & ? & _ & _ & -> & _)];
        (apply Hkept; try done); by apply save_stock_but_quantity.
  - apply CartPositionViewSet_destroy_effect in Hrun
      as [[-> _]|(? & ? & _ & Hstock & -> & _)]; [by apply Hkept|].
    apply Hkept; try done. by apply save_stock_but_quantity.
  - apply ShoppingCartViewSet_destroy_effect in Hrun
      as [[-> _]|(? & table & e & _ & Hreturn & Hrun)]; [by apply Hkept|].
    assert (stocks db' = table ∧ products db' = products db
            ∧ suppliers db' = suppliers db) as (Hst & ? & ?)
      by (destruct e; by destruct Hrun as [-> _]).
    apply Hkept; try done. intros pk. rewrite Hst.
    by apply (return_to_stock_but_quantity _ _ _ _ Hreturn).
  - apply OrderViewSet_create_effect in Hrun
      as [[-> _]|(? & ? & ? & ? & ? & e & _ & _ & _ & _ & _ & _ & _ & Hrun)];
      [by apply Hkept|].
    simpl in Hrun. destruct e; destruct Hrun as [-> _]; by apply Hkept.
  - apply OrderViewSet_update_effect in Hrun as [->|(? & ? & _ & ->)];
      by apply Hkept.
  - apply OrderViewSet_destroy_effect in Hrun
      as [[-> _]|(? & table & e & _ & _ & _ & Hreturn & -> & _)];
      [by apply Hkept|].
    apply Hkept; try done. intros pk. simpl.
    by apply (return_to_stock_but_quantity _ _ _ _ Hreturn).
  - apply OrderPositionViewSet_update_effect in Hrun
      as [[-> _]|(? & ? & ? & ? & _ & _ & _ & _ & _ & _ & -> & _)];
      by apply Hkept.
  - unfold StockViewSet_update in Hrun.
    destruct (pk_truthy (sd_product data) || pk_truthy (sd_supplier data))
      eqn:Hguard; [injection Hrun as <- _; by apply Hkept|].
    assert (Stock_update k data u db = (db', o) ∨ db' = db) as Hcases.
    { destruct (StockViewSet_get_object db u k); [right; by simplify_eq|].
      destruct (sd_sku data); [|by left].
      match type of Hrun with (if ?c then _ else _) = _ =>
        destruct c end; [right; by simplify_eq|by left]. }
    destruct Hcases as [Hupdate| ->]; [|by apply Hkept].
    unfold Stock_update in Hupdate.
    destruct (StockViewSet_get_object db u k) as [e|instance] eqn:Hget;
      [injection Hupdate as <- _; by apply Hkept|].
    destruct (StockSerializer_validate_partial db instance data)
      as [row|] eqn:Hvalid;
      [|injection Hupdate as <- _; by apply Hkept].
    injection Hupdate as <- _. do 2 (split; [done|]). right.
    apply StockViewSet_get_object_inr in Hget as [Hstock Howner].
    by exists u, k, data, instance, row.
Qed.

Lemma but_quantity_Some (a b : option Stock) (stock : Stock) :
  with_quantity 0 <$> a = with_quantity 0 <$> b →
  a = Some stock →
  ∃ stock', b = Some stock'
            ∧ stock_key stock' = stock_key stock
            ∧ stock_price stock' = stock_price stock.
Proof.
  intros Heq ->. destruct b as [stock'|]; [|done]. exists stock'.
  split; [done|]. simpl in Heq. injection Heq as Hsku Hproduct Hsupplier Hprice.
  unfold stock_key. by rewrite Hsku, Hproduct, Hsupplier, Hprice.
Qed.

(** The row a valid partial update of a stock saves. *)
Lemma StockSerializer_validate_partial_row (db : DB) (instance row : Stock)
    (data : StockData) :
  StockSerializer_validate_partial db instance data = Some row →
  row = mkStock (default (stock_sku instance) (sd_sku data))
          (default (stock_product instance) (sd_product data))
          (default (stock_supplier instance) (sd_supplier data))
          (default (stock_price instance) (sd_price data))
          (default (stock_quantity instance) (sd_quantity data))
  ∧ (∀ pk, sd_product data = Some pk → is_Some (products db !! pk))
  ∧ (∀ pk, sd_supplier data = Some pk → is_Some (suppliers db !! pk))
  ∧ stock_sku row ≠ ""
  ∧ (∀ price, sd_price data = Some price → price_is_valid price = true)
  ∧ (stock_key row = stock_key instance
     ∨ stock_exists db (stock_sku row) (stock_product row)
         (stock_supplier row) = false).
Proof.
  unfold StockSerializer_validate_partial. intros Hvalid.
  match type of Hvalid with (if ?c then _ else _) = _ =>
    destruct c eqn:Hchecks end; [|done].
  injection Hvalid as <-. split; [done|].
  repeat (apply andb_true_iff in Hchecks as [Hchecks ?]).
  split; [|split; [|split; [|split]]].
  - intros pk Hpk. rewrite Hpk in *. by bool_to_prop.
  - intros pk Hpk. rewrite Hpk in *. by bool_to_prop.
  - simpl. bool_to_prop. by apply String.eqb_neq.
  - intros price Hprice. by rewrite Hprice in *.
  - simpl.
    match goal with H : negb (negb ?same && ?exists_) = true |- _ =>
      destruct same eqn:Hsame; destruct exists_ eqn:Hex; simpl in H;
        try done; try (by right)
    end.
    all: left; bool_to_prop; unfold stock_key; simpl;
      match goal with H : String.eqb _ _ = true |- _ =>
        apply String.eqb_eq in H end; congruence.
Qed.

Lemma handle_unique_stock (user : RequestUser) (request : Request)
    (db db' : DB) (o : Outcome) :
  handle user request db = (db', o) → unique_stock db → unique_stock db'.
Proof.
  intros Hrun Hunique.
  apply handle_stocks in Hrun
    as (_ & _ & [Hsame|(u & pk & data & instance & row & _ & _ & _
                        & Hinstance & _ & Hvalid & Hstocks)]).
  - intros k1 k2 s1 s2 H1 H2 Hkey.
    destruct (but_quantity_Some _ _ _ (Hsame k1) H1) as (t1 & Ht1 & Hk1 & _).
    destruct (but_quantity_Some _ _ _ (Hsame k2) H2) as (t2 & Ht2 & Hk2 & _).
    apply (Hunique k1 k2 t1 t2 Ht1 Ht2). congruence.
  - apply StockSerializer_validate_partial_row in Hvalid
      as (_ & _ & _ & _ & _ & Hkey).
    assert (∀ k stock, k ≠ pk → stocks db !! k = Some stock →
                       stock_key stock ≠ stock_key row) as Hfresh.
    { intros k stock Hk Hstock Heq. destruct Hkey as [Hkept|Hnone].
      - apply Hk. apply (Hunique k pk stock instance Hstock Hinstance).
        congruence.
      - by apply (stock_exists_false _ _ _ _ _ _ Hnone Hstock). }
    intros k1 k2 s1 s2 H1 H2 Heq. rewrite Hstocks in H1, H2.
    destruct (decide (k1 = pk)) as [->|Hne1];
      destruct (decide (k2 = pk)) as [->|Hne2]; [done|..].
    + rewrite lookup_insert_eq in H1. rewrite lookup_insert_ne in H2 by done.
      injection H1 as <-. by destruct (Hfresh k2 s2 Hne2 H2).
    + rewrite lookup_insert_eq in H2. rewrite lookup_insert_ne in H1 by done.
      injection H2 as <-. by destruct (Hfresh k1 s1 Hne1 H1).
    + rewrite lookup_insert_ne in H1, H2 by done. by eapply Hunique.
Qed.

Lemma sample_unique_stock : unique_stock Sample.db.
Proof.
  intros pk1 pk2 stock1 stock2 H1 H2. revert pk2 stock2 H2.
  revert pk1 stock1 H1.
  apply (bool_decide_unpack
           (map_Forall
              (λ pk1 stock1,
                 map_Forall
                   (λ pk2 stock2,
                      stock_key stock1 = stock_key stock2 → pk1 = pk2)
                   (stocks Sample.db))
              (stocks Sample.db))).
  vm_compute. exact I.
Defined.

(** X21.  The constraint [unique_stock] (sku, product, supplier) survives
    every sequence of requests. *)
Theorem unique_stock_is_kept (requests : list (RequestUser * Request)) :
  ∀ db, unique_stock db → unique_stock (run requests db).
Proof.
  induction requests as [|[user request] rest IH]; intros db Hunique; [done|].
  simpl. apply IH.
  by apply (handle_unique_stock user request db _ _
              (surjective_pairing (handle user request db))).
Qed.

Lemma unique_stock_is_kept_witness :
  unique_stock
    (run [(Authenticated Sample.acme,
           PATCH_stocks 1
             (mkStockData None None (Some "sku-2") (Some 120%Q) None));
          (Authenticated Sample.alice,
           POST_cart_positions (Sample.line 1 1))]
       Sample.db).
Proof. exact (unique_stock_is_kept _ Sample.db sample_unique_stock). Defined.

Lemma handle_stock_owner (user : RequestUser) (request : Request)
    (db db' : DB) (o : Outcome) :
  products db !! 0 = None →
  suppliers db !! 0 = None →
  handle user request db = (db', o) →
  products db' = products db
  ∧ suppliers db' = suppliers db
  ∧ ∀ pk, stock_owner <$> stocks db' !! pk = stock_owner <$> stocks db !! pk.
Proof.
  intros Hproduct Hsupplier Hrun.
  apply handle_stocks in Hrun
    as (Hproducts & Hsuppliers
        & [Hsame|(u & pk & data & instance & row & _ & _ & Hguard
                  & Hinstance & _ & Hvalid & Hstocks)]).
  - do 2 (split; [done|]). intros pk. specialize (Hsame pk).
    destruct (stocks db' !! pk) as [s'|], (stocks db !! pk) as [s|];
      try done.
    simpl in *. injection Hsame as _ Hp Hs _. unfold stock_owner. congruence.
  - do 2 (split; [done|]). intros k. rewrite Hstocks.
    destruct (decide (k = pk)) as [->|Hne]; [|by rewrite lookup_insert_ne].
    rewrite lookup_insert_eq, Hinstance. simpl. f_equal.
    apply StockSerializer_validate_partial_row in Hvalid
      as (-> & Hfkp & Hfks & _).
    apply orb_false_iff in Hguard as [Hp Hs]. unfold stock_owner. simpl.
    f_equal.
    + destruct (sd_product data) as [z|] eqn:Hz; [|done]. simpl in *.
      apply negb_false_iff, Z.eqb_eq in Hp as ->.
      destruct (Hfkp 0 eq_refl). congruence.
    + destruct (sd_supplier data) as [z|] eqn:Hz; [|done]. simpl in *.
      apply negb_false_iff, Z.eqb_eq in Hs as ->.
      destruct (Hfks 0 eq_refl). congruence.
Qed.

(** X22.  No sequence of requests creates or deletes a stock or changes
    the product or the supplier of one, in a database that has no product
    and no supplier with key 0. *)
Theorem stocks_keep_product_and_supplier
    (requests : list (RequestUser * Request)) :
  ∀ db,
    products db !! 0 = None →
    suppliers db !! 0 = None →
    ∀ pk, stock_owner <$> stocks (run requests db) !! pk
          = stock_owner <$> stocks db !! pk.
Proof.
  induction requests as [|[user request] rest IH];
    intros db Hproduct Hsupplier pk; [done|].
  simpl.
  destruct (handle_stock_owner user request db _ _ Hproduct Hsupplier
              (surjective_pairing (handle user request db)))
    as (Hproducts & Hsuppliers & Hkept).
  rewrite IH, Hkept; [done|by rewrite Hproducts|by rewrite Hsuppliers].
Qed.

Lemma stocks_keep_product_and_supplier_witness :
  stock_owner
    <$> stocks
          (run [(Authenticated Sample.acme,
                 PATCH_stocks 1
                   (mkStockData (Some 0) None (Some "sku-9") (Some 120%Q)
                      (Some 7)))]
             Sample.db) !! 1
  = Some (1, 1).
Proof.
  rewrite (stocks_keep_product_and_supplier _ Sample.db eq_refl eq_refl 1).
  reflexivity.
Defined.



(** ** Mails about order positions *)

Lemma find_unique_by_key (rows : list OrderPosition) (p : OrderPosition) :
  NoDup (op_id <$> rows) → p ∈ rows →
  List.find (λ q, op_id q =? op_id p) rows = Some p.
Proof.
  intros Hnodup Hin.
  destruct (List.find (λ q, op_id q =? op_id p) rows) as [q|] eqn:Hfind.
  - apply find_some in Hfind as [Hq Hid]. apply list_elem_of_In in Hq.
    apply Z.eqb_eq in Hid. f_equal.
    by apply (unique_by_key op_id rows).
  - apply list_elem_of_In in Hin.
    pose proof (find_none _ _ Hfind p Hin) as Hne. simpl in Hne.
    by rewrite Z.eqb_refl in Hne.
Qed.

(** X24.  When [OrderPositionViewSet.update] saves a position, the
    receivers of [signals.py] send no mail if neither flag changed, and
    otherwise the mail that lists the flags newly set, to the user of the
    order's purchaser; they never send the mail about a revoked status. *)
Theorem update_mails_what_was_set (user : RequestUser) (pk : Z)
    (data : OrderPositionData) (db db' : DB) (o : Outcome) :
  order_positions_wf db →
  (∀ p, p ∈ order_positions db → op_id p ≠ 0) →
  handle user (PATCH_order_positions pk data) db = (db', o) →
  succeeded o = true →
  ∃ instance row,
    instance ∈ order_positions db
    ∧ op_id instance = pk
    ∧ row ∈ order_positions db'
    ∧ op_id row = pk
    ∧ OrderPosition_save_signals db row
      = if bool_decide (op_confirmed row = op_confirmed instance)
           && bool_decide (op_delivered row = op_delivered instance)
        then inr None
        else
          match order_purchaser_user db (op_order instance) with
          | None => inl DoesNotExist
          | Some user_pk =>
              inr (Some (mkMail
                           ("Order position confirmation and/or delivery "
                            +:+ "status changed")
                           (changed_message row
                              (negb (op_confirmed instance)
                               && op_confirmed row)
                              (negb (op_delivered instance)
                               && op_delivered row))
                           user_pk))
          end.
Proof.
  intros [Hnodup _] Hkeys Hrun Hok. simpl in Hrun.
  apply dispatch_cases in Hrun as [[_ Hfail]|(u & -> & Hrun)]; [congruence|].
  apply OrderPositionViewSet_update_effect in Hrun
    as [[_ Hfail]|(instance & order & c & d & Hget & _ & _ & Hc & Hd & _ & ->
                   & _)]; [congruence|].
  apply OrderPositionViewSet_get_object_inr in Hget as [Hin Hpk].
  set (row := mkOrderPosition (op_id instance) (op_order instance)
                (op_stock instance) (op_quantity instance)
                (op_price instance) c d).
  exists instance, row. do 2 (split; [done|]). split; [|split; [done|]].
  { simpl. unfold replace_order_position.
    apply list_elem_of_fmap. exists instance. split; [|done].
    simpl. by rewrite Z.eqb_refl. }
  unfold OrderPosition_save_signals, cache_previous_order_position_status.
  assert ((op_id row =? 0) = false) as ->
    by (apply Z.eqb_neq; exact (Hkeys instance Hin)).
  change (op_id row) with (op_id instance).
  rewrite (find_unique_by_key _ _ Hnodup Hin).
  unfold send_email_change_order_pos_status. simpl.
  assert (op_confirmed instance && negb c = false) as Hkc.
  { destruct (op_confirmed instance) eqn:Hic; [|done].
    apply requested_flag_inr in Hc as [Hc _]. by rewrite Hc. }
  assert (op_delivered instance && negb d = false) as Hkd.
  { destruct (op_delivered instance) eqn:Hid; [|done].
    apply requested_flag_inr in Hd as [Hd _]. by rewrite Hd. }
  rewrite Hkc, Hkd. simpl.
  destruct (op_confirmed instance), (op_delivered instance), c, d; simpl;
    try done.
Qed.

Lemma update_mails_what_was_set_witness :
  OrderPosition_save_signals Sample.with_order
    (mkOrderPosition 1 1 1 1 100%Q true false)
  = inr (Some (mkMail
                 "Order position confirmation and/or delivery status changed"
                 (changed_message (mkOrderPosition 1 1 1 1 100%Q true false)
                    true false)
                 1)).
Proof.
  set (confirmed := handle (Authenticated Sample.acme)
                      (PATCH_order_positions 1 Scenario.confirm)
                      Sample.with_order).
  destruct (update_mails_what_was_set _ _ _ _ confirmed.1 confirmed.2
              sample_order_positions_wf
              ltac:(intros p Hp; vm_compute in Hp;
                    repeat (apply elem_of_cons in Hp as [->|Hp];
                            [discriminate|]);
                    by apply elem_of_nil in Hp)
              (surjective_pairing confirmed) ltac:(vm_compute; reflexivity))
    as (instance & row & Hinstance & Hkey & Hrow & Hkey' & Hmail).
  assert (instance = mkOrderPosition 1 1 1 1 100%Q false false) as ->.
  { vm_compute in Hinstance.
    apply elem_of_cons in Hinstance as [->|Hinstance]; [done|].
    apply elem_of_cons in Hinstance as [->|Hinstance]; [discriminate|].
    by apply elem_of_nil in Hinstance. }
  assert (row = mkOrderPosition 1 1 1 1 100%Q true false) as ->.
  { vm_compute in Hrow.
    apply elem_of_cons in Hrow as [->|Hrow]; [done|].
    apply elem_of_cons in Hrow as [->|Hrow]; [discriminate|].
    by apply elem_of_nil in Hrow. }
  rewrite Hmail. reflexivity.
Defined.

(** ** Uniqueness constraints of the positions *)

Lemma NoDup_fmap_filter_by {A K} (key : A → K) (f : A → bool)
    (rows : list A) :
  NoDup (key <$> rows) → NoDup (key <$> List.filter f rows).
Proof.
  induction rows as [|x rows IH]; intros Hnodup; [done|].
  rewrite fmap_cons in Hnodup. apply NoDup_cons in Hnodup as [Hx Hrows].
  simpl. destruct (f x); [|by apply IH].
  rewrite fmap_cons. apply NoDup_cons. split; [|by apply IH].
  intros Hin. apply Hx. apply list_elem_of_fmap in Hin as (y & -> & Hy).
  apply list_elem_of_fmap. exists y. split; [done|].
  by apply elem_of_filter_1 in Hy as [Hy _].
Qed.

(** Writing [row] over the row that has its key keeps the values of [key]
    distinct when [row] has the value of the row it replaces, or a value
    that no row has. *)
Lemma NoDup_fmap_replace {A K} (id : A → Z) (key : A → K) (row instance : A)
    (rows : list A) :
  NoDup (id <$> rows) →
  NoDup (key <$> rows) →
  instance ∈ rows →
  id row = id instance →
  key row = key instance ∨ key row ∉ key <$> rows →
  NoDup (key <$> ((λ p, if id p =? id row then row else p) <$> rows)).
Proof.
  intros Hids Hkeys Hin Hid Hkey.
  assert (∀ p, p ∈ rows → id p = id row → p = instance) as Hunique.
  { intros p Hp Hp'. apply (unique_by_key id rows); [done..|congruence]. }
  clear Hin Hids.
  induction rows as [|x rows IH]; [constructor|].
  rewrite !fmap_cons in *. apply NoDup_cons in Hkeys as [Hx Hrows].
  assert (NoDup (key <$> ((λ p, if id p =? id row then row else p) <$> rows)))
    as Hrest.
  { apply IH; [done| |].
    - destruct Hkey as [?|Hfresh]; [by left|]. right. intros Hin.
      apply Hfresh. by right.
    - intros p Hp. apply Hunique. by right. }
  apply NoDup_cons. split; [|done].
  intros Hin. apply list_elem_of_fmap in Hin as (y & Hy & Hin).
  apply list_elem_of_fmap in Hin as (z & -> & Hz).
  assert (∀ p, p ∈ rows → key p ≠ key x) as Hother.
  { intros p Hp Heq. apply Hx. apply list_elem_of_fmap. by exists p. }
  destruct (id x =? id row) eqn:Hxid; destruct (id z =? id row) eqn:Hzid;
    try apply Z.eqb_eq in Hxid; try apply Z.eqb_eq in Hzid.
  - assert (x = instance) as -> by (apply Hunique; [left|done]).
    assert (z = instance) as -> by (apply Hunique; [by right|done]).
    by apply (Hother instance).
  - assert (x = instance) as -> by (apply Hunique; [left|done]).
    destruct Hkey as [Hsame|Hfresh].
    + apply (Hother z Hz). congruence.
    + apply Hfresh. rewrite Hy. right. apply list_elem_of_fmap. by exists z.
  - assert (z = instance) as -> by (apply Hunique; [by right|done]).
    destruct Hkey as [Hsame|Hfresh].
    + apply (Hother instance Hz). congruence.
    + apply Hfresh. rewrite <- Hy. left.
  - by apply (Hother z).
Qed.

Lemma cart_has_stock_false (db : DB) (cart_pk stock_pk : Z) :
  cart_has_stock db cart_pk stock_pk = false →
  (cart_pk, stock_pk) ∉ cart_key <$> cart_positions db.
Proof.
  intros Hnone Hin. apply list_elem_of_fmap in Hin as (p & Hkey & Hp).
  assert (cart_has_stock db cart_pk stock_pk = true); [|congruence].
  apply cart_has_stock_true. exists p. unfold cart_key in Hkey.
  by injection Hkey as -> ->.
Qed.

Lemma cart_constraints_filter (db db' : DB) (f : CartPosition → bool) :
  cart_positions db' = List.filter f (cart_positions db) →
  next_cart_position_id db' = next_cart_position_id db →
  cart_constraints db → cart_constraints db'.
Proof.
  intros Hrows Hnext (Hids & Hbelow & Hkeys). unfold cart_constraints.
  rewrite Hrows, Hnext. split; [by apply NoDup_fmap_filter|].
  split; [|by apply NoDup_fmap_filter_by].
  intros p Hp. apply elem_of_filter_1 in Hp as [Hp _]. by apply Hbelow.
Qed.

Lemma cart_constraints_same (db db' : DB) :
  cart_positions db' = cart_positions db →
  next_cart_position_id db' = next_cart_position_id db →
  cart_constraints db → cart_constraints db'.
Proof.
  intros Hrows Hnext. unfold cart_constraints. by rewrite Hrows, Hnext.
Qed.

Lemma CartPosition_update_constraints (pk : Z) (data : CartPositionData)
    (u : User) (db db' : DB) (o : Outcome) :
  CartPosition_update pk data u db = (db', o) →
  cart_constraints db → cart_constraints db'.
Proof.
  intros Hrun Hdb.
  apply CartPosition_update_effect in Hrun
    as [[-> _]|(instance & row & Hget & Hvalid & -> & _)]; [done|].
  destruct Hdb as (Hids & Hbelow & Hkeys).
  apply CartPositionViewSet_get_object_inr in Hget as (Hin & _ & _).
  assert (cp_id row = cp_id instance
          ∧ (cart_key row = cart_key instance
             ∨ cart_key row ∉ cart_key <$> cart_positions db))
    as [Hid Hkey].
  { unfold CartPositionSerializer_validate_partial in Hvalid.
    destruct (default (JInt (cp_quantity instance)) (data_quantity data));
      try done.
    match type of Hvalid with (if ?c then _ else _) = _ =>
      destruct c eqn:Hchecks end; [|done].
    injection Hvalid as <-. split; [done|]. unfold cart_key. simpl.
    apply andb_true_iff in Hchecks as [_ Hpair].
    apply negb_true_iff, andb_false_iff in Hpair as [Hsame|Hnone].
    - left. apply negb_false_iff in Hsame. bool_to_prop. congruence.
    - right. by apply cart_has_stock_false. }
  split; [|split]; simpl.
  - by rewrite replace_cart_position_keys.
  - intros p Hp.
    apply replace_cart_position_elem_of in Hp as [[Hp _]|[-> _]];
      [by apply Hbelow|]. rewrite Hid. by apply Hbelow.
  - by apply (NoDup_fmap_replace cp_id cart_key row instance).
Qed.

Lemma handle_cart_constraints (user : RequestUser) (request : Request)
    (db db' : DB) (o : Outcome) :
  handle user request db = (db', o) →
  cart_constraints db → cart_constraints db'.
Proof.
  intros Hrun Hdb.
  destruct request as [data|k data|k|k|data|k data|k|k data|k data];
    simpl in Hrun;
    apply dispatch_cases in Hrun as [[-> _]|(u & -> & Hrun)]; try done.
  - apply CartPositionViewSet_create_effect in Hrun
      as [[-> _]|(s & n & pu & c & st & su & _ & _ & _ & _ & _ & Hnew & _ & _
                  & _ & [(-> & _)|(-> & _)])]; [done|done|].
    destruct Hdb as (Hids & Hbelow & Hkeys). split; [|split]; simpl.
    + rewrite fmap_app. apply NoDup_app. split; [done|].
      split; [|apply NoDup_singleton].
      intros x Hx Hx'. apply list_elem_of_singleton in Hx' as ->.
      apply list_elem_of_fmap in Hx as (p & Hid & Hp).
      specialize (Hbelow p Hp). simpl in Hid. lia.
    + intros p Hp. apply elem_of_app in Hp as [Hp|Hp].
      * specialize (Hbelow p Hp). lia.
      * apply list_elem_of_singleton in Hp as ->. simpl. lia.
    + rewrite fmap_app. apply NoDup_app. split; [done|].
      split; [|apply NoDup_singleton].
      intros x Hx Hx'. apply list_elem_of_singleton in Hx' as ->.
      by apply (cart_has_stock_false db c s).
  - apply CartPositionViewSet_update_effect in Hrun
      as [[-> _]|[(_ & _ & Hrun)|(? & ? & ? & _ & _ & _ & _ & _ & Hrun)]];
      [done|by eapply CartPosition_update_constraints|].
    destruct Hrun as [(_ & Hrun)|(_ & _ & Hrun)];
      by eapply CartPosition_update_constraints.
  - apply CartPositionViewSet_destroy_effect in Hrun
      as [[-> _]|(? & ? & _ & _ & -> & _)]; [done|].
    by eapply cart_constraints_filter.
  - apply ShoppingCartViewSet_destroy_effect in Hrun
      as [[-> _]|(? & ? & [e|] & _ & _ & -> & _)]; [done|done|].
    by eapply cart_constraints_filter.
  - apply OrderViewSet_create_effect in Hrun
      as [[-> _]|(? & ? & ? & ? & ? & e & _ & _ & _ & _ & _ & _ & _ & Hrun)];
      [done|].
    simpl in Hrun. destruct e; destruct Hrun as [-> _]; [done|].
    by eapply cart_constraints_filter.
  - apply OrderViewSet_update_effect in Hrun as [->|(? & ? & _ & ->)]; done.
  - apply OrderViewSet_destroy_effect in Hrun
      as [[-> _]|(? & ? & ? & _ & _ & _ & _ & -> & _)]; done.
  - apply OrderPositionViewSet_update_effect in Hrun
      as [[-> _]|(? & ? & ? & ? & _ & _ & _ & _ & _ & _ & -> & _)]; done.
  - apply StockViewSet_update_effect in Hrun
      as [->|(? & ? & _ & _ & ->)]; done.
Qed.

Lemma order_constraints_same (db db' : DB) :
  order_positions db' = order_positions db →
  next_order_position_id db' = next_order_position_id db →
  next_order_id db' = next_order_id db →
  order_constraints db → order_constraints db'.
Proof.
  intros Hrows Hnext Horder.
  unfold order_constraints, order_positions_wf, order_keys_fresh.
  by rewrite Hrows, Hnext, Horder.
Qed.

Lemma handle_order_constraints (user : RequestUser) (request : Request)
    (db db' : DB) (o : Outcome) :
  handle user request db = (db', o) →
  cart_constraints db →
  order_constraints db → order_constraints db'.
Proof.
  intros Hrun Hcart Hdb.
  pose proof Hdb as (Hwf & Hfresh & Hkeys).
  destruct (handle_order_position_kept _ _ _ _ _ Hwf Hrun) as [Hwf' _].
  destruct request as [data|k data|k|k|data|k data|k|k data|k data];
    simpl in Hrun;
    apply dispatch_cases in Hrun as [[-> _]|(u & -> & Hrun)]; try done.
  - apply CartPositionViewSet_create_effect in Hrun
      as [[-> _]|(? & ? & ? & ? & ? & ? & _ & _ & _ & _ & _ & _ & _ & _ & _
                  & [(-> & _)|(-> & _)])]; done.
  - apply CartPositionViewSet_update_effect in Hrun
      as [[-> _]|[(_ & _ & Hrun)|(? & ? & ? & _ & _ & _ & _ & _ & Hrun)]];
      [done|..].
    + apply CartPosition_update_effect in Hrun
        as [[-> _]|(? & ? & _ & _ & -> & _)]; done.
    + destruct Hrun as [(_ & Hrun)|(_ & _ & Hrun)];
        apply CartPosition_update_effect in Hrun
          as [[-> _]|(? & ? & _ & _ & -> & _)]; done.
  - apply CartPositionViewSet_destroy_effect in Hrun
      as [[-> _]|(? & ? & _ & _ & -> & _)]; done.
  - apply ShoppingCartViewSet_destroy_effect in Hrun
      as [[-> _]|(? & ? & [e|] & _ & _ & -> & _)]; done.
  - apply OrderViewSet_create_effect in Hrun
      as [[-> _]|(pu & c & cs & store & created & e & _ & _ & _ & _ & _ & _
                  & Hcreate & Hrun)]; [done|].
    apply create_order_positions_spec in Hcreate as [_ Hcreated].
    simpl in Hrun.
    assert (order_positions db' = (order_positions db ++ created)%list
            ∧ next_order_id db' = next_order_id db + 1)
      as [Hrows Hnext]
      by (destruct e; by destruct Hrun as [-> _]).
    split; [done|]. unfold order_keys_fresh. rewrite Hrows, Hnext. split.
    + intros p Hp. apply elem_of_app in Hp as [Hp|Hp].
      * specialize (Hfresh p Hp). lia.
      * apply list_elem_of_lookup_1 in Hp as [i Hi].
        destruct (Hcreated i p Hi) as (cp & _ & ->). simpl. lia.
    + rewrite fmap_app. apply NoDup_app. split; [done|]. split.
      * intros x Hx Hx'.
        apply list_elem_of_fmap in Hx as (p & -> & Hp).
        apply list_elem_of_fmap in Hx' as (q & Heq & Hq).
        apply list_elem_of_lookup_1 in Hq as [i Hi].
        destruct (Hcreated i q Hi) as (cp & _ & ->).
        specialize (Hfresh p Hp). unfold order_key in Heq. simpl in Heq.
        injection Heq as Horder _. lia.
      * destruct Hcart as (_ & _ & Hpairs).
        pose proof (NoDup_fmap_filter_by cart_key
                      (λ p, cp_shopping_cart p =? c) _ Hpairs) as Hcartkeys.
        fold (cart_positions_of db c) in Hcartkeys.
        apply NoDup_alt. intros i j x Hi Hj.
        apply list_lookup_fmap_Some in Hi as (p & -> & Hp).
        apply list_lookup_fmap_Some in Hj as (q & Heq & Hq).
        destruct (Hcreated i p Hp) as (cp & Hcp & ->).
        destruct (Hcreated j q Hq) as (cq & Hcq & ->).
        unfold order_key in Heq. simpl in Heq. injection Heq as Hstock.
        assert (cp_shopping_cart cp = c ∧ cp_shopping_cart cq = c)
          as [Hc1 Hc2].
        { split; [apply list_elem_of_lookup_2 in Hcp
                 |apply list_elem_of_lookup_2 in Hcq];
            match goal with H : _ ∈ cart_positions_of _ _ |- _ =>
              apply elem_of_filter_1 in H as [_ H]; by apply Z.eqb_eq in H
            end. }
        eapply (NoDup_lookup _ i j (cart_key cp) Hcartkeys).
        -- by rewrite list_lookup_fmap, Hcp.
        -- rewrite list_lookup_fmap, Hcq. simpl. unfold cart_key.
           by rewrite Hc1, Hc2, Hstock.
  - apply OrderViewSet_update_effect in Hrun as [->|(? & ? & _ & ->)]; done.
  - apply OrderViewSet_destroy_effect in Hrun
      as [[-> _]|(? & ? & ? & _ & _ & _ & _ & -> & _)]; done.
  - apply OrderPositionViewSet_update_effect in Hrun
      as [[-> _]|(instance & ? & c & d & Hget & _ & _ & _ & _ & _ & -> & _)];
      [done|].
    apply OrderPositionViewSet_get_object_inr in Hget as [Hin _].
    split; [done|]. split; simpl.
    + intros p Hp. unfold replace_order_position in Hp.
      apply list_elem_of_fmap in Hp as (q & -> & Hq).
      destruct (op_id q =? _); [|by apply Hfresh]. simpl.
      by apply (Hfresh instance).
    + destruct Hwf as [Hids _].
      by apply (NoDup_fmap_replace op_id order_key _ instance); try left.
  - apply StockViewSet_update_effect in Hrun
      as [->|(? & ? & _ & _ & ->)]; done.
Qed.

Lemma sample_constraints :
  cart_constraints Sample.db ∧ order_constraints Sample.db.
Proof.
  split; [split; [|split]|split; [split|split]].
  - vm_compute. constructor.
  - intros p Hp. vm_compute in Hp. by apply elem_of_nil in Hp.
  - vm_compute. constructor.
  - vm_compute. constructor.
  - intros p Hp. vm_compute in Hp. by apply elem_of_nil in Hp.
  - intros p Hp. vm_compute in Hp. by apply elem_of_nil in Hp.
  - vm_compute. constructor.
Defined.

(** X25.  The constraints [unique_shopping_cart_stock] and
    [unique_order_stock] survive every sequence of requests, together with
    the uniqueness of the positions' keys: no cart comes to hold a stock
    twice, and no order either. *)
Theorem position_constraints_are_kept
    (requests : list (RequestUser * Request)) :
  ∀ db,
    cart_constraints db →
    order_constraints db →
    cart_constraints (run requests db) ∧ order_constraints (run requests db).
Proof.
  induction requests as [|[user request] rest IH]; intros db Hcart Horder;
    [done|].
  simpl. destruct (handle user request db) as [db1 o] eqn:Hrun. simpl.
  apply IH.
  - by apply (handle_cart_constraints _ _ _ _ _ Hrun).
  - by apply (handle_order_constraints _ _ _ _ _ Hrun).
Qed.

Lemma position_constraints_are_kept_witness :
  cart_constraints Sample.with_order ∧ order_constraints Sample.with_order.
Proof.
  exact (position_constraints_are_kept
           [(Authenticated Sample.alice,
             POST_cart_positions (Sample.line 1 1));
            (Authenticated Sample.alice,
             POST_cart_positions (Sample.line 2 5));
            (Authenticated Sample.alice,
             POST_orders (mkOrderData None (Some 1)))]
           Sample.db (proj1 sample_constraints) (proj2 sample_constraints)).
Defined.

(** ** Raising a quantity and cancelling an order *)




